(** * YouTube Focus Mode: the content script, embedded and verified

    A shallow embedding of [chrome-extension/content/content.js]: the keyword
    classifier, the scan pass over the page, the reset paths (navigation and
    disable), the homepage overlay toggle, the time tracker and the two
    stat-update routines that talk to [chrome.storage.sync].

    Conventions of the embedding.
    - JavaScript strings are [string]s of code units; [toLowerCase] folds the
      letters A-Z and leaves every other code unit alone, which is what
      [String.prototype.toLowerCase] does on ASCII text.
    - JavaScript numbers that count things (minutes, blocked items,
      milliseconds) are [Z].
    - The page is the list of its elements in document order.  An element
      carries its tag name, its attributes (a [gmap]) and its class list (a
      [gset]); the results of the fixed descendant queries the script runs
      on it ([SELECTORS.videoTitle], [SELECTORS.channelName], the thumbnail
      and its badges) are fields of the element.  Video renderers do not
      nest: a query inside one of them never reaches into another, and the
      badges of a video sit in its thumbnail, where the script puts them.
    - A function that may throw returns a [completion]; the script's
      globals, the page, the clock and the sync storage area form the
      [World] that a small state-and-exception monad threads through.
    - An [async] routine whose promise nobody awaits runs up to its first
      [await] at its call; the rest of it runs when the code that called it
      has returned.  The two stat updates that one scan pass can call are
      both pending when the pass returns, and they run on in the order of
      their calls.  No other event of the page is handled between a call
      and the end of what it left pending. *)

From Stdlib Require Import ZArith Ascii Bool Lia.
From stdpp Require Import base option list gmap strings.

Local Open Scope Z_scope.

(** ** JavaScript strings *)

Module JsString.

(** Code units 65..90 are the letters A..Z. *)
Definition lower_ascii (c : ascii) : ascii :=
  let n := nat_of_ascii c in
  if ((65 <=? n)%nat && (n <=? 90)%nat)%bool then ascii_of_nat (n + 32) else c.

(** [String.prototype.toLowerCase]. *)
Fixpoint toLowerCase (s : string) : string :=
  match s with
  | EmptyString => EmptyString
  | String c rest => String (lower_ascii c) (toLowerCase rest)
  end.

(** [s.startsWith(sub)]: the helper of [includes]. *)
Fixpoint startsWith (s sub : string) {struct sub} : bool :=
  match sub, s with
  | EmptyString, _ => true
  | String a sub', String b s' => Ascii.eqb a b && startsWith s' sub'
  | String _ _, EmptyString => false
  end.

(** [String.prototype.includes]: [sub] occurs in [s] at some position. *)
Fixpoint includes (s sub : string) : bool :=
  startsWith s sub ||
  match s with
  | EmptyString => false
  | String _ s' => includes s' sub
  end.

(** What [includes] decides. *)
Definition substring_of (sub s : string) : Prop :=
  ∃ pre post : string, s = pre +:+ sub +:+ post.

End JsString.

Export JsString.

(** ** Completions, settings and the classifier *)

Inductive JsError : Type :=
| TypeError      (* property access on [undefined], iteration of a non-iterable *)
| StorageError.  (* a rejected [chrome.storage.sync] call *)

Inductive completion (A : Type) : Type :=
| Normal (a : A)
| Throw (e : JsError).
Arguments Normal {A} a.
Arguments Throw {A} e.

(** The [stats] object; a field that the stored object lacks reads as
    [undefined], here [None]. *)
Record Stats : Type := mkStats {
  educationalMinutes : option Z;
  blockedCount : option Z;
  focusStreak : option Z;
  lastActiveDate : option string
}.

(** The [focusSettings] object, as [chrome.storage.sync] or a
    [SETTINGS_UPDATED] message delivers it: nothing in the script validates
    it, so every field may be missing. *)
Record Settings : Type := mkSettings {
  focusModeEnabled : option bool;
  allowedKeywords : option (list string);
  blockedKeywords : option (list string);
  stats : option Stats
}.

(** [if (settings.focusModeEnabled)]: [undefined] is falsy. *)
Definition truthy (b : option bool) : bool := default false b.

(** [getDefaultSettings()]: the baseline of the content script. *)
Definition getDefaultSettings : Settings :=
  {| focusModeEnabled := Some true;
     allowedKeywords := Some
       ["tutorial"; "course"; "lecture"; "coding"; "programming";
        "java"; "python"; "javascript"; "react"; "dsa"; "algorithms";
        "system design"; "ai"; "machine learning"; "web development";
        "interview"; "leetcode"];
     blockedKeywords := Some
       ["prank"; "vlog"; "roast"; "shorts"; "gaming"; "reaction";
        "comedy"; "movie"; "music video"; "tiktok"; "funny"; "meme"];
     stats := None |}.

Inductive Classification : Type := blocked | educational | neutral.

(** [lowerText.includes(keyword.toLowerCase())] for some keyword of the
    list: what each [for ... of] loop of [classifyContent] looks for before
    it returns. *)
Definition matches_any (lowerText : string) (keywords : list string) : bool :=
  existsb (λ keyword, includes lowerText (toLowerCase keyword)) keywords.

(** [classifyContent(text)].  Iterating [settings.blockedKeywords] (or
    [allowedKeywords]) when the field is missing throws a [TypeError]. *)
Definition classifyContent (settings : Settings) (text : string)
  : completion Classification :=
  let lowerText := toLowerCase text in
  match blockedKeywords settings with
  | None => Throw TypeError
  | Some blockedList =>
    if matches_any lowerText blockedList then Normal blocked
    else
      match allowedKeywords settings with
      | None => Throw TypeError
      | Some allowedList =>
        if matches_any lowerText allowedList then Normal educational
        else Normal neutral
      end
  end.

(** Containment of a keyword in a text as the script tests it, after
    [toLowerCase] on both sides, and of some keyword of a list. *)
Definition contains_keyword (text keyword : string) : Prop :=
  substring_of (toLowerCase keyword) (toLowerCase text).

Definition contains_any (text : string) (keywords : list string) : Prop :=
  ∃ keyword, keyword ∈ keywords ∧ contains_keyword text keyword.

(** ** Containment without regard to case

    The "case-insensitive substring containment" of the specification,
    said of the code units themselves: nothing here goes through
    [toLowerCase].  It is what the classifier is compared with. *)

(** [up] is one of the capital letters A..Z (code units 65..90) and [lo]
    is the small letter that goes with it (97..122). *)
Definition capital_of (lo up : ascii) : Prop :=
  (65 ≤ nat_of_ascii up)%nat ∧ (nat_of_ascii up ≤ 90)%nat ∧
  nat_of_ascii lo = (nat_of_ascii up + 32)%nat.

(** The same code unit, or the same letter in the two cases. *)
Definition same_letter (a b : ascii) : Prop :=
  a = b ∨ capital_of a b ∨ capital_of b a.

(** Two strings that differ at most in the case of their letters. *)
Fixpoint equal_ignoring_case (s1 s2 : string) : Prop :=
  match s1, s2 with
  | EmptyString, EmptyString => True
  | String a s1', String b s2' => same_letter a b ∧ equal_ignoring_case s1' s2'
  | _, _ => False
  end.

(** Some stretch of [text] is [keyword], but for the case of its letters. *)
Definition occurs_ignoring_case (keyword text : string) : Prop :=
  ∃ pre mid post : string,
    text = pre +:+ mid +:+ post ∧ equal_ignoring_case mid keyword.

Definition some_occurs_ignoring_case (keywords : list string) (text : string)
  : Prop :=
  ∃ keyword, keyword ∈ keywords ∧ occurs_ignoring_case keyword text.

(** ** The page *)

(** The first descendant of a video renderer that matches
    ['ytd-thumbnail, #thumbnail'], with what the script reads and writes
    there. *)
Record Thumbnail : Type := mkThumbnail {
  style_position : option string;  (* [thumbnail.style.position] *)
  edu_badges : nat                 (* children of class [focus-edu-badge] *)
}.

Record Element : Type := mkElement {
  tagName : string;
  attributes : gmap string string;
  classList : gset string;
  title_text : option string;      (* [querySelector(SELECTORS.videoTitle)], its [textContent] *)
  channel_text : option string;    (* [querySelector(SELECTORS.channelName)], its [textContent] *)
  thumbnail : option Thumbnail;    (* [querySelector('ytd-thumbnail, #thumbnail')] *)
  has_shorts_descendant : bool;    (* some descendant matches [[is-shorts]] *)
  in_home_browse : bool            (* some ancestor matches [ytd-browse[page-subtype="home"]] *)
}.

Definition set_classList (f : gset string → gset string) (el : Element) : Element :=
  {| tagName := tagName el; attributes := attributes el;
     classList := f (classList el);
     title_text := title_text el; channel_text := channel_text el;
     thumbnail := thumbnail el;
     has_shorts_descendant := has_shorts_descendant el;
     in_home_browse := in_home_browse el |}.

Definition set_attributes (f : gmap string string → gmap string string)
  (el : Element) : Element :=
  {| tagName := tagName el; attributes := f (attributes el);
     classList := classList el;
     title_text := title_text el; channel_text := channel_text el;
     thumbnail := thumbnail el;
     has_shorts_descendant := has_shorts_descendant el;
     in_home_browse := in_home_browse el |}.

Definition set_thumbnail (f : Thumbnail → Thumbnail) (el : Element) : Element :=
  {| tagName := tagName el; attributes := attributes el;
     classList := classList el;
     title_text := title_text el; channel_text := channel_text el;
     thumbnail := f <$> thumbnail el;
     has_shorts_descendant := has_shorts_descendant el;
     in_home_browse := in_home_browse el |}.

(** [el.classList.add(c)], [el.classList.remove(c)], [el.classList.contains(c)]. *)
Definition classList_add (c : string) : Element → Element :=
  set_classList (λ cl, cl ∪ {[c]}).
Definition classList_remove (c : string) : Element → Element :=
  set_classList (λ cl, cl ∖ {[c]}).
Definition classList_contains (c : string) (el : Element) : bool :=
  bool_decide (c ∈ classList el).

(** [el.setAttribute(k, v)], [el.removeAttribute(k)], [el.hasAttribute(k)]. *)
Definition setAttribute (k v : string) : Element → Element :=
  set_attributes (λ m, <[k := v]> m).
Definition removeAttribute (k : string) : Element → Element :=
  set_attributes (λ m, delete k m).
Definition hasAttribute (k : string) (el : Element) : bool :=
  bool_decide (is_Some (attributes el !! k)).

(** [el.dataset.focusProcessed] is the attribute [data-focus-processed]. *)
Definition dataset_focusProcessed (el : Element) : option string :=
  attributes el !! "data-focus-processed".

(** [video.querySelector('.focus-edu-badge')] is non-null. *)
Definition has_badge (el : Element) : bool :=
  match thumbnail el with
  | Some t => bool_decide (edu_badges t ≠ 0%nat)
  | None => false
  end.

(** The selectors of the script, as predicates on elements. *)
Module SELECTORS.

Definition tag_in (tags : list string) (el : Element) : bool :=
  bool_decide (tagName el ∈ tags).

(** ['ytd-browse[page-subtype="home"] #contents'] *)
Definition homeFeed (el : Element) : bool :=
  bool_decide (attributes el !! "id" = Some "contents") && in_home_browse el.

(** ['ytd-reel-shelf-renderer, ytd-rich-shelf-renderer[is-shorts], [is-shorts]'] *)
Definition shorts (el : Element) : bool :=
  tag_in ["ytd-reel-shelf-renderer"] el
  || (tag_in ["ytd-rich-shelf-renderer"] el && hasAttribute "is-shorts" el)
  || hasAttribute "is-shorts" el.

(** ['ytd-mini-guide-entry-renderer[aria-label="Shorts"]'] *)
Definition shortsTab (el : Element) : bool :=
  tag_in ["ytd-mini-guide-entry-renderer"] el
  && bool_decide (attributes el !! "aria-label" = Some "Shorts").

(** ['ytd-rich-section-renderer:has([is-shorts])'] *)
Definition shortsSection (el : Element) : bool :=
  tag_in ["ytd-rich-section-renderer"] el && has_shorts_descendant el.

(** ['ytd-video-renderer, ytd-rich-item-renderer, ytd-compact-video-renderer'] *)
Definition videoRenderer (el : Element) : bool :=
  tag_in ["ytd-video-renderer"; "ytd-rich-item-renderer";
          "ytd-compact-video-renderer"] el.

(** ['.focus-hidden'] and ['[data-focus-processed]'] *)
Definition focus_hidden (el : Element) : bool :=
  classList_contains "focus-hidden" el.
Definition data_focus_processed (el : Element) : bool :=
  hasAttribute "data-focus-processed" el.

End SELECTORS.

Record Page : Type := mkPage {
  pathname : string;                 (* [window.location.pathname] *)
  elements : list Element;           (* the elements, in document order *)
  home_browse : bool;                (* [querySelector('ytd-browse[page-subtype="home"]')] is non-null *)
  dashboard : option (gset string);  (* class list of [#focus-mode-dashboard], if present *)
  watch_heading : option string;     (* text of the first ['h1.ytd-video-primary-info-renderer, h1.ytd-watch-metadata'] *)
  search_box : bool                  (* [querySelector('input#search')] is non-null *)
}.

Definition set_elements (f : list Element → list Element) (p : Page) : Page :=
  {| pathname := pathname p; elements := f (elements p);
     home_browse := home_browse p; dashboard := dashboard p;
     watch_heading := watch_heading p; search_box := search_box p |}.

Definition set_dashboard (d : option (gset string)) (p : Page) : Page :=
  {| pathname := pathname p; elements := elements p;
     home_browse := home_browse p; dashboard := d;
     watch_heading := watch_heading p; search_box := search_box p |}.

(** [document.querySelectorAll(sel).forEach(f)], when [f] only touches the
    element it is given. *)
Definition forEach_matching (sel : Element → bool) (f : Element → Element)
  (els : list Element) : list Element :=
  (λ el, if sel el then f el else el) <$> els.

(** [const x = document.querySelector(sel); if (x) f(x)]: the first match
    in document order. *)
Fixpoint first_matching (sel : Element → bool) (f : Element → Element)
  (els : list Element) : list Element :=
  match els with
  | [] => []
  | el :: rest =>
    if sel el then f el :: rest else el :: first_matching sel f rest
  end.

(** The overlay is on screen: the node exists and lacks the class [hidden]. *)
Definition dashboard_shown (p : Page) : bool :=
  match dashboard p with
  | Some cl => bool_decide ("hidden" ∉ cl)
  | None => false
  end.

(** ** The world of the content script *)

(** The [chrome.storage.sync] area, as far as the script uses it: the item
    stored under the key [focusSettings], whether [get] calls and [set]
    calls reject, and the values written so far. *)
Record Storage : Type := mkStorage {
  focusSettings : option Settings;
  get_rejects : bool;
  set_rejects : bool;
  set_log : list Settings
}.

Record World : Type := mkWorld {
  document : Page;
  settings : Settings;       (* [let settings] *)
  sync : Storage;
  lastTrackTime : Z;         (* [let lastTrackTime] *)
  now : Z                    (* what [Date.now()] returns *)
}.

Definition set_document (f : Page → Page) (w : World) : World :=
  {| document := f (document w); settings := settings w; sync := sync w;
     lastTrackTime := lastTrackTime w; now := now w |}.

Definition set_settings (s : Settings) (w : World) : World :=
  {| document := document w; settings := s; sync := sync w;
     lastTrackTime := lastTrackTime w; now := now w |}.

Definition set_sync (st : Storage) (w : World) : World :=
  {| document := document w; settings := settings w; sync := st;
     lastTrackTime := lastTrackTime w; now := now w |}.

Definition set_lastTrackTime (t : Z) (w : World) : World :=
  {| document := document w; settings := settings w; sync := sync w;
     lastTrackTime := t; now := now w |}.

(** State and exceptions.  A [Throw] keeps the state reached so far, as a
    JavaScript exception keeps the mutations made before it. *)
Definition M (A : Type) : Type := World → completion A * World.

#[export] Instance M_ret : MRet M := λ A a w, (Normal a, w).
#[export] Instance M_bind : MBind M := λ A B f m w,
  match m w with
  | (Normal a, w') => f a w'
  | (Throw e, w') => (Throw e, w')
  end.

Definition throw {A : Type} (e : JsError) : M A := λ w, (Throw e, w).

(** [try { body } catch (error) { handler }] *)
Definition try_catch {A : Type} (body : M A) (handler : JsError → M A) : M A :=
  λ w, match body w with
       | (Normal a, w') => (Normal a, w')
       | (Throw e, w') => handler e w'
       end.

Definition get_world : M World := λ w, (Normal w, w).
Definition modify (f : World → World) : M unit := λ w, (Normal tt, f w).
Definition on_elements (f : list Element → list Element) : M unit :=
  modify (set_document (set_elements f)).

(** [await chrome.storage.sync.get(['focusSettings'])], then
    [result.focusSettings]. *)
Definition storage_get : M (option Settings) := λ w,
  if get_rejects (sync w) then (Throw StorageError, w)
  else (Normal (focusSettings (sync w)), w).

(** [await chrome.storage.sync.set({ focusSettings: value })] *)
Definition storage_set (value : Settings) : M unit := λ w,
  if set_rejects (sync w) then (Throw StorageError, w)
  else (Normal tt,
        set_sync {| focusSettings := Some value;
                    get_rejects := get_rejects (sync w);
                    set_rejects := set_rejects (sync w);
                    set_log := set_log (sync w) ++ [value] |} w).

(** ** The script *)

(** [loadSettings()] *)
Definition loadSettings : M unit :=
  try_catch
    (result ← storage_get;
     modify (set_settings (default getDefaultSettings result)))
    (λ error, modify (set_settings getDefaultSettings)).

(** [isHome] of [checkForHomepage]. *)
Definition isHome (p : Page) : bool :=
  bool_decide (pathname p = "/")
  || bool_decide (pathname p = "/feed/subscriptions")
  || home_browse p.

(** [showFocusDashboard()]: create the node on first use, drop its class
    [hidden], hide the home feed. *)
Definition showFocusDashboard : M unit :=
  modify (set_document (λ p,
    let dashboard := default {["focus-mode-dashboard"]} (dashboard p) in
    set_dashboard (Some (dashboard ∖ {["hidden"]}))
      (set_elements
         (first_matching SELECTORS.homeFeed (classList_add "focus-hidden")) p))).

(** [hideFocusDashboard()] *)
Definition hideFocusDashboard : M unit :=
  w ← get_world;
  modify (set_document (λ p,
    set_dashboard ((λ cl, cl ∪ {["hidden"]}) <$> dashboard p) p));;
  if negb (truthy (focusModeEnabled (settings w))) then
    on_elements
      (first_matching SELECTORS.homeFeed (classList_remove "focus-hidden"))
  else mret tt.

(** [checkForHomepage()] *)
Definition checkForHomepage : M unit :=
  w ← get_world;
  if isHome (document w) && truthy (focusModeEnabled (settings w))
  then showFocusDashboard
  else hideFocusDashboard.

(** [hideShorts()] *)
Definition hideShorts : M unit :=
  on_elements (forEach_matching SELECTORS.shorts (classList_add "focus-hidden"));;
  on_elements (first_matching SELECTORS.shortsTab (classList_add "focus-hidden"));;
  on_elements (forEach_matching SELECTORS.shortsSection (classList_add "focus-hidden")).

(** [hideVideo(video)] *)
Definition hideVideo (video : Element) : Element :=
  classList_add "focus-hidden" video.

(** [markAsEducational(video)] *)
Definition markAsEducational (video : Element) : Element :=
  if has_badge video then video
  else
    set_thumbnail
      (λ t, {| style_position := Some "relative";
               edu_badges := S (edu_badges t) |})
      video.

(** The callback that [filterVideos] hands to [forEach], past its first
    line: mark the video, read its texts, classify, act.  The result is the
    video after the call, and what the call added to [blockedCount] unless
    it threw. *)
Definition classify_and_mark (s : Settings) (video : Element)
  : Element * completion Z :=
  let video := setAttribute "data-focus-processed" "true" video in
  match title_text video with
  | None => (video, Normal 0)
  | Some titleText =>
    let title := toLowerCase titleText in
    let channel :=
      match channel_text video with
      | Some channelText => toLowerCase channelText
      | None => ""
      end in
    let combinedText := title +:+ " " +:+ channel in
    match classifyContent s combinedText with
    | Throw e => (video, Throw e)
    | Normal blocked => (hideVideo video, Normal 1)
    | Normal educational => (markAsEducational video, Normal 0)
    | Normal neutral => (video, Normal 0)
    end
  end.

(** The whole callback: [if (video.dataset.focusProcessed === 'true') return;]
    comes first. *)
Definition filterVideo (s : Settings) (video : Element)
  : Element * completion Z :=
  if bool_decide (dataset_focusProcessed video = Some "true") then
    (video, Normal 0)
  else classify_and_mark s video.

(** [videos.forEach(...)] over the elements that match
    [SELECTORS.videoRenderer], threading [blockedCount]; an exception in the
    callback ends the loop and leaves the remaining elements untouched. *)
Fixpoint forEach_video (s : Settings) (els : list Element) (blockedCount : Z)
  : list Element * completion Z :=
  match els with
  | [] => ([], Normal blockedCount)
  | el :: rest =>
    if SELECTORS.videoRenderer el then
      match filterVideo s el with
      | (el', Normal inc) =>
        let '(rest', r) := forEach_video s rest (blockedCount + inc) in
        (el' :: rest', r)
      | (el', Throw e) => (el' :: rest, Throw e)
      end
    else
      let '(rest', r) := forEach_video s rest blockedCount in
      (el :: rest', r)
  end.

Definition no_stats : Stats :=
  {| educationalMinutes := None; blockedCount := None;
     focusStreak := None; lastActiveDate := None |}.

(** The two assignments of [updateBlockedCount]:
    [currentSettings.stats = currentSettings.stats || {}] and
    [currentSettings.stats.blockedCount =
       (currentSettings.stats.blockedCount || 0) + count]. *)
Definition add_blockedCount (count : Z) (currentSettings : Settings) : Settings :=
  let st := default no_stats (stats currentSettings) in
  {| focusModeEnabled := focusModeEnabled currentSettings;
     allowedKeywords := allowedKeywords currentSettings;
     blockedKeywords := blockedKeywords currentSettings;
     stats := Some
       {| educationalMinutes := educationalMinutes st;
          blockedCount := Some (default 0 (blockedCount st) + count);
          focusStreak := focusStreak st;
          lastActiveDate := lastActiveDate st |} |}.

(** The same two assignments of [updateEducationalTime]. *)
Definition add_educationalMinutes (minutes : Z) (currentSettings : Settings)
  : Settings :=
  let st := default no_stats (stats currentSettings) in
  {| focusModeEnabled := focusModeEnabled currentSettings;
     allowedKeywords := allowedKeywords currentSettings;
     blockedKeywords := blockedKeywords currentSettings;
     stats := Some
       {| educationalMinutes := Some (default 0 (educationalMinutes st) + minutes);
          blockedCount := blockedCount st;
          focusStreak := focusStreak st;
          lastActiveDate := lastActiveDate st |} |}.

(** ** Calls that nobody awaits

    [updateBlockedCount] and [updateEducationalTime] are [async], and
    [filterVideos] and [trackEducationalTime] call them without [await].
    Such a call runs the body up to its first [await], that is until
    [chrome.storage.sync.get] has been called, and returns; what is left
    of the body runs when the answer is delivered, which is after the
    code that made the call has run to its end. *)

(** What the storage area answers to a [get] call made now: the item
    stored under [focusSettings], or a rejection. *)
Definition storage_answer (w : World) : completion (option Settings) :=
  if get_rejects (sync w) then Throw StorageError
  else Normal (focusSettings (sync w)).

(** [chrome.storage.sync.get(['focusSettings'])] is called: the answer is
    made from what the area holds at the call and is delivered later. *)
Definition storage_get_call : M (completion (option Settings)) :=
  w ← get_world; mret (storage_answer w).

(** [await] of a promise that settles with [answer]. *)
Definition await {A : Type} (answer : completion A) : M A := λ w, (answer, w).

(** What is left to run of a call that waits at an [await]. *)
Definition Pending : Type := M unit.

(** The body shared by the two stat updates, from its first [await] on,
    when the [get] call is answered with [answer].  With nothing stored,
    [result.focusSettings || settings] is the script's own settings object,
    so the assignments change it in place before [set] is called. *)
Definition update_resume (change : Settings → Settings)
    (answer : completion (option Settings)) : Pending :=
  try_catch
    (result ← await answer;
     match result with
     | Some stored => storage_set (change stored)
     | None =>
       w ← get_world;
       let currentSettings := change (settings w) in
       modify (set_settings currentSettings);;
       storage_set currentSettings
     end)
    (λ error, mret tt).

(** A stat update as its caller sees it: the [get] call is made, and the
    rest of the body is left pending. *)
Definition update_call (change : Settings → Settings) : M Pending :=
  answer ← storage_get_call; mret (update_resume change answer).

(** The pending calls run on, in the order in which they were made.  Each
    is a task of its own: an exception that escaped one would be reported
    by the browser and would not keep the next from running. *)
Definition settle (pending : list Pending) : M unit := λ w,
  (Normal tt, foldl (λ w rest, (rest w).2) w pending).

(** [body] runs and the calls it leaves pending are added to the [earlier]
    ones; they all run on once [body] is over, also when it threw. *)
Definition then_settle (earlier : list Pending) (body : M (list Pending))
  : M unit := λ w,
  match body w with
  | (Normal later, w') => settle (earlier ++ later) w'
  | (Throw e, w') => (Throw e, (settle earlier w').2)
  end.

(** A stat update from its call to its end, when nothing else runs between
    the [get] call and its answer. *)
Definition update_stored (change : Settings → Settings) : M unit :=
  rest ← update_call change; rest.

(** [updateBlockedCount(count)]: the call, and the call with its rest. *)
Definition updateBlockedCount_call (count : Z) : M Pending :=
  update_call (add_blockedCount count).
Definition updateBlockedCount (count : Z) : M unit :=
  update_stored (add_blockedCount count).

(** [updateEducationalTime(minutes)]: the call, and the call with its rest. *)
Definition updateEducationalTime_call (minutes : Z) : M Pending :=
  update_call (add_educationalMinutes minutes).
Definition updateEducationalTime (minutes : Z) : M unit :=
  update_stored (add_educationalMinutes minutes).

(** [filterVideos()], as far as it runs before it returns: the loop over
    the videos and, if it blocked any, the call of [updateBlockedCount],
    which it leaves pending. *)
Definition filterVideos_call : M (list Pending) :=
  w ← get_world;
  let '(els, r) := forEach_video (settings w) (elements (document w)) 0 in
  on_elements (λ _, els);;
  match r with
  | Throw e => throw e
  | Normal blockedCount =>
    if bool_decide (0 < blockedCount) then
      rest ← updateBlockedCount_call blockedCount; mret [rest]
    else mret []
  end.

(** [filterVideos()] called on its own: its update runs on with nothing
    else in between. *)
Definition filterVideos : M unit :=
  pending ← filterVideos_call; settle pending.

(** [trackEducationalTime()], as far as it runs before it returns; the
    call of [updateEducationalTime] is left pending. *)
Definition trackEducationalTime_call : M (list Pending) :=
  w ← get_world;
  if negb (includes (pathname (document w)) "/watch") then mret []
  else
    match watch_heading (document w) with
    | None => mret []
    | Some headingText =>
      let title := toLowerCase headingText in
      match allowedKeywords (settings w) with
      | None => throw TypeError
      | Some allowedList =>
        let isEducational := matches_any title allowedList in
        if isEducational then
          let elapsed := (now w - lastTrackTime w) `div` 60000 in
          if bool_decide (1 ≤ elapsed) then
            rest ← updateEducationalTime_call elapsed;
            modify (set_lastTrackTime (now w));;
            mret [rest]
          else mret []
        else mret []
      end
    end.

(** [trackEducationalTime()] called on its own: its update runs on with
    nothing else in between. *)
Definition trackEducationalTime : M unit :=
  pending ← trackEducationalTime_call; settle pending.

(** Every [.focus-edu-badge] element is removed from the document. *)
Definition remove_badges (el : Element) : Element :=
  set_thumbnail
    (λ t, {| style_position := style_position t; edu_badges := 0 |}) el.

(** [removeAllFilters()] *)
Definition removeAllFilters : M unit :=
  on_elements
    (forEach_matching SELECTORS.focus_hidden (classList_remove "focus-hidden"));;
  on_elements (fmap remove_badges);;
  on_elements
    (forEach_matching SELECTORS.data_focus_processed
       (removeAttribute "data-focus-processed"));;
  hideFocusDashboard.

(** [scanAndFilter()], and then the stat updates that the pass has called:
    [filterVideos] and [trackEducationalTime] both return before either
    update goes on, so both [get] calls are answered from the storage area
    as the pass found it.  What a handler does after [scanAndFilter()] and
    before the updates run on is [checkForHomepage()], which touches
    neither the storage area nor [settings.stats]. *)
Definition scanAndFilter : M unit :=
  w ← get_world;
  if negb (truthy (focusModeEnabled (settings w))) then removeAllFilters
  else
    hideShorts;;
    called ← filterVideos_call;
    then_settle called trackEducationalTime_call.

(** [onNavigate()], up to the point where it arms its timer. *)
Definition onNavigate : M unit :=
  on_elements
    (forEach_matching SELECTORS.data_focus_processed
       (removeAttribute "data-focus-processed")).

(** The timer callback of [initialize] and of [onNavigate]. *)
Definition settled_scan : M unit :=
  scanAndFilter;; checkForHomepage.

Inductive Message : Type :=
| SETTINGS_UPDATED (newSettings : Settings)
| OTHER_MESSAGE.

(** [handleMessage(message, sender, sendResponse)] *)
Definition handleMessage (message : Message) : M unit :=
  match message with
  | SETTINGS_UPDATED newSettings =>
    modify (set_settings newSettings);;
    if truthy (focusModeEnabled newSettings)
    then scanAndFilter;; checkForHomepage
    else removeAllFilters
  | OTHER_MESSAGE => mret tt
  end.

(** The events the script reacts to once [initialize] has run. *)
Inductive Event : Type :=
| Poll                     (* the [setInterval] tick, every 2000 ms *)
| DebouncedScan            (* [setTimeout(scanAndFilter, 200)] of the observer *)
| SettledScan              (* the 500 ms timer of [initialize] and [onNavigate] *)
| Navigate                 (* ['yt-navigate-finish'] *)
| Incoming (message : Message)
| SearchClick.             (* a click on [#focus-search-btn] of the overlay *)

Definition handler (ev : Event) : M unit :=
  match ev with
  | Poll =>
    w ← get_world;
    if truthy (focusModeEnabled (settings w)) then scanAndFilter else mret tt
  | DebouncedScan => scanAndFilter
  | SettledScan => settled_scan
  | Navigate => onNavigate
  | Incoming message => handleMessage message
  | SearchClick =>
    w ← get_world;
    match dashboard (document w) with
    | None => mret tt    (* no overlay, no button *)
    | Some _ =>
      if search_box (document w) then hideFocusDashboard else mret tt
    end
  end.

(** The world after an event; an exception that escapes a handler is
    reported by the browser and the page stays as the handler left it. *)
Definition step (ev : Event) (w : World) : World := (handler ev w).2.

(** ** What the user sees of an element *)

Inductive Display : Type := hidden | badged | plain.

Definition display (el : Element) : Display :=
  if SELECTORS.focus_hidden el then hidden
  else if has_badge el then badged
  else plain.

(** The marker that makes [filterVideos] skip a video. *)
Definition processed (el : Element) : Prop :=
  dataset_focusProcessed el = Some "true".

Definition all_videos_processed (els : list Element) : Prop :=
  Forall (λ el, SELECTORS.videoRenderer el = true → processed el) els.

(** ** The passes as functions on the element list *)

(** What [hideShorts] does to the elements. *)
Definition shorts_pass (els : list Element) : list Element :=
  forEach_matching SELECTORS.shortsSection (classList_add "focus-hidden")
    (first_matching SELECTORS.shortsTab (classList_add "focus-hidden")
       (forEach_matching SELECTORS.shorts (classList_add "focus-hidden") els)).

(** What the three loops of [removeAllFilters] do to the elements. *)
Definition reset_pass (els : list Element) : list Element :=
  forEach_matching SELECTORS.data_focus_processed
    (removeAttribute "data-focus-processed")
    (remove_badges <$>
       forEach_matching SELECTORS.focus_hidden
         (classList_remove "focus-hidden") els).

(** What [removeAllFilters] makes of one element. *)
Definition reset_element (el : Element) : Element :=
  removeAttribute "data-focus-processed"
    (remove_badges (classList_remove "focus-hidden" el)).

(** What the loop of [onNavigate] does to the elements. *)
Definition clear_markers (els : list Element) : list Element :=
  forEach_matching SELECTORS.data_focus_processed
    (removeAttribute "data-focus-processed") els.

(** An element that shows no trace of the script. *)
Definition untouched (el : Element) : Prop :=
  ("focus-hidden" ∉ classList el) ∧
  attributes el !! "data-focus-processed" = None ∧
  has_badge el = false.

(** What the script never changes on an element: its tag, its texts, its
    place in the tree, and every attribute but the marker. *)
Definition same_node (el el' : Element) : Prop :=
  tagName el' = tagName el ∧
  (∀ k, k ≠ "data-focus-processed" → attributes el' !! k = attributes el !! k) ∧
  title_text el' = title_text el ∧
  channel_text el' = channel_text el ∧
  has_shorts_descendant el' = has_shorts_descendant el ∧
  in_home_browse el' = in_home_browse el.

(** [el'] is [el] after steps that only add classes. *)
Definition grows (el el' : Element) : Prop :=
  same_node el el' ∧ classList el ⊆ classList el'.

(** Two settings objects that agree on the switch and on both keyword
    lists. *)
Definition same_policy (s s' : Settings) : Prop :=
  focusModeEnabled s' = focusModeEnabled s ∧
  allowedKeywords s' = allowedKeywords s ∧
  blockedKeywords s' = blockedKeywords s.

(** A pending call that leaves the page alone, and the settings with the
    switch and the keyword lists they have. *)
Definition keeps_policy (rest : Pending) : Prop :=
  ∀ w, document (rest w).2 = document w ∧
       same_policy (settings w) (settings (rest w).2).

(** The host page renders (or re-renders) the texts of an element. *)
Definition host_set_texts (title channel : option string) (el : Element)
  : Element :=
  {| tagName := tagName el; attributes := attributes el;
     classList := classList el;
     title_text := title; channel_text := channel;
     thumbnail := thumbnail el;
     has_shorts_descendant := has_shorts_descendant el;
     in_home_browse := in_home_browse el |}.

(** The later life of one video: before each further pass the host may
    render new texts, and each pass runs the callback under the settings of
    its time.  The result is the video at the end and what each pass
    added to its [blockedCount]. *)
Fixpoint later_passes
    (rounds : list (Settings * (option string * option string)))
    (video : Element) : Element * list (completion Z) :=
  match rounds with
  | [] => (video, [])
  | (s, (title, channel)) :: rest =>
    let '(video1, r) := filterVideo s (host_set_texts title channel video) in
    let '(video2, rs) := later_passes rest video1 in
    (video2, r :: rs)
  end.

(** The events that strip markers: navigation, and whatever runs
    [removeAllFilters] (a scan while focus mode is off, a settings update
    that switches it off). *)
Definition strips_markers (ev : Event) (w : World) : bool :=
  match ev with
  | Navigate => true
  | Poll => false
  | DebouncedScan | SettledScan => negb (truthy (focusModeEnabled (settings w)))
  | Incoming (SETTINGS_UPDATED newSettings) =>
    negb (truthy (focusModeEnabled newSettings))
  | Incoming OTHER_MESSAGE => false
  | SearchClick => false
  end.

(** [el'] still carries the marker if [el] did. *)
Definition marker_kept (el el' : Element) : Prop :=
  processed el → processed el'.

(** The callback of [filterVideos] as the loop applies it to an element of
    the page: only video renderers are visited. *)
Definition visit (s : Settings) (el : Element) : Element :=
  if SELECTORS.videoRenderer el then (filterVideo s el).1 else el.

Definition with_thumbnail (th : option Thumbnail) (el : Element) : Element :=
  {| tagName := tagName el; attributes := attributes el;
     classList := classList el;
     title_text := title_text el; channel_text := channel_text el;
     thumbnail := th;
     has_shorts_descendant := has_shorts_descendant el;
     in_home_browse := in_home_browse el |}.

(** What is left of a visit after the reset: the inline style that
    [markAsEducational] put on the thumbnail. *)
Definition restyle (s : Settings) (el : Element) : Element :=
  with_thumbnail (thumbnail (reset_element (visit s el))) el.

(** An element the video loop has not been to. *)
Definition unscanned (el : Element) : Prop :=
  ¬ processed el ∧ has_badge el = false.

(** The page after a settings update that has focus mode on: Shorts
    hidden, videos visited, then the homepage check. *)
Definition enable_page (s : Settings) (p : Page) : Page :=
  let scanned := set_elements (λ els, visit s <$> shorts_pass els) p in
  if isHome p then
    set_dashboard
      (Some (default {["focus-mode-dashboard"]} (dashboard p) ∖ {["hidden"]}))
      (set_elements
         (first_matching SELECTORS.homeFeed (classList_add "focus-hidden"))
         scanned)
  else
    set_dashboard ((λ cl, cl ∪ {["hidden"]}) <$> dashboard p) scanned.

(** The page after a settings update that has focus mode off. *)
Definition disable_page (p : Page) : Page :=
  set_dashboard ((λ cl, cl ∪ {["hidden"]}) <$> dashboard p)
    (set_elements (fmap reset_element) p).

(** The events that run a scan pass without touching the settings. *)
Definition is_scan (ev : Event) : bool :=
  match ev with
  | Poll | DebouncedScan | SettledScan => true
  | Navigate | Incoming _ | SearchClick => false
  end.

(** The world after a sequence of events, first event first. *)
Definition run (evs : list Event) (w : World) : World :=
  foldl (λ w ev, step ev w) w evs.

(** A list on which [hideShorts] has nothing left to do. *)
Definition shorts_settled (els : list Element) : Prop :=
  forEach_matching SELECTORS.shorts (classList_add "focus-hidden") els = els ∧
  first_matching SELECTORS.shortsTab (classList_add "focus-hidden") els = els ∧
  forEach_matching SELECTORS.shortsSection (classList_add "focus-hidden") els
    = els.

(** The overlay is off whenever focus mode is off. *)
Definition overlay_respects_switch (w : World) : Prop :=
  truthy (focusModeEnabled (settings w)) = false →
  dashboard_shown (document w) = false.

#[export] Instance processed_dec (el : Element) : Decision (processed el).
Proof. unfold processed. apply _. Defined.

#[export] Instance untouched_dec (el : Element) : Decision (untouched el).
Proof. unfold untouched. apply _. Defined.

#[export] Instance all_videos_processed_dec (els : list Element) :
  Decision (all_videos_processed els).
Proof. unfold all_videos_processed. apply _. Defined.

(** ** Reference behaviour and sample inputs *)

(** Default merging as the specification words it: "missing stat fields
    default to zero, missing keyword lists default to the baseline lists".
    This is the yardstick [loadSettings] is compared with; the content
    script itself has no such function. *)
Definition spec_default_merge (stored : Settings) : Settings :=
  let st := default no_stats (stats stored) in
  {| focusModeEnabled := focusModeEnabled stored;
     allowedKeywords :=
       Some (default (default [] (allowedKeywords getDefaultSettings))
                     (allowedKeywords stored));
     blockedKeywords :=
       Some (default (default [] (blockedKeywords getDefaultSettings))
                     (blockedKeywords stored));
     stats := Some
       {| educationalMinutes := Some (default 0 (educationalMinutes st));
          blockedCount := Some (default 0 (blockedCount st));
          focusStreak := Some (default 0 (focusStreak st));
          lastActiveDate := lastActiveDate st |} |}.

(** A video renderer with the given title and channel texts, a thumbnail,
    and no trace of the script yet. *)
Definition sample_video (title channel : option string) : Element :=
  {| tagName := "ytd-video-renderer"; attributes := ∅; classList := ∅;
     title_text := title; channel_text := channel;
     thumbnail := Some {| style_position := None; edu_badges := 0 |};
     has_shorts_descendant := false; in_home_browse := false |}.

(** A shelf of Shorts. *)
Definition sample_shelf : Element :=
  {| tagName := "ytd-reel-shelf-renderer"; attributes := ∅; classList := ∅;
     title_text := None; channel_text := None; thumbnail := None;
     has_shorts_descendant := true; in_home_browse := false |}.

Definition sample_settings : Settings :=
  {| focusModeEnabled := Some true;
     allowedKeywords := Some ["python"; "react"];
     blockedKeywords := Some ["prank"];
     stats := Some {| educationalMinutes := Some 7; blockedCount := Some 3;
                      focusStreak := Some 2; lastActiveDate := None |} |}.

Definition sample_disabled : Settings :=
  {| focusModeEnabled := Some false;
     allowedKeywords := Some ["python"; "react"];
     blockedKeywords := Some ["prank"];
     stats := None |}.

(** Stored settings that switch focus mode on but carry no keyword lists. *)
Definition sample_no_lists : Settings :=
  {| focusModeEnabled := Some true; allowedKeywords := None;
     blockedKeywords := None; stats := None |}.

Definition sample_storage (stored : option Settings) : Storage :=
  {| focusSettings := stored; get_rejects := false; set_rejects := false;
     set_log := [] |}.

(** A results page with a blocked, an educational and a neutral video, a
    video whose title has not been rendered yet, and a shelf of Shorts. *)
Definition sample_page : Page :=
  {| pathname := "/results";
     elements :=
       [sample_video (Some "Python Prank Compilation") (Some "Fun Channel");
        sample_video (Some "Intro to Python Tutorial") None;
        sample_video (Some "Sourdough at home") (Some "Bakery");
        sample_video None None;
        sample_shelf];
     home_browse := false; dashboard := None; watch_heading := None;
     search_box := true |}.

Definition sample_world : World :=
  {| document := sample_page; settings := sample_settings;
     sync := sample_storage (Some sample_settings);
     lastTrackTime := 0; now := 0 |}.

(** A watch page, a minute and a half after the last time check. *)
Definition sample_watch_world : World :=
  {| document :=
       {| pathname := "/watch"; elements := []; home_browse := false;
          dashboard := None;
          watch_heading := Some "Learn React in 30 Minutes";
          search_box := true |};
     settings := sample_settings;
     sync := sample_storage (Some sample_settings);
     lastTrackTime := 1000000; now := 1090000 |}.



(** The world when the clock of the page reads [t]. *)
Definition at_time (t : Z) (w : World) : World :=
  {| document := document w; settings := settings w; sync := sync w;
     lastTrackTime := lastTrackTime w; now := t |}.

From Stdlib Require Import DecimalString.

(** ** The rest of the extension

    From here to the theorems the embedding is extended to what surrounds
    the functions above: the popup ([chrome-extension/popup/popup.js]: saving
    settings, the keyword lists, the streak check, the countdown timer),
    the background script ([chrome-extension/background/background.js]:
    [updateStats], the daily reset, the click on the icon) and the timers
    that [initialize], [setupObserver] and [onNavigate] of the content
    script arm.  The conventions are the ones stated at the top; in
    addition, [trim] strips the white space among the code units below
    128, a date is the string that [toDateString()] gives, and a
    [DEFAULT_SETTINGS] object is part of the state of its script, since
    the code can assign to its properties. *)

(** ** Vocabulary for the properties of the passes *)

(** The number of badges on the thumbnail of an element. *)
Definition badge_count (el : Element) : nat :=
  from_option edu_badges 0%nat (thumbnail el).

(** The texts of a video as the host page renders them: the title, a space,
    and the channel name if there is one. *)
Definition video_text (el : Element) : option string :=
  (λ title, title +:+ " " +:+ default "" (channel_text el)) <$> title_text el.

(** A video renderer without the marker whose rendered texts contain a
    blocked keyword. *)
Definition newly_blocked (B : list string) (el : Element) : bool :=
  SELECTORS.videoRenderer el
  && negb (bool_decide (processed el))
  && match video_text el with
     | Some text => matches_any (toLowerCase text) B
     | None => false
     end.

(** The events that take effects back: whatever runs [removeAllFilters],
    and [hideFocusDashboard] while focus mode is off. *)
Definition takes_back (ev : Event) (w : World) : bool :=
  match ev with
  | Poll | Navigate | Incoming OTHER_MESSAGE => false
  | DebouncedScan | SettledScan | SearchClick =>
    negb (truthy (focusModeEnabled (settings w)))
  | Incoming (SETTINGS_UPDATED newSettings) =>
    negb (truthy (focusModeEnabled newSettings))
  end.

(** [el'] is [el] with, at most, more classes and more badges. *)
Definition only_grows (el el' : Element) : Prop :=
  grows el el' ∧ (badge_count el ≤ badge_count el')%nat.

(** The events under which focus mode stays on with usable keyword lists:
    the scans, and a settings update that has the switch on and carries
    both lists. *)
Definition stays_enabled (ev : Event) : bool :=
  match ev with
  | Poll | DebouncedScan | SettledScan | Incoming OTHER_MESSAGE => true
  | Incoming (SETTINGS_UPDATED s) =>
    truthy (focusModeEnabled s)
    && bool_decide (is_Some (allowedKeywords s))
    && bool_decide (is_Some (blockedKeywords s))
  | Navigate | SearchClick => false
  end.

(** [el'] is [el] but for the inline style of its thumbnail. *)
Definition same_but_style (el el' : Element) : Prop :=
  tagName el' = tagName el ∧
  attributes el' = attributes el ∧
  classList el' = classList el ∧
  title_text el' = title_text el ∧
  channel_text el' = channel_text el ∧
  has_shorts_descendant el' = has_shorts_descendant el ∧
  in_home_browse el' = in_home_browse el ∧
  (edu_badges <$> thumbnail el') = (edu_badges <$> thumbnail el) ∧
  ((style_position <$> thumbnail el') = (style_position <$> thumbnail el)
   ∨ (style_position <$> thumbnail el') = Some (Some "relative")).

(** The blocked count of the stored settings object, read as the popup
    reads it: a missing object, a missing [stats] or a missing field
    counts as zero. *)
Definition stored_blockedCount (w : World) : Z :=
  default 0 ((focusSettings (sync w) ≫= stats) ≫= blockedCount).

(** The educational minutes of the stored settings object, read as the
    popup reads them. *)
Definition stored_educationalMinutes (w : World) : Z :=
  default 0 ((focusSettings (sync w) ≫= stats) ≫= educationalMinutes).

(** ** More of JavaScript's strings *)

(** The white space and line terminators of [String.prototype.trim] among
    the code units below 128: tab, line feed, vertical tab, form feed,
    carriage return, space. *)
Definition is_white_space (c : ascii) : bool :=
  let n := nat_of_ascii c in
  ((9 <=? n)%nat && (n <=? 13)%nat) || (n =? 32)%nat.

Fixpoint trimStart (s : string) : string :=
  match s with
  | EmptyString => EmptyString
  | String c rest => if is_white_space c then trimStart rest else s
  end.

Fixpoint trimEnd (s : string) : string :=
  match s with
  | EmptyString => EmptyString
  | String c rest =>
    match trimEnd rest with
    | EmptyString => if is_white_space c then EmptyString else String c EmptyString
    | rest' => String c rest'
    end
  end.

(** [String.prototype.trim] *)
Definition trim (s : string) : string := trimEnd (trimStart s).

(** The first and the last code unit of a string. *)
Definition first_char (s : string) : option ascii :=
  match s with
  | EmptyString => None
  | String c _ => Some c
  end.

Fixpoint last_char (s : string) : option ascii :=
  match s with
  | EmptyString => None
  | String c EmptyString => Some c
  | String _ rest => last_char rest
  end.

(** A keyword as [addKeyword] makes it: no upper-case letter, no white
    space at either end. *)
Definition normalised (k : string) : Prop :=
  toLowerCase k = k ∧
  (∀ c, first_char k = Some c → is_white_space c = false) ∧
  (∀ c, last_char k = Some c → is_white_space c = false).

(** ** The popup: settings and keyword lists *)

Module Popup.

(** [DEFAULT_SETTINGS] of [popup.js], as the script starts with it. *)
Definition DEFAULT_SETTINGS_literal : Settings :=
  {| focusModeEnabled := Some true;
     allowedKeywords := Some
       ["tutorial"; "course"; "lecture"; "coding"; "programming";
        "java"; "python"; "javascript"; "react"; "node";
        "dsa"; "data structures"; "algorithms"; "system design";
        "ai"; "machine learning"; "deep learning"; "ml";
        "web development"; "app development"; "frontend"; "backend";
        "computer science"; "engineering"; "mathematics"; "calculus";
        "interview"; "career"; "placement"; "leetcode";
        "competitive programming"];
     blockedKeywords := Some
       ["prank"; "vlog"; "roast"; "shorts"; "gaming"; "gameplay";
        "reaction"; "comedy"; "movie"; "music video"; "trailer";
        "tiktok"; "funny"; "meme"; "challenge"; "unboxing";
        "asmr"; "mukbang"; "drama"; "gossip"; "celebrity"];
     stats := Some
       {| educationalMinutes := Some 0; blockedCount := Some 0;
          focusStreak := Some 0; lastActiveDate := None |} |}.

(** An object without any of the four properties. *)
Definition no_settings : Settings :=
  {| focusModeEnabled := None; allowedKeywords := None;
     blockedKeywords := None; stats := None |}.

(** [{ ...a, ...b }]: a property that [b] has wins, its value is taken
    whole (the spread is shallow). *)
Definition spread (a b : Settings) : Settings :=
  let pick {A : Type} (old new : option A) : option A :=
    match new with
    | Some x => Some x
    | None => old
    end in
  {| focusModeEnabled := pick (focusModeEnabled a) (focusModeEnabled b);
     allowedKeywords := pick (allowedKeywords a) (allowedKeywords b);
     blockedKeywords := pick (blockedKeywords a) (blockedKeywords b);
     stats := pick (stats a) (stats b) |}.

(** [type === 'allowed' ? 'allowedKeywords' : 'blockedKeywords'], and
    reading and writing the property of that name. *)
Definition is_allowed (type : string) : bool := bool_decide (type = "allowed").

Definition get_list (type : string) (s : Settings) : option (list string) :=
  if is_allowed type then allowedKeywords s else blockedKeywords s.

Definition set_list (type : string) (keywords : list string) (s : Settings)
  : Settings :=
  if is_allowed type then
    {| focusModeEnabled := focusModeEnabled s;
       allowedKeywords := Some keywords;
       blockedKeywords := blockedKeywords s; stats := stats s |}
  else
    {| focusModeEnabled := focusModeEnabled s;
       allowedKeywords := allowedKeywords s;
       blockedKeywords := Some keywords; stats := stats s |}.

(** What the popup script works on: the storage area, its constant
    [DEFAULT_SETTINGS] (an object, so its properties and arrays can be
    changed in place), the [SETTINGS_UPDATED] messages it has handed to
    the YouTube tabs, the values of the two inputs and the tags rendered
    in the two lists.  A call runs to its end before the next event is
    handled. *)
Record State : Type := mkState {
  sync : Storage;
  DEFAULT_SETTINGS : Settings;
  broadcasts : list Settings;
  allowedInput : string;
  blockedInput : string;
  allowedList : list string;
  blockedList : list string
}.

Definition set_sync (st : Storage) (p : State) : State :=
  {| sync := st; DEFAULT_SETTINGS := DEFAULT_SETTINGS p;
     broadcasts := broadcasts p;
     allowedInput := allowedInput p; blockedInput := blockedInput p;
     allowedList := allowedList p; blockedList := blockedList p |}.

Definition set_DEFAULT_SETTINGS (f : Settings → Settings) (p : State) : State :=
  {| sync := sync p; DEFAULT_SETTINGS := f (DEFAULT_SETTINGS p);
     broadcasts := broadcasts p;
     allowedInput := allowedInput p; blockedInput := blockedInput p;
     allowedList := allowedList p; blockedList := blockedList p |}.

Definition add_broadcast (s : Settings) (p : State) : State :=
  {| sync := sync p; DEFAULT_SETTINGS := DEFAULT_SETTINGS p;
     broadcasts := broadcasts p ++ [s];
     allowedInput := allowedInput p; blockedInput := blockedInput p;
     allowedList := allowedList p; blockedList := blockedList p |}.

Definition input_value (type : string) (p : State) : string :=
  if is_allowed type then allowedInput p else blockedInput p.

Definition set_input_value (type value : string) (p : State) : State :=
  {| sync := sync p; DEFAULT_SETTINGS := DEFAULT_SETTINGS p;
     broadcasts := broadcasts p;
     allowedInput := if is_allowed type then value else allowedInput p;
     blockedInput := if is_allowed type then blockedInput p else value;
     allowedList := allowedList p; blockedList := blockedList p |}.

Definition rendered (type : string) (p : State) : list string :=
  if is_allowed type then allowedList p else blockedList p.

Definition set_rendered (type : string) (keywords : list string) (p : State)
  : State :=
  {| sync := sync p; DEFAULT_SETTINGS := DEFAULT_SETTINGS p;
     broadcasts := broadcasts p;
     allowedInput := allowedInput p; blockedInput := blockedInput p;
     allowedList := if is_allowed type then keywords else allowedList p;
     blockedList := if is_allowed type then blockedList p else keywords |}.

(** State and exceptions, as in the content script. *)
Definition PM (A : Type) : Type := State → completion A * State.

#[local] Instance PM_ret : MRet PM := λ A a p, (Normal a, p).
#[local] Instance PM_bind : MBind PM := λ A B f m p,
  match m p with
  | (Normal a, p') => f a p'
  | (Throw e, p') => (Throw e, p')
  end.

Definition throw {A : Type} (e : JsError) : PM A := λ p, (Throw e, p).

Definition try_catch {A : Type} (body : PM A) (handler : JsError → PM A)
  : PM A :=
  λ p, match body p with
       | (Normal a, p') => (Normal a, p')
       | (Throw e, p') => handler e p'
       end.

Definition get_state : PM State := λ p, (Normal p, p).
Definition modify (f : State → State) : PM unit := λ p, (Normal tt, f p).

(** [await chrome.storage.sync.get(['focusSettings'])], then
    [result.focusSettings]. *)
Definition storage_get : PM (option Settings) := λ p,
  if get_rejects (sync p) then (Throw StorageError, p)
  else (Normal (focusSettings (sync p)), p).

(** [await chrome.storage.sync.set({ focusSettings: value })] *)
Definition storage_set (value : Settings) : PM unit := λ p,
  if set_rejects (sync p) then (Throw StorageError, p)
  else (Normal tt,
        set_sync {| focusSettings := Some value;
                    get_rejects := get_rejects (sync p);
                    set_rejects := set_rejects (sync p);
                    set_log := set_log (sync p) ++ [value] |} p).

(** [saveSettings(updates)]: merge, store, and tell the YouTube tabs. *)
Definition saveSettings (updates : Settings) : PM unit :=
  try_catch
    (result ← storage_get;
     p ← get_state;
     let settings :=
       spread (spread (DEFAULT_SETTINGS p) (default no_settings result))
         updates in
     storage_set settings;;
     modify (add_broadcast settings))
    (λ error, mret tt).

(** [renderKeywords(type, keywords)] *)
Definition renderKeywords (type : string) (keywords : list string) : PM unit :=
  modify (set_rendered type keywords).

(** [{ [keywordList]: keywords }] *)
Definition only_list (type : string) (keywords : list string) : Settings :=
  set_list type keywords no_settings.

(** [addKeyword(type)].  Nothing here is in a [try]: a rejected read, or
    a settings object without the list, ends the call with an exception.
    [push] changes the array in place; with nothing stored that array is
    the one of [DEFAULT_SETTINGS]. *)
Definition addKeyword (type : string) : PM unit :=
  p ← get_state;
  let keyword := toLowerCase (trim (input_value type p)) in
  if bool_decide (keyword = "") then mret tt
  else
    result ← storage_get;
    p ← get_state;
    let settings := default (DEFAULT_SETTINGS p) result in
    match get_list type settings with
    | None => throw TypeError
    | Some keywords =>
      (if bool_decide (keyword ∈ keywords) then mret tt
       else
         let keywords := keywords ++ [keyword] in
         (match result with
          | Some _ => mret tt
          | None => modify (set_DEFAULT_SETTINGS (set_list type keywords))
          end);;
         saveSettings (only_list type keywords);;
         renderKeywords type keywords);;
      modify (set_input_value type "")
    end.

(** [removeKeyword(keyword, type)].  The assignment
    [settings[keywordList] = ...] is to a property of [DEFAULT_SETTINGS]
    when nothing is stored. *)
Definition removeKeyword (keyword type : string) : PM unit :=
  result ← storage_get;
  p ← get_state;
  let settings := default (DEFAULT_SETTINGS p) result in
  match get_list type settings with
  | None => throw TypeError
  | Some keywords =>
    let keywords := List.filter (λ k, negb (bool_decide (k = keyword))) keywords in
    (match result with
     | Some _ => mret tt
     | None => modify (set_DEFAULT_SETTINGS (set_list type keywords))
     end);;
    saveSettings (only_list type keywords);;
    renderKeywords type keywords
  end.

(** The [change] listener of the focus mode toggle. *)
Definition onToggle (checked : bool) : PM unit :=
  saveSettings
    {| focusModeEnabled := Some checked; allowedKeywords := None;
       blockedKeywords := None; stats := None |}.

(** The streak after the inner [if] of [checkStreak], on a day whose
    [toDateString()] is [today], the day before being [yesterday].
    [focusStreak += 1] on a streak that is not a number gives [NaN], which
    the stats of this development cannot hold: the result is [None]
    there, and the call is not followed further. *)
Definition streak_after_check (yesterday : string) (st : Stats)
  : option (option Z) :=
  if bool_decide (lastActiveDate st = Some yesterday) then
    match focusStreak st with
    | Some n => Some (Some (n + 1))
    | None => None
    end
  else Some (Some 1).

(** [{ stats: st }] *)
Definition only_stats (st : Stats) : Settings :=
  {| focusModeEnabled := None; allowedKeywords := None;
     blockedKeywords := None; stats := Some st |}.

(** [checkStreak(settings)], up to the text it writes into the popup,
    for the object that [loadSettings] made of [result]: the stored copy,
    or [DEFAULT_SETTINGS] itself, whose [stats] object the assignments
    then change.  Reading a property of a missing [stats] throws.  The
    result is [None] where the streak would not be a number. *)
Definition checkStreak (today yesterday : string) (result : option Settings)
    (p : State) : option (completion unit * State) :=
  let settings := default (DEFAULT_SETTINGS p) result in
  match stats settings with
  | None => Some (Throw TypeError, p)
  | Some st =>
    if bool_decide (lastActiveDate st = Some today) then Some (Normal tt, p)
    else
      match streak_after_check yesterday st with
      | None => None
      | Some streak =>
        let st' :=
          {| educationalMinutes := Some 0; blockedCount := Some 0;
             focusStreak := streak; lastActiveDate := Some today |} in
        let p1 :=
          match result with
          | Some _ => p
          | None =>
            set_DEFAULT_SETTINGS
              (λ s, {| focusModeEnabled := focusModeEnabled s;
                       allowedKeywords := allowedKeywords s;
                       blockedKeywords := blockedKeywords s;
                       stats := Some st' |}) p
          end in
        Some (saveSettings (only_stats st') p1)
      end
  end.

(** What the user and the rest of the browser do to the popup: typing
    into an input, the add button (or Enter), the remove button of a tag,
    the toggle, and a write to the storage area by another script. *)
Inductive Event : Type :=
| TypeInput (type value : string)
| AddClick (type : string)
| RemoveClick (keyword type : string)
| ToggleChange (checked : bool)
| StorageChanged (st : Storage).

Definition handler (ev : Event) : PM unit :=
  match ev with
  | TypeInput type value => modify (set_input_value type value)
  | AddClick type => addKeyword type
  | RemoveClick keyword type => removeKeyword keyword type
  | ToggleChange checked => onToggle checked
  | StorageChanged st => modify (set_sync st)
  end.

(** The state after an event; an exception that escapes a listener is
    reported by the browser and the state stays as the listener left it. *)
Definition step (ev : Event) (p : State) : State := (handler ev p).2.

Definition run (evs : list Event) (p : State) : State :=
  foldl (λ p ev, step ev p) p evs.

(** The list of the given type that [addKeyword] and [removeKeyword] work
    on: the one of the stored object, or of [DEFAULT_SETTINGS] when
    nothing is stored. *)
Definition current_list (type : string) (p : State) : option (list string) :=
  get_list type (default (DEFAULT_SETTINGS p) (focusSettings (sync p))).

(** The list of the given type in the stored settings object. *)
Definition stored_list (type : string) (p : State) : option (list string) :=
  focusSettings (sync p) ≫= get_list type.

(** A settings object with all four properties. *)
Definition complete (s : Settings) : Prop :=
  is_Some (focusModeEnabled s) ∧ is_Some (allowedKeywords s) ∧
  is_Some (blockedKeywords s) ∧ is_Some (stats s).

End Popup.

(** [a], or [b] where [a] is missing. *)
Definition or_else {A : Type} (a b : option A) : option A :=
  match a with
  | Some x => Some x
  | None => b
  end.

(** A popup with the given stored settings and the given text in the
    input for allowed keywords. *)
Definition sample_popup (stored : option Settings) (allowed_value : string)
  : Popup.State :=
  {| Popup.sync := sample_storage stored;
     Popup.DEFAULT_SETTINGS := Popup.DEFAULT_SETTINGS_literal;
     Popup.broadcasts := [];
     Popup.allowedInput := allowed_value; Popup.blockedInput := "";
     Popup.allowedList := []; Popup.blockedList := [] |}.

(** ** The popup: the countdown timer *)

(** [n.toString()] for an integer, and [s.padStart(2, '0')]. *)
Definition toString (n : Z) : string := NilZero.string_of_int (Z.to_int n).

Definition padStart2 (s : string) : string :=
  match s with
  | EmptyString => "00"
  | String c EmptyString => String "0" (String c EmptyString)
  | _ => s
  end.

(** The character of a decimal digit. *)
Definition digit (d : Z) : ascii := ascii_of_nat (48 + Z.to_nat d).

Module Timer.

(** The timer variables of [popup.js], the [setInterval] timers that are
    running in the popup (their handles, oldest first; [setInterval] hands
    out fresh ones), the preset that carries the class [active] (the
    number its [data-time] parses to), what the popup shows, and the
    number of [TIMER_COMPLETE] messages sent to the background script. *)
Record State : Type := mkState {
  timerSeconds : Z;
  isTimerRunning : bool;
  timerInterval : option nat;
  intervals : list nat;
  next_handle : nat;
  activePreset : option Z;
  timerDisplay : string;
  startTimerBtn : string;
  timer_complete_sent : nat
}.

(** The popup as the script starts: 25 minutes, not running. *)
Definition initial (preset : option Z) (display button : string) : State :=
  {| timerSeconds := 25 * 60; isTimerRunning := false; timerInterval := None;
     intervals := []; next_handle := 1; activePreset := preset;
     timerDisplay := display; startTimerBtn := button;
     timer_complete_sent := 0 |}.

(** What [updateTimerDisplay] writes: [Math.floor] rounds down, [%] takes
    the sign of the dividend. *)
Definition display_text (seconds : Z) : string :=
  padStart2 (toString (seconds `div` 60)) +:+ ":"
  +:+ padStart2 (toString (seconds `rem` 60)).

(** [updateTimerDisplay()] *)
Definition updateTimerDisplay (s : State) : State :=
  {| timerSeconds := timerSeconds s; isTimerRunning := isTimerRunning s;
     timerInterval := timerInterval s; intervals := intervals s;
     next_handle := next_handle s; activePreset := activePreset s;
     timerDisplay := display_text (timerSeconds s);
     startTimerBtn := startTimerBtn s;
     timer_complete_sent := timer_complete_sent s |}.

Definition set_timerSeconds (n : Z) (s : State) : State :=
  {| timerSeconds := n; isTimerRunning := isTimerRunning s;
     timerInterval := timerInterval s; intervals := intervals s;
     next_handle := next_handle s; activePreset := activePreset s;
     timerDisplay := timerDisplay s; startTimerBtn := startTimerBtn s;
     timer_complete_sent := timer_complete_sent s |}.

(** [clearInterval(handle)]: [null], or a handle that is not running,
    changes nothing. *)
Definition clearInterval (handle : option nat) (running : list nat)
  : list nat :=
  match handle with
  | Some h => List.filter (λ h', negb (h' =? h)%nat) running
  | None => running
  end.

(** [stopTimer()] *)
Definition stopTimer (s : State) : State :=
  {| timerSeconds := timerSeconds s; isTimerRunning := false;
     timerInterval := None;
     intervals := clearInterval (timerInterval s) (intervals s);
     next_handle := next_handle s; activePreset := activePreset s;
     timerDisplay := timerDisplay s; startTimerBtn := "Start";
     timer_complete_sent := timer_complete_sent s |}.

(** [startTimer()], up to the callback it hands to [setInterval]. *)
Definition startTimer (s : State) : State :=
  {| timerSeconds := timerSeconds s; isTimerRunning := true;
     timerInterval := Some (next_handle s);
     intervals := intervals s ++ [next_handle s];
     next_handle := S (next_handle s); activePreset := activePreset s;
     timerDisplay := timerDisplay s; startTimerBtn := "Pause";
     timer_complete_sent := timer_complete_sent s |}.

(** [toggleTimer()] *)
Definition toggleTimer (s : State) : State :=
  if isTimerRunning s then stopTimer s else startTimer s.

(** [chrome.runtime.sendMessage({ type: 'TIMER_COMPLETE' })] *)
Definition send_TIMER_COMPLETE (s : State) : State :=
  {| timerSeconds := timerSeconds s; isTimerRunning := isTimerRunning s;
     timerInterval := timerInterval s; intervals := intervals s;
     next_handle := next_handle s; activePreset := activePreset s;
     timerDisplay := timerDisplay s; startTimerBtn := startTimerBtn s;
     timer_complete_sent := S (timer_complete_sent s) |}.

(** The callback of [startTimer], run once a second. *)
Definition on_interval (s : State) : State :=
  let s := updateTimerDisplay (set_timerSeconds (timerSeconds s - 1) s) in
  if bool_decide (timerSeconds s ≤ 0) then
    updateTimerDisplay
      (set_timerSeconds (25 * 60) (send_TIMER_COMPLETE (stopTimer s)))
  else s.

(** [resetTimer()] *)
Definition resetTimer (s : State) : State :=
  let s := stopTimer s in
  updateTimerDisplay
    (set_timerSeconds
       (match activePreset s with
        | Some time => time * 60
        | None => 25 * 60
        end) s).

(** The click listener of a preset whose [data-time] parses to [time]. *)
Definition onPreset (time : Z) (s : State) : State :=
  let s :=
    {| timerSeconds := time * 60; isTimerRunning := isTimerRunning s;
       timerInterval := timerInterval s; intervals := intervals s;
       next_handle := next_handle s; activePreset := Some time;
       timerDisplay := timerDisplay s; startTimerBtn := startTimerBtn s;
       timer_complete_sent := timer_complete_sent s |} in
  let s := updateTimerDisplay s in
  if isTimerRunning s then stopTimer s else s.

(** A second passes: every interval timer that is running when its turn
    comes fires once. *)
Definition second (s : State) : State :=
  foldl (λ s h, if bool_decide (h ∈ intervals s) then on_interval s else s)
    s (intervals s).

Inductive Event : Type :=
| StartClick             (* the start/pause button *)
| ResetClick
| PresetClick (time : Z)
| Second.

Definition step (ev : Event) (s : State) : State :=
  match ev with
  | StartClick => toggleTimer s
  | ResetClick => resetTimer s
  | PresetClick time => onPreset time s
  | Second => second s
  end.

Definition run (evs : list Event) (s : State) : State :=
  foldl (λ s ev, step ev s) s evs.

(** The flag, the handle and the running interval timers agree: while the
    timer runs there is exactly one interval timer, the one of the handle;
    otherwise there is none. *)
Definition consistent (s : State) : Prop :=
  if isTimerRunning s
  then ∃ h, timerInterval s = Some h ∧ intervals s = [h] ∧ (h < next_handle s)%nat
  else timerInterval s = None ∧ intervals s = [].

End Timer.

(** ** The background script *)

Module Background.

(** [DEFAULT_SETTINGS] of [background.js], as the script starts with it:
    the same lists as in the popup. *)
Definition DEFAULT_SETTINGS_literal : Settings := Popup.DEFAULT_SETTINGS_literal.

(** The [stats] payload of an [UPDATE_STATS] message: any of the four
    properties may be there; [lastActiveDate] may be there and [null]. *)
Record StatsUpdate : Type := mkStatsUpdate {
  new_educationalMinutes : option Z;
  new_blockedCount : option Z;
  new_focusStreak : option Z;
  new_lastActiveDate : option (option string)
}.

(** [{ ...stats, ...newStats }], where [stats] may be [undefined]. *)
Definition spread_stats (old : option Stats) (newStats : StatsUpdate) : Stats :=
  let old := default no_stats old in
  {| educationalMinutes :=
       or_else (new_educationalMinutes newStats) (educationalMinutes old);
     blockedCount := or_else (new_blockedCount newStats) (blockedCount old);
     focusStreak := or_else (new_focusStreak newStats) (focusStreak old);
     lastActiveDate :=
       match new_lastActiveDate newStats with
       | Some date => date
       | None => lastActiveDate old
       end |}.

Definition set_stats (st : Stats) (s : Settings) : Settings :=
  {| focusModeEnabled := focusModeEnabled s;
     allowedKeywords := allowedKeywords s;
     blockedKeywords := blockedKeywords s; stats := Some st |}.

Definition set_focusModeEnabled (b : bool) (s : Settings) : Settings :=
  {| focusModeEnabled := Some b;
     allowedKeywords := allowedKeywords s;
     blockedKeywords := blockedKeywords s; stats := stats s |}.

(** What the service worker works on: the storage area, its constant
    [DEFAULT_SETTINGS] (an object whose properties can be assigned to),
    the [SETTINGS_UPDATED] messages it has sent to tabs, and the streaks
    it has shown a "Day Streak" notification for.  A call runs to its end
    before the next one starts. *)
Record State : Type := mkState {
  sync : Storage;
  DEFAULT_SETTINGS : Settings;
  tab_messages : list Settings;
  streak_notifications : list Z
}.

Definition set_sync (st : Storage) (b : State) : State :=
  {| sync := st; DEFAULT_SETTINGS := DEFAULT_SETTINGS b;
     tab_messages := tab_messages b;
     streak_notifications := streak_notifications b |}.

Definition set_DEFAULT_SETTINGS (f : Settings → Settings) (b : State) : State :=
  {| sync := sync b; DEFAULT_SETTINGS := f (DEFAULT_SETTINGS b);
     tab_messages := tab_messages b;
     streak_notifications := streak_notifications b |}.

Definition add_tab_message (s : Settings) (b : State) : State :=
  {| sync := sync b; DEFAULT_SETTINGS := DEFAULT_SETTINGS b;
     tab_messages := tab_messages b ++ [s];
     streak_notifications := streak_notifications b |}.

Definition add_streak_notification (streak : Z) (b : State) : State :=
  {| sync := sync b; DEFAULT_SETTINGS := DEFAULT_SETTINGS b;
     tab_messages := tab_messages b;
     streak_notifications := streak_notifications b ++ [streak] |}.

Definition BM (A : Type) : Type := State → completion A * State.

#[local] Instance BM_ret : MRet BM := λ A a b, (Normal a, b).
#[local] Instance BM_bind : MBind BM := λ A B f m b,
  match m b with
  | (Normal a, b') => f a b'
  | (Throw e, b') => (Throw e, b')
  end.

Definition throw {A : Type} (e : JsError) : BM A := λ b, (Throw e, b).

Definition try_catch {A : Type} (body : BM A) (handler : JsError → BM A)
  : BM A :=
  λ b, match body b with
       | (Normal a, b') => (Normal a, b')
       | (Throw e, b') => handler e b'
       end.

Definition get_state : BM State := λ b, (Normal b, b).
Definition modify (f : State → State) : BM unit := λ b, (Normal tt, f b).

Definition storage_get : BM (option Settings) := λ b,
  if get_rejects (sync b) then (Throw StorageError, b)
  else (Normal (focusSettings (sync b)), b).

Definition storage_set (value : Settings) : BM unit := λ b,
  if set_rejects (sync b) then (Throw StorageError, b)
  else (Normal tt,
        set_sync {| focusSettings := Some value;
                    get_rejects := get_rejects (sync b);
                    set_rejects := set_rejects (sync b);
                    set_log := set_log (sync b) ++ [value] |} b).

(** Where the object comes from that [result.focusSettings ||
    DEFAULT_SETTINGS] evaluates to: a copy out of the store, or the
    constant itself. *)
Inductive Origin : Type := from_store | the_constant.

(** [getSettings()], with the origin of what it returns. *)
Definition getSettings : BM (Settings * Origin) :=
  try_catch
    (result ← storage_get;
     b ← get_state;
     match result with
     | Some stored => mret (stored, from_store)
     | None => mret (DEFAULT_SETTINGS b, the_constant)
     end)
    (λ error, b ← get_state; mret (DEFAULT_SETTINGS b, the_constant)).

(** An assignment to a property of the object of the given origin, with
    the object after it. *)
Definition assign (origin : Origin) (f : Settings → Settings)
    (settings : Settings) : BM Settings :=
  match origin with
  | from_store => mret (f settings)
  | the_constant =>
    modify (set_DEFAULT_SETTINGS f);;
    b ← get_state; mret (DEFAULT_SETTINGS b)
  end.

(** [updateStats(newStats)]; the result is the [success] property of the
    response. *)
Definition updateStats (newStats : StatsUpdate) : BM bool :=
  try_catch
    (result ← storage_get;
     b ← get_state;
     let '(settings, origin) :=
       match result with
       | Some stored => (stored, from_store)
       | None => (DEFAULT_SETTINGS b, the_constant)
       end in
     settings ←
       assign origin (λ s, set_stats (spread_stats (stats s) newStats) s)
         settings;
     storage_set settings;;
     mret true)
    (λ error, mret false).

(** The listener of [chrome.action.onClicked], for a tab whose [url] is
    the given one ([None] if the tab object has no [url]). *)
Definition onClicked (tab_url : option string) : BM unit :=
  '(settings, origin) ← getSettings;
  settings ←
    assign origin
      (λ s, set_focusModeEnabled (negb (truthy (focusModeEnabled s))) s)
      settings;
  storage_set settings;;
  match tab_url with
  | None => throw TypeError
  | Some url =>
    if includes url "youtube.com" then modify (add_tab_message settings)
    else mret tt
  end.

(** [if (lastActive)]: [null], [undefined] and the empty string are
    falsy. *)
Definition date_truthy (date : option string) : bool :=
  match date with
  | Some d => negb (bool_decide (d = ""))
  | None => false
  end.

(** The streak after the [if (lastActive) { ... }] of [resetDailyStats],
    on a day whose [toDateString()] is [today], the day before being
    [yesterday].  [focusStreak += 1] on a streak that is not a number
    gives [NaN], which the stats of this development cannot hold: the
    result is [None] there, and the call is not followed further. *)
Definition streak_after_reset (today yesterday : string) (st : Stats)
  : option (option Z) :=
  if date_truthy (lastActiveDate st) then
    if bool_decide (lastActiveDate st = Some yesterday) then
      match focusStreak st with
      | Some n => Some (Some (n + 1))
      | None => None
      end
    else if bool_decide (lastActiveDate st ≠ Some today) then Some (Some 0)
    else Some (focusStreak st)
  else Some (focusStreak st).

(** [settings.stats.focusStreak > 0 && settings.stats.focusStreak % 7 === 0] *)
Definition streak_is_significant (streak : option Z) : bool :=
  match streak with
  | Some n => bool_decide (0 < n) && bool_decide (n `rem` 7 = 0)
  | None => false
  end.

(** [resetDailyStats()], the listener of the [dailyReset] alarm.  The
    assignments are to the [stats] object of the stored copy, or of
    [DEFAULT_SETTINGS] when nothing is stored; reading a property of a
    missing [stats] throws, and the [catch] swallows that like a
    rejection of the store.  The result is [None] where the streak would
    not be a number. *)
Definition resetDailyStats (today yesterday : string) (b : State)
  : option (completion unit * State) :=
  if get_rejects (sync b) then Some (Normal tt, b)
  else
    let origin :=
      match focusSettings (sync b) with
      | Some _ => from_store
      | None => the_constant
      end in
    let settings := default (DEFAULT_SETTINGS b) (focusSettings (sync b)) in
    match stats settings with
    | None => Some (Normal tt, b)
    | Some st =>
      match streak_after_reset today yesterday st with
      | None => None
      | Some streak =>
        let st' :=
          {| educationalMinutes := Some 0; blockedCount := Some 0;
             focusStreak := streak; lastActiveDate := Some today |} in
        let '(_, b1) := assign origin (set_stats st') settings b in
        let settings := set_stats st' settings in
        match storage_set settings b1 with
        | (Throw _, b2) => Some (Normal tt, b2)
        | (Normal _, b2) =>
          Some (Normal tt,
                if streak_is_significant streak
                then add_streak_notification (default 0 streak) b2
                else b2)
        end
      end
    end.

(** The stats of the stored settings object. *)
Definition stored_stats (b : State) : option Stats :=
  focusSettings (sync b) ≫= stats.

(** What the content script does to the store between two alarms: it
    adds to the two counters of the stored object, if there is one. *)
Definition content_script_counts (minutes count : Z) (b : State) : State :=
  set_sync
    {| focusSettings :=
         (λ s, add_educationalMinutes minutes (add_blockedCount count s))
           <$> focusSettings (sync b);
       get_rejects := get_rejects (sync b);
       set_rejects := set_rejects (sync b);
       set_log := set_log (sync b) |} b.

(** The alarm on a run of days, each the [yesterday] of the next, with
    the minutes and blocked videos that the content script counts on each
    day before the alarm rings. *)
Fixpoint daily_resets (yesterday : string) (days : list (string * (Z * Z)))
    (b : State) : option State :=
  match days with
  | [] => Some b
  | (today, (minutes, count)) :: later =>
    match resetDailyStats today yesterday
            (content_script_counts minutes count b) with
    | Some (_, b') => daily_resets today later b'
    | None => None
    end
  end.

End Background.

(** A service worker with the given stored settings. *)
Definition sample_background (stored : option Settings) : Background.State :=
  {| Background.sync := sample_storage stored;
     Background.DEFAULT_SETTINGS := Background.DEFAULT_SETTINGS_literal;
     Background.tab_messages := [];
     Background.streak_notifications := [] |}.

(** ** The content script with its timers *)

Module Script.

(** A pending [setTimeout] (no period) or a running [setInterval], with
    the handle the browser gave it, the time it is due and the event of
    the script that its callback is. *)
Record Timer : Type := mkTimer {
  handle : nat;
  due : Z;
  period : option Z;
  callback : Event
}.

(** The world of the content script together with what [initialize] and
    [setupObserver] set up: the flag, the injected style sheet, the
    connected observers, the handles the script keeps, the timers of the
    page and the next handle the browser will hand out. *)
Record State : Type := mkState {
  world : World;
  isInitialized : bool;
  has_styles : bool;              (* [#focus-mode-styles] is in the document *)
  observers : nat;                (* connected [MutationObserver]s *)
  scanInterval : option nat;
  focusScanTimeout : option nat;  (* [window.focusScanTimeout] *)
  timers : list Timer;
  next_handle : nat;
  listening : bool                (* the two listeners are registered *)
}.

(** The page when the script is loaded. *)
Definition initial (w : World) : State :=
  {| world := w; isInitialized := false; has_styles := false;
     observers := 0; scanInterval := None; focusScanTimeout := None;
     timers := []; next_handle := 1; listening := false |}.

Definition set_world (f : World → World) (s : State) : State :=
  {| world := f (world s); isInitialized := isInitialized s;
     has_styles := has_styles s; observers := observers s;
     scanInterval := scanInterval s; focusScanTimeout := focusScanTimeout s;
     timers := timers s; next_handle := next_handle s;
     listening := listening s |}.

(** [setTimeout(callback, delay)] and [setInterval(callback, delay)]: the
    timer is due [delay] milliseconds from now; the result is its
    handle. *)
Definition add_timer (cb : Event) (delay : Z) (repeat : bool) (s : State)
  : nat * State :=
  (next_handle s,
   {| world := world s; isInitialized := isInitialized s;
      has_styles := has_styles s; observers := observers s;
      scanInterval := scanInterval s; focusScanTimeout := focusScanTimeout s;
      timers := timers s ++
                [{| handle := next_handle s; due := now (world s) + delay;
                    period := if repeat then Some delay else None;
                    callback := cb |}];
      next_handle := S (next_handle s); listening := listening s |}).

(** [clearTimeout(handle)]; [undefined], or the handle of a timer that is
    gone, changes nothing. *)
Definition clearTimeout (h : option nat) (s : State) : State :=
  {| world := world s; isInitialized := isInitialized s;
     has_styles := has_styles s; observers := observers s;
     scanInterval := scanInterval s; focusScanTimeout := focusScanTimeout s;
     timers :=
       match h with
       | Some h => List.filter (λ t, negb (handle t =? h)%nat) (timers s)
       | None => timers s
       end;
     next_handle := next_handle s; listening := listening s |}.

Definition set_focusScanTimeout (h : nat) (s : State) : State :=
  {| world := world s; isInitialized := isInitialized s;
     has_styles := has_styles s; observers := observers s;
     scanInterval := scanInterval s; focusScanTimeout := Some h;
     timers := timers s; next_handle := next_handle s;
     listening := listening s |}.

(** The callback that [setupObserver] gives to the [MutationObserver];
    [mutations] holds [addedNodes.length] of each record. *)
Definition on_mutations (mutations : list nat) (s : State) : State :=
  if negb (truthy (focusModeEnabled (settings (world s)))) then s
  else
    let shouldScan := existsb (λ added, (0 <? added)%nat) mutations in
    if shouldScan then
      let '(h, s) := add_timer DebouncedScan 200 false
                       (clearTimeout (focusScanTimeout s) s) in
      set_focusScanTimeout h s
    else s.

(** [onNavigate()], with the timer it arms. *)
Definition onNavigate (s : State) : State :=
  let s := set_world (step Navigate) s in
  if truthy (focusModeEnabled (settings (world s)))
  then (add_timer SettledScan 500 false s).2
  else s.

(** [initialize()], run without interruption. *)
Definition initialize (s : State) : State :=
  if isInitialized s then s
  else
    let s := set_world (λ w, (loadSettings w).2) s in
    let s :=
      if truthy (focusModeEnabled (settings (world s)))
      then (add_timer SettledScan 500 false s).2
      else s in
    let '(h, s) := add_timer Poll 2000 true s in
    {| world := world s; isInitialized := true;
       has_styles := true;             (* [injectStyles()] *)
       observers := 1;                 (* [setupObserver()]: the old one, if
                                          any, is disconnected *)
       scanInterval := Some h; focusScanTimeout := focusScanTimeout s;
       timers := timers s; next_handle := next_handle s;
       listening := true |}.

(** A timer fires: a timeout is gone after it, an interval is due again a
    period later. *)
Definition fire (h : nat) (s : State) : State :=
  match List.find (λ t, (handle t =? h)%nat) (timers s) with
  | None => s
  | Some t =>
    if bool_decide (due t ≤ now (world s)) then
      let rest := List.filter (λ t', negb (handle t' =? h)%nat) (timers s) in
      let timers' :=
        match period t with
        | None => rest
        | Some p =>
          rest ++ [{| handle := h; due := due t + p; period := Some p;
                      callback := callback t |}]
        end in
      {| world := step (callback t) (world s);
         isInitialized := isInitialized s; has_styles := has_styles s;
         observers := observers s; scanInterval := scanInterval s;
         focusScanTimeout := focusScanTimeout s; timers := timers';
         next_handle := next_handle s; listening := listening s |}
    else s
  end.

(** What happens to the page and the script. *)
Inductive Input : Type :=
| Initialize                       (* the script calls [initialize()] *)
| Mutations (addedNodes : list nat)  (* the observer reports records *)
| NavigateFinish                   (* ['yt-navigate-finish'] *)
| Message (message : Message)
| Fire (h : nat)                   (* the timer with this handle fires *)
| Clock (t : Z).                   (* time passes, to [t] *)

Definition react (i : Input) (s : State) : State :=
  match i with
  | Initialize => initialize s
  | Mutations mutations =>
    if (0 <? observers s)%nat then on_mutations mutations s else s
  | NavigateFinish => if listening s then onNavigate s else s
  | Message message =>
    if listening s then set_world (step (Incoming message)) s else s
  | Fire h => fire h s
  | Clock t => set_world (at_time (Z.max t (now (world s)))) s
  end.

Definition run (inputs : list Input) (s : State) : State :=
  foldl (λ s i, react i s) s inputs.

(** The pending timers whose callback is the given event. *)
Definition pending (cb : Event → bool) (s : State) : list Timer :=
  List.filter (λ t, cb (callback t)) (timers s).

Definition is_debounced (ev : Event) : bool :=
  match ev with DebouncedScan => true | _ => false end.

Definition is_settled (ev : Event) : bool :=
  match ev with SettledScan => true | _ => false end.

Definition is_poll (ev : Event) : bool :=
  match ev with Poll => true | _ => false end.

(** What holds of the timers at every moment: handles are distinct and
    older than the next one; a pending debounced scan is the one
    [window.focusScanTimeout] names; a poll timer is the one
    [scanInterval] names; the observer and the listeners are there once
    [initialize] has run, and not before. *)
Definition timers_ok (s : State) : Prop :=
  NoDup (handle <$> timers s) ∧
  Forall (λ t, (handle t < next_handle s)%nat) (timers s) ∧
  Forall (λ t, is_debounced (callback t) = true →
               focusScanTimeout s = Some (handle t)) (timers s) ∧
  Forall (λ t, is_poll (callback t) = true →
               isInitialized s = true ∧ scanInterval s = Some (handle t))
    (timers s) ∧
  (if isInitialized s
   then has_styles s = true ∧ observers s = 1%nat ∧ listening s = true
   else observers s = 0%nat ∧ listening s = false).

End Script.

(** * JavaScript strings *)

Lemma lower_ascii_idemp c : lower_ascii (lower_ascii c) = lower_ascii c.
Proof.
  destruct c as [[] [] [] [] [] [] [] []]; reflexivity.
Qed.

Lemma toLowerCase_idemp s : toLowerCase (toLowerCase s) = toLowerCase s.
Proof.
  induction s as [|c s IH]; simpl; [reflexivity|].
  by rewrite lower_ascii_idemp, IH.
Qed.

Lemma toLowerCase_app s1 s2 :
  toLowerCase (s1 +:+ s2) = toLowerCase s1 +:+ toLowerCase s2.
Proof.
  induction s1 as [|c s1 IH]; simpl; [reflexivity|]. by rewrite IH.
Qed.

Lemma startsWith_spec s sub :
  startsWith s sub = true ↔ ∃ post, s = sub +:+ post.
Proof.
  revert s. induction sub as [|a sub IH]; intros s; simpl.
  - split; [intros _; by exists s | done].
  - destruct s as [|b s].
    + split; [done | intros [post Hp]; discriminate Hp].
    + rewrite andb_true_iff, IH. split.
      * intros [Hab [post ->]]. apply Ascii.eqb_eq in Hab as ->. by exists post.
      * intros [post Hp]. injection Hp as -> ->. split; [apply Ascii.eqb_refl | by exists post].
Qed.

Lemma includes_spec s sub : includes s sub = true ↔ substring_of sub s.
Proof.
  unfold substring_of. induction s as [|c s IH].
  - simpl. rewrite orb_false_r, startsWith_spec. split.
    + intros [post Hp]. by exists EmptyString, post.
    + intros [pre [post Hp]]. destruct pre; [by exists post | discriminate Hp].
  - cbn [includes]. rewrite orb_true_iff, startsWith_spec, IH. split.
    + intros [[post Hp] | [pre [post Hp]]].
      * by exists EmptyString, post.
      * exists (String c pre), post. simpl. by rewrite Hp.
    + intros [pre [post Hp]]. destruct pre as [|c' pre].
      * left. by exists post.
      * right. simpl in Hp. injection Hp as _ ->. by exists pre, post.
Qed.

Lemma includes_false_spec s sub : includes s sub = false ↔ ¬ substring_of sub s.
Proof.
  rewrite <- includes_spec. destruct (includes s sub); split; congruence.
Qed.

(** * The classifier *)

Lemma matches_any_true text keywords :
  matches_any (toLowerCase text) keywords = true ↔ contains_any text keywords.
Proof.
  unfold matches_any, contains_any, contains_keyword.
  rewrite existsb_exists. split.
  - intros [k [Hin Hk]]. exists k. split; [by apply list_elem_of_In|by apply includes_spec].
  - intros [k [Hin Hk]]. exists k. split; [by apply list_elem_of_In|by apply includes_spec].
Qed.

Lemma matches_any_false text keywords :
  matches_any (toLowerCase text) keywords = false ↔ ¬ contains_any text keywords.
Proof.
  rewrite <- matches_any_true. destruct (matches_any _ _); split; congruence.
Qed.


Example classify_block_precedence :
  classifyContent
    {| focusModeEnabled := Some true; allowedKeywords := Some ["python"];
       blockedKeywords := Some ["prank"]; stats := None |}
    "Python Prank Compilation" = Normal blocked.
Proof. reflexivity. Qed.

Example classify_tutorial :
  classifyContent
    {| focusModeEnabled := Some true; allowedKeywords := Some ["python"];
       blockedKeywords := Some ["prank"]; stats := None |}
    "Intro to Python Tutorial" = Normal educational.
Proof. reflexivity. Qed.

Example classify_substring_not_word :
  classifyContent getDefaultSettings "Wargaming history" = Normal blocked.
Proof. reflexivity. Qed.

Lemma classifyContent_lists (s : Settings) (A B : list string) (t : string) :
  allowedKeywords s = Some A → blockedKeywords s = Some B →
  classifyContent s t =
    Normal (if matches_any (toLowerCase t) B then blocked
            else if matches_any (toLowerCase t) A then educational
            else neutral).
Proof.
  intros HA HB. unfold classifyContent. rewrite HA, HB.
  by repeat case_match.
Qed.

(** The classifier sees its text through [toLowerCase] only. *)
Lemma classifyContent_case_insensitive (s : Settings) (t t' : string) :
  toLowerCase t = toLowerCase t' → classifyContent s t = classifyContent s t'.
Proof. intros H. unfold classifyContent. by rewrite H. Qed.

(** ** What [toLowerCase] identifies *)

Lemma lower_ascii_unfold (c : ascii) :
  lower_ascii c =
    if ((65 <=? nat_of_ascii c)%nat && (nat_of_ascii c <=? 90)%nat)%bool
    then ascii_of_nat (nat_of_ascii c + 32) else c.
Proof. reflexivity. Qed.

Lemma nat_of_ascii_inj (a b : ascii) : nat_of_ascii a = nat_of_ascii b → a = b.
Proof.
  intros H. rewrite <- (ascii_nat_embedding a), <- (ascii_nat_embedding b).
  by rewrite H.
Qed.

(** Two code units have the same lower case exactly when they are the same
    letter: [toLowerCase] folds the capitals A..Z onto the small letters
    and identifies nothing else. *)
Lemma lower_ascii_same_letter (a b : ascii) :
  lower_ascii a = lower_ascii b ↔ same_letter a b.
Proof.
  pose proof (nat_ascii_bounded a) as Ha. pose proof (nat_ascii_bounded b) as Hb.
  rewrite !lower_ascii_unfold. unfold same_letter, capital_of.
  assert (Hcap : ∀ n : nat, (65 <=? n)%nat && (n <=? 90)%nat = true
                           ↔ (65 ≤ n)%nat ∧ (n ≤ 90)%nat).
  { intros n. by rewrite andb_true_iff, !Nat.leb_le. }
  destruct ((65 <=? nat_of_ascii a)%nat && (nat_of_ascii a <=? 90)%nat) eqn:Ea;
    destruct ((65 <=? nat_of_ascii b)%nat && (nat_of_ascii b <=? 90)%nat) eqn:Eb;
    try apply Hcap in Ea; try apply Hcap in Eb;
    try (apply not_true_iff_false in Ea; rewrite Hcap in Ea);
    try (apply not_true_iff_false in Eb; rewrite Hcap in Eb).
  - split.
    + intros H. apply (f_equal nat_of_ascii) in H.
      rewrite !nat_ascii_embedding in H by lia.
      left. apply nat_of_ascii_inj. lia.
    + intros [-> | [H | H]]; [done | lia | lia].
  - split.
    + intros H. apply (f_equal nat_of_ascii) in H.
      rewrite nat_ascii_embedding in H by lia. right. right. lia.
    + intros [-> | [H | H]]; [lia | lia |].
      apply nat_of_ascii_inj. rewrite nat_ascii_embedding by lia. lia.
  - split.
    + intros H. apply (f_equal nat_of_ascii) in H.
      rewrite nat_ascii_embedding in H by lia. right. left. lia.
    + intros [-> | [H | H]]; [lia | | lia].
      apply nat_of_ascii_inj. rewrite nat_ascii_embedding by lia. lia.
  - split; [by left|]. intros [-> | [H | H]]; [done | lia | lia].
Qed.

Lemma toLowerCase_equal_ignoring_case (s1 s2 : string) :
  toLowerCase s1 = toLowerCase s2 ↔ equal_ignoring_case s1 s2.
Proof.
  revert s2. induction s1 as [|a s1 IH]; intros [|b s2]; simpl; try done.
  rewrite <- IH, <- lower_ascii_same_letter. split.
  - by intros [= -> ->].
  - by intros [-> ->].
Qed.

Lemma toLowerCase_split (t x y : string) :
  toLowerCase t = x +:+ y →
  ∃ t1 t2, t = t1 +:+ t2 ∧ toLowerCase t1 = x ∧ toLowerCase t2 = y.
Proof.
  revert t. induction x as [|c x IH]; intros t; simpl.
  - intros H. by exists EmptyString, t.
  - destruct t as [|d t]; simpl; [done|]. intros [= Hc Ht].
    destruct (IH t Ht) as (t1 & t2 & -> & H1 & H2).
    exists (String d t1), t2. simpl. by rewrite Hc, H1.
Qed.

(** Containment after lower-casing both sides is containment without
    regard to case. *)
Lemma contains_keyword_ignoring_case (text keyword : string) :
  contains_keyword text keyword ↔ occurs_ignoring_case keyword text.
Proof.
  unfold contains_keyword, substring_of, occurs_ignoring_case. split.
  - intros (pre & post & H).
    destruct (toLowerCase_split _ _ _ H) as (t1 & t2 & -> & H1 & H2).
    destruct (toLowerCase_split _ _ _ H2) as (mid & t3 & -> & H3 & H4).
    exists t1, mid, t3. split; [done|].
    by apply toLowerCase_equal_ignoring_case.
  - intros (pre & mid & post & -> & H).
    apply toLowerCase_equal_ignoring_case in H.
    exists (toLowerCase pre), (toLowerCase post).
    by rewrite !toLowerCase_app, H.
Qed.

Lemma contains_any_ignoring_case (text : string) (keywords : list string) :
  contains_any text keywords ↔ some_occurs_ignoring_case keywords text.
Proof.
  unfold contains_any, some_occurs_ignoring_case.
  split; intros (k & Hin & Hk); exists k; split; try done;
    by apply contains_keyword_ignoring_case.
Qed.

(** C1.  With keyword lists [A] (allowed) and [B] (blocked) in the settings,
    [classifyContent] answers [blocked] when a keyword of [B] occurs in the
    text, whatever [A] holds; otherwise [educational] when a keyword of [A]
    occurs in it; otherwise [neutral].  A keyword occurs in the text when
    some stretch of the text is the keyword but for the case of its
    letters A..Z: containment of substrings without regard to case, with
    [B] consulted first. *)
Theorem classifyContent_spec (s : Settings) (A B : list string) (t : string) :
  allowedKeywords s = Some A → blockedKeywords s = Some B →
  (some_occurs_ignoring_case B t → classifyContent s t = Normal blocked) ∧
  (¬ some_occurs_ignoring_case B t → some_occurs_ignoring_case A t →
     classifyContent s t = Normal educational) ∧
  (¬ some_occurs_ignoring_case B t → ¬ some_occurs_ignoring_case A t →
     classifyContent s t = Normal neutral).
Proof.
  intros HA HB. rewrite (classifyContent_lists s A B) by done.
  rewrite <- !contains_any_ignoring_case. split_and!.
  - intros Hb. apply matches_any_true in Hb. by rewrite Hb.
  - intros Hb Ha. apply matches_any_false in Hb. apply matches_any_true in Ha.
    by rewrite Hb, Ha.
  - intros Hb Ha. apply matches_any_false in Hb, Ha. by rewrite Hb, Ha.
Qed.

(** * Calls and what is left of them *)

Lemma update_stored_unfold (change : Settings → Settings) (w : World) :
  update_stored change w = update_resume change (storage_answer w) w.
Proof. reflexivity. Qed.

(** The rest of a stat update never throws and touches neither the page
    nor the clock. *)
Lemma update_resume_returns (change : Settings → Settings)
    (answer : completion (option Settings)) (w : World) :
  ∃ w', update_resume change answer w = (Normal tt, w') ∧
        document w' = document w ∧
        lastTrackTime w' = lastTrackTime w ∧ now w' = now w.
Proof.
  unfold update_resume, await, try_catch, mbind, M_bind, storage_set,
    get_world, modify, mret, M_ret.
  destruct w as [p s [stored gr sr log] t n]; simpl.
  destruct answer as [[cur|]|e]; simpl; [| |by eexists];
    destruct sr; simpl; by eexists.
Qed.

(** A stat update never throws and touches neither the page nor the clock. *)
Lemma update_stored_returns (change : Settings → Settings) (w : World) :
  ∃ w', update_stored change w = (Normal tt, w') ∧
        document w' = document w ∧
        lastTrackTime w' = lastTrackTime w ∧ now w' = now w.
Proof. rewrite update_stored_unfold. apply update_resume_returns. Qed.

(** The rest of a stat update does not look at the baseline of the time
    tracker. *)
Lemma update_resume_lastTrackTime (change : Settings → Settings)
    (answer : completion (option Settings)) (t : Z) (w : World) :
  (update_resume change answer (set_lastTrackTime t w)).2
  = set_lastTrackTime t (update_resume change answer w).2.
Proof.
  unfold update_resume, await, try_catch, mbind, M_bind, storage_set,
    get_world, modify, mret, M_ret.
  destruct w as [p s [stored gr sr log] t0 n]; simpl.
  destruct answer as [[cur|]|e]; simpl; [| |done]; by destruct sr.
Qed.


Lemma settle_one (rest : Pending) (w : World) :
  settle [rest] w = (Normal tt, (rest w).2).
Proof. reflexivity. Qed.

Lemma settle_two (rest1 rest2 : Pending) (w : World) :
  settle [rest1; rest2] w = (Normal tt, (rest2 (rest1 w).2).2).
Proof. reflexivity. Qed.

Lemma filterVideos_call_unfold (w : World) :
  filterVideos_call w =
    let '(els, r) := forEach_video (settings w) (elements (document w)) 0 in
    let w1 := set_document (set_elements (λ _, els)) w in
    match r with
    | Throw e => (Throw e, w1)
    | Normal c =>
      (Normal (if bool_decide (0 < c)
               then [update_resume (add_blockedCount c) (storage_answer w)]
               else []), w1)
    end.
Proof.
  unfold filterVideos_call, updateBlockedCount_call, update_call,
    storage_get_call, mbind, M_bind, get_world, on_elements, modify, throw,
    mret, M_ret.
  destruct (forEach_video _ _ _) as [els [c|e]]; simpl; [|done].
  by case_bool_decide.
Qed.

Lemma trackEducationalTime_call_unfold (w : World) :
  trackEducationalTime_call w =
    if negb (includes (pathname (document w)) "/watch") then (Normal [], w)
    else
      match watch_heading (document w) with
      | None => (Normal [], w)
      | Some headingText =>
        match allowedKeywords (settings w) with
        | None => (Throw TypeError, w)
        | Some allowedList =>
          let elapsed := (now w - lastTrackTime w) `div` 60000 in
          if matches_any (toLowerCase headingText) allowedList
             && bool_decide (1 ≤ elapsed)
          then (Normal [update_resume (add_educationalMinutes elapsed)
                          (storage_answer w)],
                set_lastTrackTime (now w) w)
          else (Normal [], w)
        end
      end.
Proof.
  unfold trackEducationalTime_call, updateEducationalTime_call, update_call,
    storage_get_call, mbind, M_bind, get_world, modify, throw, mret, M_ret.
  destruct (includes _ _); simpl; [|done].
  destruct (watch_heading _); [|done].
  destruct (allowedKeywords _); [|done].
  destruct (matches_any _ _); simpl; [|done].
  by case_bool_decide.
Qed.

(** The tracker called on its own: what it hands to
    [updateEducationalTime] is added to the store, and the baseline is the
    current time. *)
Lemma trackEducationalTime_alone (w : World) :
  trackEducationalTime w =
    if negb (includes (pathname (document w)) "/watch") then (Normal tt, w)
    else
      match watch_heading (document w) with
      | None => (Normal tt, w)
      | Some headingText =>
        match allowedKeywords (settings w) with
        | None => (Throw TypeError, w)
        | Some allowedList =>
          let elapsed := (now w - lastTrackTime w) `div` 60000 in
          if matches_any (toLowerCase headingText) allowedList
             && bool_decide (1 ≤ elapsed)
          then (Normal tt,
                set_lastTrackTime (now w) (updateEducationalTime elapsed w).2)
          else (Normal tt, w)
        end
      end.
Proof.
  unfold trackEducationalTime. unfold mbind, M_bind.
  rewrite trackEducationalTime_call_unfold.
  destruct (negb _); [done|].
  destruct (watch_heading _); [|done].
  destruct (allowedKeywords _); [|done]. cbv zeta.
  destruct (_ && _); [|done].
  rewrite settle_one, update_resume_lastTrackTime.
  unfold updateEducationalTime. by rewrite update_stored_unfold.
Qed.

(** * The scan pass over the videos *)

Lemma set_elements_same (w : World) :
  set_document (set_elements (λ _, elements (document w))) w = w.
Proof. by destruct w as [[] ? ? ? ?]. Qed.

Lemma filterVideos_unfold (w : World) :
  filterVideos w =
    let '(els, r) := forEach_video (settings w) (elements (document w)) 0 in
    let w1 := set_document (set_elements (λ _, els)) w in
    match r with
    | Throw e => (Throw e, w1)
    | Normal c =>
      if bool_decide (0 < c) then updateBlockedCount c w1 else (Normal tt, w1)
    end.
Proof.
  unfold filterVideos. unfold mbind, M_bind. rewrite filterVideos_call_unfold.
  destruct (forEach_video _ _ _) as [els [c|e]]; cbv zeta; [|done].
  case_bool_decide; [|done].
  rewrite settle_one. unfold updateBlockedCount. rewrite update_stored_unfold.
  change (storage_answer (set_document (set_elements (λ _, els)) w))
    with (storage_answer w).
  by destruct (update_resume_returns (add_blockedCount c) (storage_answer w)
                 (set_document (set_elements (λ _, els)) w)) as (w' & -> & _).
Qed.

Lemma filterVideo_processed (s : Settings) (el : Element) :
  processed el → filterVideo s el = (el, Normal 0).
Proof.
  unfold processed, filterVideo. intros H. by rewrite bool_decide_eq_true_2.
Qed.

Lemma setAttribute_processed (el : Element) :
  processed (setAttribute "data-focus-processed" "true" el).
Proof. unfold processed, dataset_focusProcessed. simpl. by rewrite lookup_insert_eq. Qed.

(** Whatever the callback does with a video, it leaves it marked. *)
Lemma filterVideo_marks (s : Settings) (el : Element) :
  processed (filterVideo s el).1.
Proof.
  unfold filterVideo, classify_and_mark. case_bool_decide as Hp; [done|]. simpl.
  pose proof (setAttribute_processed el) as Hm.
  destruct (title_text el); [|done].
  destruct (classifyContent _ _) as [[]|]; simpl; try done.
  unfold markAsEducational. by case_match.
Qed.

Lemma filterVideo_tagName (s : Settings) (el : Element) :
  tagName (filterVideo s el).1 = tagName el.
Proof.
  unfold filterVideo, classify_and_mark. case_bool_decide; [done|]. simpl.
  destruct (title_text el); [|done].
  destruct (classifyContent _ _) as [[]|]; simpl; try done.
  unfold markAsEducational. by case_match.
Qed.

Lemma filterVideo_videoRenderer (s : Settings) (el : Element) :
  SELECTORS.videoRenderer (filterVideo s el).1 = SELECTORS.videoRenderer el.
Proof.
  unfold SELECTORS.videoRenderer, SELECTORS.tag_in. by rewrite filterVideo_tagName.
Qed.

Lemma forEach_video_skip (s : Settings) (els : list Element) (c : Z) :
  all_videos_processed els → forEach_video s els c = (els, Normal c).
Proof.
  intros H. revert c. induction H as [|el els Hel _ IH]; intros c; simpl; [done|].
  destruct (SELECTORS.videoRenderer el) eqn:Hv.
  - rewrite filterVideo_processed by auto. by rewrite Z.add_0_r, IH.
  - by rewrite IH.
Qed.

(** A pass that returns normally has visited, hence marked, every video. *)
Lemma forEach_video_marks (s : Settings) (els els' : list Element) (c c' : Z) :
  forEach_video s els c = (els', Normal c') → all_videos_processed els'.
Proof.
  revert els' c. induction els as [|el els IH]; intros els' c; simpl.
  - intros [= <- _]. constructor.
  - destruct (SELECTORS.videoRenderer el) eqn:Hv.
    + pose proof (filterVideo_marks s el) as Hm.
      destruct (filterVideo s el) as [el1 [inc|e]]; [|done].
      destruct (forEach_video s els (c + inc)) as [rest r] eqn:Hrest.
      intros [= <- ->]. constructor; [done|]. by eapply IH.
    + destruct (forEach_video s els c) as [rest r] eqn:Hrest.
      intros [= <- ->]. constructor; [by rewrite Hv|]. by eapply IH.
Qed.

(** C2.  On a page whose videos all carry the processed marker,
    [filterVideos] changes nothing: the page (hidden classes, badges,
    markers), the stored settings and the log of storage writes are what
    they were, and it does not throw even with malformed settings.  A pass
    that returned normally leaves such a page, so running the pass again
    right after it is the identity. *)
Theorem filterVideos_idempotent (w : World) :
  (all_videos_processed (elements (document w)) →
     filterVideos w = (Normal tt, w)) ∧
  (∀ w1, filterVideos w = (Normal tt, w1) →
     filterVideos w1 = (Normal tt, w1)).
Proof.
  assert (Hskip : ∀ w0, all_videos_processed (elements (document w0)) →
                  filterVideos w0 = (Normal tt, w0)).
  { intros w0 H. rewrite filterVideos_unfold, forEach_video_skip by done.
    simpl. by rewrite set_elements_same. }
  split; [apply Hskip|].
  intros w1 Hpass. apply Hskip.
  rewrite filterVideos_unfold in Hpass.
  destruct (forEach_video _ _ _) as [els [c|e]] eqn:Hfe; [|done].
  apply forEach_video_marks in Hfe.
  case_bool_decide.
  - cbv zeta in Hpass.
    unfold updateBlockedCount, update_stored, update_call, update_resume,
      storage_get_call, storage_answer, await, try_catch, mbind, M_bind,
      storage_set, get_world, modify, mret, M_ret in Hpass. simpl in Hpass.
    repeat case_match; simplify_eq; done.
  - cbv zeta in Hpass. by simplify_eq.
Qed.

(** * The stat updates *)

(** With a stored object and a storage area that answers, an update on its
    own is one read-modify-write of that object. *)
Lemma update_stored_some (change : Settings → Settings) (w : World)
    (stored : Settings) :
  get_rejects (sync w) = false → set_rejects (sync w) = false →
  focusSettings (sync w) = Some stored →
  update_stored change w =
    (Normal tt,
     set_sync {| focusSettings := Some (change stored);
                 get_rejects := false; set_rejects := false;
                 set_log := set_log (sync w) ++ [change stored] |} w).
Proof.
  unfold update_stored, update_call, update_resume, storage_get_call,
    storage_answer, await, try_catch, mbind, M_bind, storage_get, storage_set,
    get_world, modify, mret, M_ret.
  intros Hg Hs Hf. rewrite Hg, Hf. simpl. rewrite Hs. simpl. by rewrite Hg.
Qed.

(** [filterVideos] on its own, ending its loop with [blockedCount = c]:
    if [c = 0] the storage area is left as it was (no [set] call at all);
    if [c > 0], the storage area answers and holds a settings object, then
    exactly one object is written, its [stats.blockedCount] is the stored
    one (zero when missing) plus [c], and [focusModeEnabled], both keyword
    lists and the other three stats fields are the stored ones. *)
Lemma filterVideos_alone_reports (w : World) (els : list Element) (c : Z) :
  forEach_video (settings w) (elements (document w)) 0 = (els, Normal c) →
  let w' := (filterVideos w).2 in
  (c = 0 → sync w' = sync w) ∧
  (0 < c →
   get_rejects (sync w) = false → set_rejects (sync w) = false →
   ∀ stored, focusSettings (sync w) = Some stored →
   ∃ stored',
     focusSettings (sync w') = Some stored' ∧
     set_log (sync w') = set_log (sync w) ++ [stored'] ∧
     stats stored' ≫= blockedCount
       = Some (default 0 (stats stored ≫= blockedCount) + c) ∧
     focusModeEnabled stored' = focusModeEnabled stored ∧
     allowedKeywords stored' = allowedKeywords stored ∧
     blockedKeywords stored' = blockedKeywords stored ∧
     stats stored' ≫= educationalMinutes = stats stored ≫= educationalMinutes ∧
     stats stored' ≫= focusStreak = stats stored ≫= focusStreak ∧
     stats stored' ≫= lastActiveDate = stats stored ≫= lastActiveDate).
Proof.
  intros Hfe w'. subst w'. rewrite filterVideos_unfold, Hfe. cbv zeta. split.
  - intros ->. by rewrite bool_decide_eq_false_2 by lia.
  - intros Hc Hget Hset stored Hstored.
    rewrite bool_decide_eq_true_2 by done.
    unfold updateBlockedCount.
    rewrite (update_stored_some _ _ stored) by done. simpl.
    exists (add_blockedCount c stored).
    destruct stored as [en al bl [[m b f d]|]]; simpl; split_and!; done.
Qed.

(** The count is the number of videos the pass newly hid as blocked: it
    never goes down. *)
Lemma forEach_video_count_le (s : Settings) (els els' : list Element) (c c' : Z) :
  forEach_video s els c = (els', Normal c') → c ≤ c'.
Proof.
  revert els' c. induction els as [|el els IH]; intros els' c; simpl.
  - intros [= _ <-]. lia.
  - destruct (SELECTORS.videoRenderer el).
    + destruct (filterVideo s el) as [el1 [inc|e]] eqn:Hcb; [|done].
      assert (0 ≤ inc).
      { unfold filterVideo, classify_and_mark in Hcb. repeat case_match; simplify_eq; lia. }
      destruct (forEach_video s els (c + inc)) as [rest r] eqn:Hrest.
      intros [= <- ->]. apply IH in Hrest. lia.
    + destruct (forEach_video s els c) as [rest r] eqn:Hrest.
      intros [= <- ->]. by apply IH in Hrest.
Qed.

(** * Loading the settings *)

(** C8, as the script has it.  [loadSettings] never throws: a rejected read
    or an absent item gives the baseline of [getDefaultSettings], and a
    stored object is taken whole, as stored.  A stats counter that the
    object lacks counts as zero when [updateBlockedCount] or
    [updateEducationalTime] adds to it. *)
Theorem loadSettings_never_throws (w : World) :
  (∃ w', loadSettings w = (Normal tt, w') ∧
     document w' = document w ∧ sync w' = sync w ∧
     settings w' =
       if get_rejects (sync w) then getDefaultSettings
       else default getDefaultSettings (focusSettings (sync w))) ∧
  (∀ (s : Settings) (c : Z),
     stats (add_blockedCount c s) ≫= blockedCount
       = Some (default 0 (stats s ≫= blockedCount) + c)) ∧
  (∀ (s : Settings) (m : Z),
     stats (add_educationalMinutes m s) ≫= educationalMinutes
       = Some (default 0 (stats s ≫= educationalMinutes) + m)).
Proof.
  split_and!.
  - unfold loadSettings, try_catch, mbind, M_bind, storage_get, modify.
    destruct (get_rejects (sync w)); simpl; by eexists.
  - intros [en al bl [[m b f d]|]] c; done.
  - intros [en al bl [[m b f d]|]] c; done.
Qed.

(** C8, what fails.  A stored object without keyword lists is loaded as it
    is: classifying with it throws, where the default-merged object would
    answer [blocked] from the baseline list. *)
Lemma loadSettings_keeps_missing_lists :
  let w := set_sync (sample_storage (Some sample_no_lists)) sample_world in
  let loaded := settings (loadSettings w).2 in
  blockedKeywords loaded = None ∧
  classifyContent loaded "prank wars" = Throw TypeError ∧
  classifyContent (spec_default_merge loaded) "prank wars" = Normal blocked.
Proof. by vm_compute. Qed.

(** * The time tracker *)

Lemma trackEducationalTime_unfold (w : World) (heading : string)
    (A : list string) :
  includes (pathname (document w)) "/watch" = true →
  watch_heading (document w) = Some heading →
  allowedKeywords (settings w) = Some A →
  contains_any heading A →
  1 ≤ (now w - lastTrackTime w) `div` 60000 →
  trackEducationalTime w =
    (Normal tt,
     set_lastTrackTime (now w)
       (updateEducationalTime ((now w - lastTrackTime w) `div` 60000) w).2).
Proof.
  intros Hpath Hhead HA Hedu Hmin. apply matches_any_true in Hedu.
  rewrite trackEducationalTime_alone, Hpath, Hhead, HA. cbv zeta.
  by rewrite Hedu, bool_decide_eq_true_2.
Qed.

(** C6, as the script has it.  On a watch page whose heading contains an
    allowed keyword, with [e] milliseconds since the baseline and
    [e / 60000 >= 1], the tracker hands [floor(e / 60000)] minutes to
    [updateEducationalTime] (with a stored object and a storage area that
    answers, [stats.educationalMinutes] grows by exactly that), and the
    baseline becomes the current time: it advances by [e], the part of [e]
    below a minute included. *)
Theorem trackEducationalTime_reports (w : World) (heading : string)
    (A : list string) :
  includes (pathname (document w)) "/watch" = true →
  watch_heading (document w) = Some heading →
  allowedKeywords (settings w) = Some A →
  contains_any heading A →
  let e := now w - lastTrackTime w in
  1 ≤ e `div` 60000 →
  let w' := (trackEducationalTime w).2 in
  w' = set_lastTrackTime (now w) (updateEducationalTime (e `div` 60000) w).2 ∧
  lastTrackTime w' = lastTrackTime w + e ∧
  (get_rejects (sync w) = false → set_rejects (sync w) = false →
   ∀ stored, focusSettings (sync w) = Some stored →
   ∃ stored',
     focusSettings (sync w') = Some stored' ∧
     stats stored' ≫= educationalMinutes
       = Some (default 0 (stats stored ≫= educationalMinutes) + e `div` 60000)).
Proof.
  intros Hpath Hhead HA Hedu e Hmin w'. subst w'.
  rewrite (trackEducationalTime_unfold w heading A) by done. fold e.
  split_and!.
  - done.
  - simpl. subst e. lia.
  - intros Hget Hset stored Hstored. unfold updateEducationalTime.
    rewrite (update_stored_some _ _ stored) by done. simpl.
    exists (add_educationalMinutes (e `div` 60000) stored). split; [done|].
    by destruct stored as [en al bl [[m b f d]|]].
Qed.

(** C6, what fails.  Ninety seconds after the baseline the tracker reports
    one minute and moves the baseline by the full ninety seconds, not by
    the sixty that were reported: the remaining thirty are dropped. *)
Lemma trackEducationalTime_drops_remainder :
  let w := sample_watch_world in
  let w' := (trackEducationalTime w).2 in
  let e := now w - lastTrackTime w in
  e = 90000 ∧ e `div` 60000 = 1 ∧
  (focusSettings (sync w') ≫= stats) ≫= educationalMinutes = Some (7 + 1) ∧
  lastTrackTime w' = lastTrackTime w + 90000 ∧
  lastTrackTime w' ≠ lastTrackTime w + (e `div` 60000) * 60000.
Proof. by vm_compute. Qed.

(** * The passes, run *)

Ltac run_M :=
  unfold on_elements, try_catch, throw, get_world, modify, mbind, M_bind,
    mret, M_ret; simpl.

Lemma hideShorts_run (w : World) :
  hideShorts w = (Normal tt, set_document (set_elements shorts_pass) w).
Proof. unfold hideShorts. run_M. by destruct w as [[] ? ? ? ?]. Qed.

Lemma onNavigate_run (w : World) :
  onNavigate w = (Normal tt, set_document (set_elements clear_markers) w).
Proof. done. Qed.

Lemma hideFocusDashboard_run (w : World) :
  hideFocusDashboard w =
    (Normal tt,
     set_document (λ p,
       set_elements
         (if truthy (focusModeEnabled (settings w)) then id
          else first_matching SELECTORS.homeFeed (classList_remove "focus-hidden"))
         (set_dashboard ((λ cl, cl ∪ {["hidden"]}) <$> dashboard p) p)) w).
Proof.
  unfold hideFocusDashboard. run_M.
  destruct w as [[] ? ? ? ?]; simpl. by destruct (truthy _).
Qed.

Lemma removeAllFilters_run (w : World) :
  removeAllFilters w =
    (Normal tt,
     set_document (λ p,
       set_elements
         (if truthy (focusModeEnabled (settings w)) then id
          else first_matching SELECTORS.homeFeed (classList_remove "focus-hidden"))
         (set_dashboard ((λ cl, cl ∪ {["hidden"]}) <$> dashboard p)
            (set_elements reset_pass p))) w).
Proof.
  unfold removeAllFilters, hideFocusDashboard. run_M.
  destruct w as [[] ? ? ? ?]; simpl. by destruct (truthy _).
Qed.

Lemma checkForHomepage_run (w : World) :
  checkForHomepage w =
    if isHome (document w) && truthy (focusModeEnabled (settings w))
    then showFocusDashboard w else hideFocusDashboard w.
Proof. unfold checkForHomepage. run_M. by destruct (_ && _). Qed.

(** The rest of a stat update does not look at the page. *)
Lemma update_resume_document (change : Settings → Settings)
    (answer : completion (option Settings)) (f : Page → Page) (w : World) :
  (update_resume change answer (set_document f w)).2
  = set_document f (update_resume change answer w).2.
Proof.
  unfold update_resume, await, storage_set. run_M.
  destruct w as [p s [stored gr sr log] t n]; simpl.
  destruct answer as [[cur|]|e]; simpl; [| |done]; by destruct sr.
Qed.

(** In a handler that calls [checkForHomepage()] after [scanAndFilter()],
    the stat updates of the pass run on after the homepage check.  The
    check and the rest of an update that keeps the switch do not see each
    other: in either order they leave the same world. *)
Lemma update_resume_checkForHomepage (change : Settings → Settings)
    (answer : completion (option Settings)) (w : World) :
  (∀ s, focusModeEnabled (change s) = focusModeEnabled s) →
  (update_resume change answer (checkForHomepage w).2).2
  = (checkForHomepage (update_resume change answer w).2).2.
Proof.
  intros Hch.
  assert (Hw : document (update_resume change answer w).2 = document w ∧
               focusModeEnabled (settings (update_resume change answer w).2)
               = focusModeEnabled (settings w)).
  { unfold update_resume, await, storage_set. run_M.
    destruct w as [p s [stored gr sr log] t n]; simpl.
    destruct answer as [[cur|]|e]; simpl; [| |done];
      destruct sr; simpl; by try rewrite Hch. }
  destruct Hw as [Hd Hs].
  rewrite !checkForHomepage_run, Hd, Hs.
  destruct (_ && _).
  - unfold showFocusDashboard, modify. cbn [snd].
    by rewrite update_resume_document.
  - rewrite !hideFocusDashboard_run, Hs. cbn [snd].
    by rewrite update_resume_document.
Qed.

Lemma dashboard_shown_hide (p : Page) (d : option (gset string)) :
  dashboard_shown (set_dashboard ((λ cl, cl ∪ {["hidden"]}) <$> d) p) = false.
Proof.
  unfold dashboard_shown. simpl. destruct d as [cl|]; simpl; [|done].
  apply bool_decide_eq_false_2. set_solver.
Qed.

Lemma dashboard_shown_show (p : Page) (cl : gset string) :
  dashboard_shown (set_dashboard (Some (cl ∖ {["hidden"]})) p) = true.
Proof.
  unfold dashboard_shown. simpl. apply bool_decide_eq_true_2.
  rewrite elem_of_difference, elem_of_singleton. tauto.
Qed.

(** The homepage check shows the overlay exactly on the home surface with
    focus mode on. *)
Lemma checkForHomepage_shown (w : World) :
  dashboard_shown (document (checkForHomepage w).2)
  = isHome (document w) && truthy (focusModeEnabled (settings w)).
Proof.
  rewrite checkForHomepage_run. destruct (_ && _).
  - unfold showFocusDashboard. run_M. apply dashboard_shown_show.
  - rewrite hideFocusDashboard_run. simpl.
    unfold dashboard_shown. simpl. destruct (dashboard _) as [cl|]; simpl; [|done].
    apply bool_decide_eq_false_2. set_solver.
Qed.

(** * Elements under the script's mutations *)

Lemma same_node_refl (el : Element) : same_node el el.
Proof. by repeat split. Qed.

Lemma same_node_trans (a b c : Element) :
  same_node a b → same_node b c → same_node a c.
Proof.
  intros (?&Hab&?&?&?&?) (?&Hbc&?&?&?&?). repeat split; try congruence.
  intros k Hk. by rewrite Hbc, Hab.
Qed.

Lemma same_node_set_classList (f : gset string → gset string) (el : Element) :
  same_node el (set_classList f el).
Proof. by repeat split. Qed.

Lemma same_node_set_thumbnail (f : Thumbnail → Thumbnail) (el : Element) :
  same_node el (set_thumbnail f el).
Proof. by repeat split. Qed.

Lemma same_node_setAttribute (v : string) (el : Element) :
  same_node el (setAttribute "data-focus-processed" v el).
Proof. repeat split. intros k Hk. simpl. by rewrite lookup_insert_ne. Qed.

Lemma same_node_removeAttribute (el : Element) :
  same_node el (removeAttribute "data-focus-processed" el).
Proof. repeat split. intros k Hk. simpl. by rewrite lookup_delete_ne. Qed.

(** The structural selectors do not see the script's mutations. *)
Lemma same_node_selectors (el el' : Element) :
  same_node el el' →
  SELECTORS.shorts el' = SELECTORS.shorts el ∧
  SELECTORS.shortsTab el' = SELECTORS.shortsTab el ∧
  SELECTORS.shortsSection el' = SELECTORS.shortsSection el ∧
  SELECTORS.videoRenderer el' = SELECTORS.videoRenderer el ∧
  SELECTORS.homeFeed el' = SELECTORS.homeFeed el.
Proof.
  intros (Ht&Ha&_&_&Hd&Hh).
  unfold SELECTORS.shorts, SELECTORS.shortsTab, SELECTORS.shortsSection,
    SELECTORS.videoRenderer, SELECTORS.homeFeed, SELECTORS.tag_in, hasAttribute.
  rewrite Ht, Hd, Hh, !Ha by done. done.
Qed.

Lemma grows_refl (el : Element) : grows el el.
Proof. split; [apply same_node_refl | done]. Qed.

Lemma grows_trans (a b c : Element) : grows a b → grows b c → grows a c.
Proof.
  intros [Hab ?] [Hbc ?]. split; [by eapply same_node_trans | set_solver].
Qed.

Lemma grows_classList_add (c : string) (el : Element) :
  grows el (classList_add c el).
Proof. split; [apply same_node_set_classList | simpl; set_solver]. Qed.

Lemma grows_hidden (el el' : Element) :
  grows el el' → SELECTORS.focus_hidden el = true → SELECTORS.focus_hidden el' = true.
Proof.
  intros [_ Hsub]. unfold SELECTORS.focus_hidden, classList_contains.
  rewrite !bool_decide_eq_true. set_solver.
Qed.

Lemma classList_add_hidden (el : Element) :
  SELECTORS.focus_hidden (classList_add "focus-hidden" el) = true.
Proof.
  unfold SELECTORS.focus_hidden, classList_contains. simpl.
  apply bool_decide_eq_true_2. set_solver.
Qed.

(** The callback of [filterVideos] only adds to a video. *)
Lemma filterVideo_grows (s : Settings) (el : Element) :
  grows el (filterVideo s el).1.
Proof.
  unfold filterVideo, classify_and_mark. case_bool_decide; [apply grows_refl|]. simpl.
  assert (Hm : grows el (setAttribute "data-focus-processed" "true" el)).
  { split; [apply same_node_setAttribute | done]. }
  destruct (title_text el); [|done].
  destruct (classifyContent _ _) as [[]|]; simpl; try done.
  - eapply grows_trans; [exact Hm|]. apply grows_classList_add.
  - eapply grows_trans; [exact Hm|]. unfold markAsEducational.
    case_match; [apply grows_refl|]. split; [apply same_node_set_thumbnail|done].
Qed.

(** * Loops over the element list *)

Lemma forEach_matching_Forall2 (R : Element → Element → Prop)
    (sel : Element → bool) (f : Element → Element) (els : list Element) :
  (∀ el, sel el = false → R el el) → (∀ el, sel el = true → R el (f el)) →
  Forall2 R els (forEach_matching sel f els).
Proof.
  intros Hrefl Hf. unfold forEach_matching.
  induction els as [|el els IH]; simpl; constructor; [|done].
  destruct (sel el) eqn:Hsel; auto.
Qed.

Lemma first_matching_Forall2 (R : Element → Element → Prop)
    (sel : Element → bool) (f : Element → Element) (els : list Element) :
  (∀ el, R el el) → (∀ el, sel el = true → R el (f el)) →
  Forall2 R els (first_matching sel f els).
Proof.
  intros Hrefl Hf.
  induction els as [|el els IH]; simpl; [constructor|].
  destruct (sel el) eqn:Hsel; constructor; auto.
  by apply Forall2_same_length_lookup_2; [|intros ??? ? ?; simplify_eq].
Qed.

Lemma forEach_video_Forall2 (R : Element → Element → Prop) (s : Settings)
    (els : list Element) (c : Z) :
  (∀ el, R el el) → (∀ el, R el (filterVideo s el).1) →
  Forall2 R els (forEach_video s els c).1.
Proof.
  intros Hrefl Hf. revert c.
  induction els as [|el els IH]; intros c; simpl; [constructor|].
  destruct (SELECTORS.videoRenderer el).
  - specialize (Hf el). destruct (filterVideo s el) as [el1 [inc|e]]; simpl in *.
    + specialize (IH (c + inc)). destruct (forEach_video s els (c + inc)).
      by constructor.
    + constructor; [done|]. by apply Forall_Forall2_diag, Forall_forall.
  - specialize (IH c). destruct (forEach_video s els c). by constructor.
Qed.

(** The first match is the one that [querySelector] hands out. *)
Lemma first_matching_first (sel : Element → bool) (f : Element → Element)
    (pre post : list Element) (el : Element) :
  Forall (λ x, sel x = false) pre → sel el = true →
  first_matching sel f (pre ++ el :: post) = pre ++ f el :: post.
Proof.
  intros Hpre Hsel. induction Hpre as [|x pre Hx _ IH]; simpl.
  - by rewrite Hsel.
  - by rewrite Hx, IH.
Qed.

(** * What a pass leaves alone *)

Lemma same_policy_refl (s : Settings) : same_policy s s.
Proof. done. Qed.

Lemma same_policy_trans (a b c : Settings) :
  same_policy a b → same_policy b c → same_policy a c.
Proof. intros (?&?&?) (?&?&?). repeat split; congruence. Qed.

Lemma add_blockedCount_policy (c : Z) (s : Settings) :
  same_policy s (add_blockedCount c s).
Proof. done. Qed.

Lemma add_educationalMinutes_policy (m : Z) (s : Settings) :
  same_policy s (add_educationalMinutes m s).
Proof. done. Qed.

Lemma update_resume_keeps_policy (change : Settings → Settings)
    (answer : completion (option Settings)) :
  (∀ s, same_policy s (change s)) → keeps_policy (update_resume change answer).
Proof.
  intros Hch w. unfold update_resume, await, storage_set. run_M.
  destruct w as [p s [stored gr sr log] t n]; simpl.
  destruct answer as [[cur|]|e]; simpl; [| |done];
    destruct sr; simpl; by try apply Hch.
Qed.

Lemma update_stored_frame (change : Settings → Settings) (w : World) :
  (∀ s, same_policy s (change s)) →
  let w' := (update_stored change w).2 in
  document w' = document w ∧ same_policy (settings w) (settings w').
Proof.
  intros Hch. cbv zeta. rewrite update_stored_unfold.
  by apply update_resume_keeps_policy.
Qed.

Lemma settle_frame (pending : list Pending) (w : World) :
  Forall keeps_policy pending →
  (settle pending w).1 = Normal tt ∧
  document (settle pending w).2 = document w ∧
  same_policy (settings w) (settings (settle pending w).2).
Proof.
  intros Hp. split; [done|]. unfold settle. cbn [snd]. revert w.
  induction Hp as [|rest pending Hrest _ IH]; intros w; [done|].
  cbn [foldl]. destruct (Hrest w) as [Hd Hs]. destruct (IH (rest w).2) as [-> Hs'].
  split; [done | by eapply same_policy_trans].
Qed.

Lemma filterVideos_call_frame (w : World) :
  let w' := (filterVideos_call w).2 in
  document w' =
    set_elements (λ _, (forEach_video (settings w) (elements (document w)) 0).1)
      (document w) ∧
  settings w' = settings w ∧ sync w' = sync w ∧
  lastTrackTime w' = lastTrackTime w ∧ now w' = now w ∧
  ∀ called, (filterVideos_call w).1 = Normal called → Forall keeps_policy called.
Proof.
  cbv zeta. rewrite filterVideos_call_unfold.
  destruct (forEach_video _ _ _) as [els [c|e]]; simpl; [|done].
  split_and!; try done. intros called [= <-].
  case_bool_decide; [|constructor]. apply Forall_singleton.
  apply update_resume_keeps_policy, add_blockedCount_policy.
Qed.

Lemma trackEducationalTime_call_frame (w : World) :
  let w' := (trackEducationalTime_call w).2 in
  document w' = document w ∧ settings w' = settings w ∧ sync w' = sync w ∧
  ∀ later, (trackEducationalTime_call w).1 = Normal later →
           Forall keeps_policy later.
Proof.
  cbv zeta. rewrite trackEducationalTime_call_unfold.
  destruct (negb _); [by split_and!; [..|intros ? [= <-]]|].
  destruct (watch_heading _); [|by split_and!; [..|intros ? [= <-]]].
  destruct (allowedKeywords _); [|done]. cbv zeta.
  destruct (_ && _); [|by split_and!; [..|intros ? [= <-]]].
  split_and!; try done. intros later [= <-]. apply Forall_singleton.
  apply update_resume_keeps_policy, add_educationalMinutes_policy.
Qed.

Lemma then_settle_frame (earlier : list Pending) (body : M (list Pending))
    (w : World) :
  Forall keeps_policy earlier →
  (∀ later, (body w).1 = Normal later → Forall keeps_policy later) →
  document (then_settle earlier body w).2 = document (body w).2 ∧
  same_policy (settings (body w).2) (settings (then_settle earlier body w).2) ∧
  (then_settle earlier body w).1 =
    match (body w).1 with Normal _ => Normal tt | Throw e => Throw e end.
Proof.
  intros He Hl. unfold then_settle.
  destruct (body w) as [[later|e] w'] eqn:Hb; cbn [fst snd] in *.
  - destruct (settle_frame (earlier ++ later) w') as (H1 & H2 & H3).
    { apply Forall_app. split; [done | by apply Hl]. }
    done.
  - destruct (settle_frame earlier w' He) as (_ & H2 & H3). done.
Qed.

Lemma filterVideos_frame (w : World) :
  let w' := (filterVideos w).2 in
  document w' =
    set_elements (λ _, (forEach_video (settings w) (elements (document w)) 0).1)
      (document w) ∧
  same_policy (settings w) (settings w').
Proof.
  cbv zeta. rewrite filterVideos_unfold.
  destruct (forEach_video _ _ _) as [els [c|e]]; simpl; [|done].
  case_bool_decide; [|done].
  by destruct (update_stored_frame (add_blockedCount c)
                 (set_document (set_elements (λ _, els)) w)
                 (add_blockedCount_policy c)).
Qed.

Lemma trackEducationalTime_frame (w : World) :
  let w' := (trackEducationalTime w).2 in
  document w' = document w ∧ same_policy (settings w) (settings w').
Proof.
  cbv zeta. rewrite trackEducationalTime_alone.
  destruct (includes _ _); simpl; [|done].
  destruct (watch_heading _); [|done].
  destruct (allowedKeywords _); [|done].
  destruct (matches_any _ _); [|done].
  case_bool_decide; [|done]. cbn [andb].
  unfold updateEducationalTime.
  pose proof (update_stored_frame
    (add_educationalMinutes ((now w - lastTrackTime w) `div` 60000)) w
    (add_educationalMinutes_policy _)) as Hf.
  destruct (update_stored_returns
    (add_educationalMinutes ((now w - lastTrackTime w) `div` 60000)) w)
    as (w' & Hw' & _).
  rewrite Hw' in Hf |- *. simpl in *. by apply Hf.
Qed.

Lemma scanAndFilter_enabled_run (w : World) :
  truthy (focusModeEnabled (settings w)) = true →
  scanAndFilter w =
    match filterVideos_call (set_document (set_elements shorts_pass) w) with
    | (Normal called, w2) => then_settle called trackEducationalTime_call w2
    | (Throw e, w2) => (Throw e, w2)
    end.
Proof.
  intros Hon. unfold scanAndFilter.
  unfold mbind at 1, M_bind at 1, get_world. rewrite Hon. cbn [negb].
  unfold mbind, M_bind. by rewrite hideShorts_run.
Qed.

(** With focus mode on, a scan pass hides the Shorts, then runs the video
    loop on the result; nothing else of the page changes, and the switch
    and the keyword lists stay as they are. *)
Lemma scanAndFilter_enabled (w : World) :
  truthy (focusModeEnabled (settings w)) = true →
  let w' := (scanAndFilter w).2 in
  document w' =
    set_elements
      (λ els, (forEach_video (settings w) (shorts_pass els) 0).1) (document w) ∧
  same_policy (settings w) (settings w').
Proof.
  intros Hon. cbv zeta. rewrite scanAndFilter_enabled_run by done.
  pose proof (filterVideos_call_frame (set_document (set_elements shorts_pass) w))
    as (Hd & Hs & _ & _ & _ & Hk).
  destruct (filterVideos_call _) as [[called|e] w2]; cbn [fst snd] in *.
  - pose proof (trackEducationalTime_call_frame w2) as (Hd' & Hs' & _ & Hk').
    destruct (then_settle_frame called trackEducationalTime_call w2)
      as (H1 & H2 & _); [by apply Hk | exact Hk' |].
    change (settings (set_document (set_elements shorts_pass) w))
      with (settings w) in Hs.
    rewrite H1, Hd', Hd. rewrite Hs', Hs in H2.
    split; [by destruct w as [[] ? ? ? ?] | done].
  - rewrite Hs. split; [|done]. rewrite Hd. by destruct w as [[] ? ? ? ?].
Qed.

Lemma scanAndFilter_stays_on (w : World) :
  truthy (focusModeEnabled (settings w)) = true →
  truthy (focusModeEnabled (settings (scanAndFilter w).2)) = true.
Proof.
  intros Hon. destruct (scanAndFilter_enabled w Hon) as [_ (Hs&_)].
  by rewrite Hs.
Qed.

Lemma scanAndFilter_disabled (w : World) :
  truthy (focusModeEnabled (settings w)) = false →
  scanAndFilter w = removeAllFilters w.
Proof. intros Hoff. unfold scanAndFilter. run_M. by rewrite Hoff. Qed.

(** * The count that a pass reports *)

(** The time tracker does not look at the elements of the page. *)
Lemma trackEducationalTime_call_elements (f : list Element → list Element)
    (w : World) :
  trackEducationalTime_call (set_document (set_elements f) w) =
    ((trackEducationalTime_call w).1,
     set_document (set_elements f) (trackEducationalTime_call w).2).
Proof.
  rewrite !trackEducationalTime_call_unfold.
  cbn [document set_document set_elements pathname watch_heading settings
       now lastTrackTime].
  destruct (negb _); [done|]. destruct (watch_heading _); [|done].
  destruct (allowedKeywords _); [|done]. cbv zeta. by destruct (_ && _).
Qed.

Lemma then_settle_tracker (earlier : list Pending)
    (f : list Element → list Element) (w : World) :
  then_settle earlier trackEducationalTime_call
    (set_document (set_elements f) w) =
    match trackEducationalTime_call w with
    | (Normal later, w') =>
      settle (earlier ++ later) (set_document (set_elements f) w')
    | (Throw e, w') =>
      (Throw e, (settle earlier (set_document (set_elements f) w')).2)
    end.
Proof.
  unfold then_settle. rewrite trackEducationalTime_call_elements.
  by destruct (trackEducationalTime_call w) as [[later|e] w'].
Qed.

(** The rest of a stat update when the storage area takes the write: the
    object written is the stored one, or the script's own settings object
    if nothing was stored when the [get] call was made, after the change. *)
Lemma update_resume_working (change : Settings → Settings)
    (result : option Settings) (w : World) :
  set_rejects (sync w) = false →
  let current := default (settings w) result in
  update_resume change (Normal result) w =
    (Normal tt,
     set_sync {| focusSettings := Some (change current);
                 get_rejects := get_rejects (sync w); set_rejects := false;
                 set_log := set_log (sync w) ++ [change current] |}
       match result with
       | Some _ => w
       | None => set_settings (change current) w
       end).
Proof.
  intros Hs. unfold update_resume, await, storage_set. run_M.
  destruct result as [stored|]; simpl; by rewrite Hs.
Qed.

(** With focus mode on, a pass is the Shorts loop, the video loop, the
    time tracker, and then the updates that the two have called. *)
Lemma scanAndFilter_enabled_pending (w : World) (els : list Element) (c : Z) :
  truthy (focusModeEnabled (settings w)) = true →
  forEach_video (settings w) (shorts_pass (elements (document w))) 0
    = (els, Normal c) →
  scanAndFilter w =
    then_settle
      (if bool_decide (0 < c)
       then [update_resume (add_blockedCount c) (storage_answer w)] else [])
      trackEducationalTime_call
      (set_document (set_elements (λ _, els)) w).
Proof.
  intros Hon Hfe. rewrite scanAndFilter_enabled_run by done.
  rewrite filterVideos_call_unfold.
  cbn [settings set_document document set_elements elements]. rewrite Hfe.
  cbv zeta. by destruct w as [[] ? ? ? ?].
Qed.


(** When the time tracker reports [m] minutes in a pass that has blocked
    [c] videos, both [get] calls have been answered before either update
    writes.  With a stored object the count is written first and the
    minutes second, each added to the object as it was stored: the object
    that the pass leaves in the store has the minutes added and the old
    [blockedCount].  With nothing stored both updates change the script's
    own settings object, and the object in the store has both. *)
Lemma scanAndFilter_both_report (w : World) (els : list Element) (c : Z)
    (heading : string) (A : list string) :
  truthy (focusModeEnabled (settings w)) = true →
  forEach_video (settings w) (shorts_pass (elements (document w))) 0
    = (els, Normal c) →
  includes (pathname (document w)) "/watch" = true →
  watch_heading (document w) = Some heading →
  allowedKeywords (settings w) = Some A →
  contains_any heading A →
  let m := (now w - lastTrackTime w) `div` 60000 in
  1 ≤ m → 0 < c →
  get_rejects (sync w) = false → set_rejects (sync w) = false →
  let w' := (scanAndFilter w).2 in
  (∀ stored, focusSettings (sync w) = Some stored →
     set_log (sync w') = set_log (sync w)
       ++ [add_blockedCount c stored; add_educationalMinutes m stored] ∧
     focusSettings (sync w') = Some (add_educationalMinutes m stored) ∧
     (focusSettings (sync w') ≫= stats) ≫= blockedCount
       = stats stored ≫= blockedCount) ∧
  (focusSettings (sync w) = None →
     focusSettings (sync w')
       = Some (add_educationalMinutes m (add_blockedCount c (settings w)))).
Proof.
  intros Hon Hfe Hpath Hhead HA Hedu m Hm Hc Hget Hset w'. subst w'.
  rewrite (scanAndFilter_enabled_pending w els c), then_settle_tracker by done.
  apply matches_any_true in Hedu.
  rewrite trackEducationalTime_call_unfold, Hpath, Hhead, HA. cbv zeta.
  fold m. rewrite Hedu, !bool_decide_eq_true_2 by done.
  cbn [negb andb fst snd app]. rewrite settle_two. cbn [snd].
  unfold storage_answer. rewrite Hget.
  set (w1 := set_document (set_elements (λ _, els))
               (set_lastTrackTime (now w) w)).
  rewrite (update_resume_working (add_blockedCount c) _ w1) by done.
  cbn [snd]. rewrite update_resume_working by by destruct (focusSettings _).
  cbn [snd sync set_sync set_document settings focusSettings set_log
       set_lastTrackTime w1].
  split.
  - intros stored Hst. rewrite Hst.
    cbn [default sync set_sync set_log focusSettings].
    split_and!; [by rewrite <- app_assoc | done |].
    by destruct stored as [en al bl [[mi b f d]|]].
  - intros Hst. rewrite Hst.
    cbn [default sync set_sync set_log focusSettings settings set_settings
         set_document].
    done.
Qed.


(** * Shorts *)

Lemma shorts_pass_grows (els : list Element) :
  Forall2 (λ el el', grows el el' ∧
             (SELECTORS.shorts el = true ∨ SELECTORS.shortsSection el = true →
              SELECTORS.focus_hidden el' = true))
    els (shorts_pass els).
Proof.
  unfold shorts_pass.
  set (els1 := forEach_matching SELECTORS.shorts _ els).
  set (els2 := first_matching SELECTORS.shortsTab _ els1).
  assert (H1 : Forall2 (λ el el', grows el el' ∧
                 (SELECTORS.shorts el = true → SELECTORS.focus_hidden el' = true))
                 els els1).
  { apply forEach_matching_Forall2.
    - intros el Hno. split; [apply grows_refl | congruence].
    - intros el _. split; [apply grows_classList_add|].
      intros _. apply classList_add_hidden. }
  assert (H2 : Forall2 grows els1 els2).
  { apply first_matching_Forall2; [apply grows_refl|].
    intros el _. apply grows_classList_add. }
  assert (H3 : Forall2 (λ el el', grows el el' ∧
                 (SELECTORS.shortsSection el = true →
                  SELECTORS.focus_hidden el' = true))
                 els2 (forEach_matching SELECTORS.shortsSection
                         (classList_add "focus-hidden") els2)).
  { apply forEach_matching_Forall2.
    - intros el Hno. split; [apply grows_refl | congruence].
    - intros el _. split; [apply grows_classList_add|].
      intros _. apply classList_add_hidden. }
  assert (H12 : Forall2 (λ el el', grows el el' ∧
                  (SELECTORS.shorts el = true → SELECTORS.focus_hidden el' = true))
                  els els2).
  { eapply Forall2_trans; [|exact H1|exact H2].
    intros a b c [Hab Ha] Hbc. split; [by eapply grows_trans|].
    intros Hs. eapply grows_hidden; [exact Hbc | by apply Ha]. }
  eapply Forall2_trans; [|exact H12|exact H3].
  intros a b c [Hab Ha] [Hbc Hc]. split; [by eapply grows_trans|].
  destruct Hab as [Hn _]. apply same_node_selectors in Hn as (_&_&Hsec&_).
  intros [Hs|Hs].
  - eapply grows_hidden; [exact Hbc | by apply Ha].
  - apply Hc. by rewrite Hsec.
Qed.

Lemma forEach_video_grows (s : Settings) (els : list Element) (c : Z) :
  Forall2 grows els (forEach_video s els c).1.
Proof.
  apply forEach_video_Forall2; [apply grows_refl | apply filterVideo_grows].
Qed.

(** C9.  A scan pass with focus mode on leaves every element that matches
    [SELECTORS.shorts] or [SELECTORS.shortsSection] with the class
    [focus-hidden], and so the first element that matches
    [SELECTORS.shortsTab] (the one [querySelector] returns).  This holds
    for any settings and texts, also when the keyword lists are missing and
    the video loop that follows throws. *)
Theorem scanAndFilter_hides_shorts (w : World) :
  truthy (focusModeEnabled (settings w)) = true →
  let els := elements (document w) in
  let els' := elements (document (scanAndFilter w).2) in
  (∀ i el, els !! i = Some el →
     SELECTORS.shorts el = true ∨ SELECTORS.shortsSection el = true →
     ∃ el', els' !! i = Some el' ∧ same_node el el' ∧
            SELECTORS.focus_hidden el' = true) ∧
  (∀ pre el post, els = pre ++ el :: post →
     Forall (λ x, SELECTORS.shortsTab x = false) pre →
     SELECTORS.shortsTab el = true →
     ∃ el', els' !! length pre = Some el' ∧ same_node el el' ∧
            SELECTORS.focus_hidden el' = true).
Proof.
  intros Hon els els'. subst els'.
  destruct (scanAndFilter_enabled w Hon) as [-> _]. simpl. fold els.
  pose proof (forEach_video_grows (settings w) (shorts_pass els) 0) as Hv.
  split.
  - intros i el Hi Hlike.
    destruct (Forall2_lookup_l _ _ _ i el (shorts_pass_grows els) Hi)
      as (el1 & Hi1 & [Hn1 Hsub1] & Hh1).
    destruct (Forall2_lookup_l _ _ _ i el1 Hv Hi1) as (el2 & Hi2 & Hg2).
    exists el2. split_and!; [done| |].
    + eapply same_node_trans; [exact Hn1 | apply Hg2].
    + eapply grows_hidden; [exact Hg2 | by apply Hh1].
  - intros pre el post Hels Hpre Htab.
    set (H := classList_add "focus-hidden") in *.
    set (g := λ x : Element, if SELECTORS.shorts x then H x else x).
    assert (Hg : ∀ x, grows x (g x)).
    { intros x. unfold g. destruct (SELECTORS.shorts x);
        [apply grows_classList_add | apply grows_refl]. }
    assert (Hgtab : ∀ x, SELECTORS.shortsTab (g x) = SELECTORS.shortsTab x).
    { intros x. destruct (Hg x) as [Hn _].
      by apply same_node_selectors in Hn as (_&?&_). }
    assert (H2 : first_matching SELECTORS.shortsTab H
                   (forEach_matching SELECTORS.shorts H els)
                 = (g <$> pre) ++ H (g el) :: (g <$> post)).
    { rewrite Hels. unfold forEach_matching. fold g.
      rewrite fmap_app, fmap_cons. apply first_matching_first.
      - apply Forall_fmap. eapply Forall_impl; [exact Hpre|].
        intros x Hx. simpl. by rewrite Hgtab.
      - by rewrite Hgtab. }
    assert (Hi2 : first_matching SELECTORS.shortsTab H
                    (forEach_matching SELECTORS.shorts H els) !! length pre
                  = Some (H (g el))).
    { rewrite H2. rewrite lookup_app_r by (rewrite length_fmap; lia).
      by rewrite length_fmap, Nat.sub_diag. }
    pose proof (forEach_matching_Forall2 grows SELECTORS.shortsSection H
      (first_matching SELECTORS.shortsTab H
         (forEach_matching SELECTORS.shorts H els))
      (λ x _, grows_refl x) (λ x _, grows_classList_add _ x)) as H3.
    destruct (Forall2_lookup_l _ _ _ _ _ H3 Hi2) as (el3 & Hi3 & Hg3).
    destruct (Forall2_lookup_l _ _ _ _ _ Hv Hi3) as (el4 & Hi4 & Hg4).
    exists el4. split_and!; [done| |].
    + destruct (grows_trans _ _ _ (Hg el)
                  (grows_trans _ _ _ (grows_classList_add _ (g el))
                     (grows_trans _ _ _ Hg3 Hg4))) as [Hn _]. exact Hn.
    + eapply grows_hidden; [eapply grows_trans; [exact Hg3|exact Hg4]|].
      apply classList_add_hidden.
Qed.

(** * The reset *)

Lemma classList_remove_absent (c : string) (el : Element) :
  classList_contains c el = false → classList_remove c el = el.
Proof.
  unfold classList_contains. rewrite bool_decide_eq_false. intros Hc.
  destruct el as [t a cl ti ch th d h]. unfold classList_remove, set_classList.
  simpl in *. f_equal. apply set_eq. intros x.
  rewrite elem_of_difference, elem_of_singleton.
  split; [by intros [? _] | intros Hx; split; [done | by intros ->]].
Qed.

Lemma removeAttribute_absent (k : string) (el : Element) :
  hasAttribute k el = false → removeAttribute k el = el.
Proof.
  unfold hasAttribute. rewrite bool_decide_eq_false. intros Hk.
  destruct el as [t a cl ti ch th d h]. unfold removeAttribute, set_attributes.
  simpl in *. f_equal. apply delete_id. by apply eq_None_not_Some.
Qed.

(** The three loops of [removeAllFilters] amount to one map. *)
Lemma reset_pass_fmap (els : list Element) :
  reset_pass els = reset_element <$> els.
Proof.
  unfold reset_pass, forEach_matching. rewrite <- !list_fmap_compose.
  apply list_fmap_ext. intros _ el _. simpl. unfold reset_element.
  assert (Hcl : (if SELECTORS.focus_hidden el
                 then classList_remove "focus-hidden" el else el)
                = classList_remove "focus-hidden" el).
  { destruct (SELECTORS.focus_hidden el) eqn:Hh; [done|].
    symmetry. by apply classList_remove_absent. }
  rewrite Hcl.
  destruct (SELECTORS.data_focus_processed _) eqn:Hp; [done|].
  symmetry. by apply removeAttribute_absent.
Qed.

Lemma reset_element_untouched (el : Element) : untouched (reset_element el).
Proof.
  unfold untouched, reset_element, has_badge. simpl. split_and!.
  - rewrite elem_of_difference, elem_of_singleton. tauto.
  - apply lookup_delete_eq.
  - by destruct (thumbnail el).
Qed.

Lemma untouched_classList_remove (c : string) (el : Element) :
  untouched el → untouched (classList_remove c el).
Proof.
  unfold untouched, has_badge. simpl. intros (Hc&?&?). split_and!; [|done..].
  rewrite elem_of_difference. tauto.
Qed.

Lemma first_matching_Forall (P : Element → Prop) (sel : Element → bool)
    (f : Element → Element) (els : list Element) :
  (∀ el, P el → P (f el)) → Forall P els → Forall P (first_matching sel f els).
Proof.
  intros Hf. induction 1 as [|el els Hel Hels IH]; simpl; [constructor|].
  destruct (sel el); constructor; auto.
Qed.

Lemma removeAllFilters_untouched (w : World) :
  Forall untouched (elements (document (removeAllFilters w).2)).
Proof.
  rewrite removeAllFilters_run. simpl. rewrite reset_pass_fmap.
  assert (Forall untouched (reset_element <$> elements (document w))).
  { apply Forall_fmap, Forall_forall. intros el _. apply reset_element_untouched. }
  destruct (truthy _); [done|].
  by apply first_matching_Forall; [apply untouched_classList_remove|].
Qed.

(** * The overlay *)

Lemma checkForHomepage_settings (w : World) :
  (checkForHomepage w).1 = Normal tt ∧
  settings (checkForHomepage w).2 = settings w.
Proof.
  rewrite checkForHomepage_run. destruct (_ && _).
  - done.
  - by rewrite hideFocusDashboard_run.
Qed.

Lemma settled_scan_respects_switch (w : World) :
  overlay_respects_switch (settled_scan w).2.
Proof.
  unfold overlay_respects_switch, settled_scan, mbind, M_bind.
  destruct (truthy (focusModeEnabled (settings w))) eqn:Hon.
  - pose proof (scanAndFilter_stays_on w Hon) as Hs.
    destruct (scanAndFilter w) as [[[]|e] w2]; simpl in *.
    + destruct (checkForHomepage_settings w2) as [_ ->]. congruence.
    + congruence.
  - rewrite scanAndFilter_disabled, removeAllFilters_run by done.
    intros _. rewrite checkForHomepage_shown. simpl. rewrite Hon.
    apply andb_false_r.
Qed.

Lemma removeAllFilters_overlay_off (w : World) :
  dashboard_shown (document (removeAllFilters w).2) = false.
Proof.
  rewrite removeAllFilters_run. unfold dashboard_shown. simpl.
  destruct (dashboard (document w)) as [cl|]; simpl; [|done].
  apply bool_decide_eq_false_2. intros Hno. apply Hno.
  apply elem_of_union_r. by apply elem_of_singleton.
Qed.

Lemma scanAndFilter_respects_switch (w : World) :
  overlay_respects_switch (scanAndFilter w).2.
Proof.
  unfold overlay_respects_switch.
  destruct (truthy (focusModeEnabled (settings w))) eqn:Hon.
  - pose proof (scanAndFilter_stays_on w Hon). congruence.
  - rewrite scanAndFilter_disabled by done.
    intros _. apply removeAllFilters_overlay_off.
Qed.

(** When the script starts there is no overlay node yet. *)
Lemma no_dashboard_respects_switch (w : World) :
  dashboard (document w) = None → overlay_respects_switch w.
Proof. intros Hd _. unfold dashboard_shown. by rewrite Hd. Qed.

(** Being off with focus mode off is an invariant of the event loop. *)
Lemma step_respects_switch (ev : Event) (w : World) :
  overlay_respects_switch w → overlay_respects_switch (step ev w).
Proof.
  intros Hinv. unfold step. destruct ev as [| | | |[s|]|]; simpl.
  - unfold mbind, M_bind, get_world.
    destruct (truthy (focusModeEnabled (settings w))) eqn:Hon; [|done].
    apply scanAndFilter_respects_switch.
  - apply scanAndFilter_respects_switch.
  - apply settled_scan_respects_switch.
  - done.
  - unfold mbind at 1, M_bind at 1, modify.
    destruct (truthy (focusModeEnabled s)) eqn:Hon.
    + apply (settled_scan_respects_switch (set_settings s w)).
    + intros _. apply removeAllFilters_overlay_off.
  - done.
  - unfold mbind, M_bind, get_world.
    destruct (dashboard (document w)); [|done].
    destruct (search_box (document w)); [|done].
    intros _. rewrite hideFocusDashboard_run. apply dashboard_shown_hide.
Qed.

(** C4.  With focus mode off, a scan pass is [removeAllFilters] and nothing
    else: it returns normally, leaves no element with the class
    [focus-hidden], no badge and no marker, writes nothing to storage, and
    leaves the overlay off; the homepage check leaves the overlay off too,
    wherever the page is.  In general the homepage check shows the overlay
    exactly when the location is the home surface and focus mode is on, and
    no event of the script turns the overlay on while focus mode is off. *)
Theorem disabled_scan_has_no_effects (w : World) :
  truthy (focusModeEnabled (settings w)) = false →
  let w' := (scanAndFilter w).2 in
  scanAndFilter w = removeAllFilters w ∧
  (scanAndFilter w).1 = Normal tt ∧
  Forall untouched (elements (document w')) ∧
  sync w' = sync w ∧
  dashboard_shown (document w') = false ∧
  dashboard_shown (document (checkForHomepage w).2) = false ∧
  (∀ w0, dashboard_shown (document (checkForHomepage w0).2)
         = isHome (document w0) && truthy (focusModeEnabled (settings w0))) ∧
  (∀ ev w0, overlay_respects_switch w0 → overlay_respects_switch (step ev w0)).
Proof.
  intros Hoff w'. subst w'. split_and!.
  - by apply scanAndFilter_disabled.
  - by rewrite scanAndFilter_disabled, removeAllFilters_run.
  - rewrite scanAndFilter_disabled by done. apply removeAllFilters_untouched.
  - by rewrite scanAndFilter_disabled, removeAllFilters_run.
  - rewrite scanAndFilter_disabled by done. apply removeAllFilters_overlay_off.
  - rewrite checkForHomepage_shown, Hoff. apply andb_false_r.
  - apply checkForHomepage_shown.
  - apply step_respects_switch.
Qed.

(** * A pass under well-formed settings *)

Lemma classify_and_mark_returns (s : Settings) (el : Element) :
  is_Some (allowedKeywords s) → is_Some (blockedKeywords s) →
  ∃ inc, (classify_and_mark s el).2 = Normal inc.
Proof.
  intros [A HA] [B HB]. unfold classify_and_mark. simpl.
  destruct (title_text el); [|by eexists].
  rewrite (classifyContent_lists s A B) by done.
  repeat case_match; by eexists.
Qed.

Lemma filterVideo_returns (s : Settings) (el : Element) :
  is_Some (allowedKeywords s) → is_Some (blockedKeywords s) →
  ∃ inc, (filterVideo s el).2 = Normal inc.
Proof.
  intros HA HB. unfold filterVideo. case_bool_decide; [by eexists|].
  by apply classify_and_mark_returns.
Qed.

(** With both keyword lists in place the loop visits every element. *)
Lemma forEach_video_lists (s : Settings) (els : list Element) (c : Z) :
  is_Some (allowedKeywords s) → is_Some (blockedKeywords s) →
  ∃ c', forEach_video s els c = (visit s <$> els, Normal c').
Proof.
  intros HA HB. revert c. induction els as [|el els IH]; intros c; simpl.
  - by eexists.
  - unfold visit at 1. destruct (SELECTORS.videoRenderer el).
    + destruct (filterVideo_returns s el HA HB) as [inc Hinc].
      destruct (filterVideo s el) as [el1 r]. simpl in Hinc. subst r.
      destruct (IH (c + inc)) as [c' ->]. by eexists.
    + destruct (IH c) as [c' ->]. by eexists.
Qed.

Lemma filterVideos_returns (w : World) :
  is_Some (allowedKeywords (settings w)) →
  is_Some (blockedKeywords (settings w)) →
  (filterVideos w).1 = Normal tt.
Proof.
  intros HA HB. rewrite filterVideos_unfold.
  destruct (forEach_video_lists (settings w) (elements (document w)) 0 HA HB)
    as [c ->]. cbv zeta.
  case_bool_decide; [|done]. unfold updateBlockedCount.
  by destruct (update_stored_returns (add_blockedCount c)
                 (set_document (set_elements (λ _, visit (settings w) <$>
                    elements (document w))) w)) as (w' & -> & _).
Qed.

Lemma trackEducationalTime_returns (w : World) :
  is_Some (allowedKeywords (settings w)) →
  (trackEducationalTime w).1 = Normal tt.
Proof.
  intros [A HA]. rewrite trackEducationalTime_alone, HA.
  destruct (includes _ _); simpl; [|done].
  destruct (watch_heading _); [|done].
  by destruct (_ && _).
Qed.

(** A scan pass with focus mode on and both lists in place returns
    normally and has visited every video. *)
Lemma scanAndFilter_lists (w : World) :
  truthy (focusModeEnabled (settings w)) = true →
  is_Some (allowedKeywords (settings w)) →
  is_Some (blockedKeywords (settings w)) →
  (scanAndFilter w).1 = Normal tt ∧
  document (scanAndFilter w).2 =
    set_elements (λ els, visit (settings w) <$> shorts_pass els) (document w).
Proof.
  intros Hon HA HB.
  destruct (scanAndFilter_enabled w Hon) as [Hd _]. rewrite Hd. clear Hd.
  split.
  - rewrite scanAndFilter_enabled_run by done.
    set (w1 := set_document (set_elements shorts_pass) w).
    pose proof (filterVideos_call_frame w1) as (_ & Hs & _ & _ & _ & Hk).
    assert (Hr : ∃ called, (filterVideos_call w1).1 = Normal called).
    { rewrite filterVideos_call_unfold.
      destruct (forEach_video_lists (settings w1) (elements (document w1)) 0
                  HA HB) as [c ->]. by eexists. }
    destruct Hr as [called Hr].
    destruct (filterVideos_call w1) as [r w2]. cbn [fst snd] in *. subst r.
    pose proof (trackEducationalTime_call_frame w2) as (_ & _ & _ & Hk').
    destruct (then_settle_frame called trackEducationalTime_call w2)
      as (_ & _ & ->); [by apply Hk | exact Hk' |].
    rewrite trackEducationalTime_call_unfold.
    destruct HA as [A HA]. rewrite Hs. change (settings w1) with (settings w).
    rewrite HA.
    destruct (negb _); [done|]. destruct (watch_heading _); [|done].
    cbv zeta. by destruct (_ && _).
  - destruct (forEach_video_lists (settings w)
                (shorts_pass (elements (document w))) 0 HA HB) as [c Hc].
    unfold set_elements. by rewrite Hc.
Qed.

(** * Videos without a title *)

Lemma filterVideo_unmarked (s : Settings) (video : Element) :
  ¬ processed video → filterVideo s video = classify_and_mark s video.
Proof. intros Hp. unfold filterVideo. by rewrite bool_decide_eq_false_2. Qed.

Lemma removeAttribute_unmarked (video : Element) :
  ¬ processed (removeAttribute "data-focus-processed" video).
Proof.
  unfold processed, dataset_focusProcessed. simpl. by rewrite lookup_delete_eq.
Qed.

Lemma later_passes_skip
    (rounds : list (Settings * (option string * option string)))
    (video : Element) :
  processed video →
  let later := later_passes rounds video in
  processed later.1 ∧
  classList later.1 = classList video ∧
  thumbnail later.1 = thumbnail video ∧
  Forall (λ r, r = Normal 0) later.2.
Proof.
  revert video. induction rounds as [|[s [title channel]] rounds IH];
    intros video Hp; simpl; [done|].
  rewrite filterVideo_processed by done.
  specialize (IH (host_set_texts title channel video) Hp).
  destruct (later_passes rounds _) as [video2 rs]. simpl in *.
  destruct IH as (?&?&?&?). split_and!; try done. by constructor.
Qed.

(** C10.  A video that has no title element when the callback reaches it,
    and no marker yet, is marked and left otherwise as it was, with nothing
    added to the blocked count and no exception, whatever the settings.
    From then on every pass of the video loop skips it, also after the host
    page has rendered a title or a channel: its classes, its thumbnail and
    so what the user sees of it stay the same, and it is never counted.
    Once the marker is stripped, by the loop of [onNavigate] or by
    [removeAllFilters], the callback classifies it again. *)
Theorem untitled_video_stays_unclassified (s : Settings) (video : Element) :
  title_text video = None → ¬ processed video →
  filterVideo s video
    = (setAttribute "data-focus-processed" "true" video, Normal 0) ∧
  (∀ rounds,
     let later := later_passes rounds (filterVideo s video).1 in
     processed later.1 ∧
     classList later.1 = classList video ∧
     thumbnail later.1 = thumbnail video ∧
     display later.1 = display video ∧
     Forall (λ r, r = Normal 0) later.2) ∧
  (∀ s' marked,
     filterVideo s' (removeAttribute "data-focus-processed" marked)
       = classify_and_mark s' (removeAttribute "data-focus-processed" marked) ∧
     filterVideo s' (reset_element marked)
       = classify_and_mark s' (reset_element marked)).
Proof.
  intros Htitle Hp.
  assert (Hcb : filterVideo s video
                = (setAttribute "data-focus-processed" "true" video, Normal 0)).
  { rewrite filterVideo_unmarked by done. unfold classify_and_mark. simpl.
    by rewrite Htitle. }
  split_and!.
  - done.
  - intros rounds. rewrite Hcb. cbn [fst].
    destruct (later_passes_skip rounds
                (setAttribute "data-focus-processed" "true" video)
                (setAttribute_processed video)) as (H1&H2&H3&H4).
    cbv zeta. split_and!; try done.
    unfold display, SELECTORS.focus_hidden, classList_contains, has_badge.
    by rewrite H2, H3.
  - intros s' marked. split; apply filterVideo_unmarked.
    + apply removeAttribute_unmarked.
    + unfold reset_element. apply removeAttribute_unmarked.
Qed.

(** * Navigation *)

Lemma marker_kept_refl (el : Element) : marker_kept el el.
Proof. by intros ?. Qed.

Lemma marker_kept_set_classList (f : gset string → gset string) (el : Element) :
  marker_kept el (set_classList f el).
Proof. by intros ?. Qed.

Lemma marker_kept_trans (a b c : Element) :
  marker_kept a b → marker_kept b c → marker_kept a c.
Proof. intros Hab Hbc Ha. apply Hbc, Hab, Ha. Qed.

Lemma forEach_matching_keeps_markers (sel : Element → bool)
    (f : gset string → gset string) (els : list Element) :
  Forall2 marker_kept els (forEach_matching sel (set_classList f) els).
Proof.
  apply forEach_matching_Forall2.
  - intros el _. apply marker_kept_refl.
  - intros el _. apply marker_kept_set_classList.
Qed.

Lemma first_matching_keeps_markers (sel : Element → bool)
    (f : gset string → gset string) (els : list Element) :
  Forall2 marker_kept els (first_matching sel (set_classList f) els).
Proof.
  apply first_matching_Forall2.
  - apply marker_kept_refl.
  - intros el _. apply marker_kept_set_classList.
Qed.

Lemma shorts_pass_keeps_markers (els : list Element) :
  Forall2 marker_kept els (shorts_pass els).
Proof.
  unfold shorts_pass, classList_add.
  eapply (Forall2_trans _ _ _ _ _ _ marker_kept_trans);
    [|apply forEach_matching_keeps_markers].
  eapply (Forall2_trans _ _ _ _ _ _ marker_kept_trans);
    [|apply first_matching_keeps_markers].
  apply forEach_matching_keeps_markers.
Qed.

Lemma scanAndFilter_keeps_markers (w : World) :
  truthy (focusModeEnabled (settings w)) = true →
  Forall2 marker_kept (elements (document w))
    (elements (document (scanAndFilter w).2)).
Proof.
  intros Hon. destruct (scanAndFilter_enabled w Hon) as [-> _]. simpl.
  eapply (Forall2_trans _ _ _ _ _ _ marker_kept_trans);
    [apply shorts_pass_keeps_markers|].
  apply forEach_video_Forall2; [apply marker_kept_refl|].
  intros el _. apply filterVideo_marks.
Qed.

Lemma checkForHomepage_keeps_markers (w : World) :
  Forall2 marker_kept (elements (document w))
    (elements (document (checkForHomepage w).2)).
Proof.
  rewrite checkForHomepage_run. destruct (_ && _).
  - unfold showFocusDashboard. run_M. apply first_matching_keeps_markers.
  - rewrite hideFocusDashboard_run. simpl. destruct (truthy _); simpl.
    + apply Forall_Forall2_diag, Forall_forall. intros el _. apply marker_kept_refl.
    + apply first_matching_keeps_markers.
Qed.

Lemma settled_scan_keeps_markers (w : World) :
  truthy (focusModeEnabled (settings w)) = true →
  Forall2 marker_kept (elements (document w))
    (elements (document (settled_scan w).2)).
Proof.
  intros Hon. pose proof (scanAndFilter_keeps_markers w Hon) as Hscan.
  unfold settled_scan, mbind, M_bind.
  destruct (scanAndFilter w) as [[[]|e] w2]; simpl in *; [|done].
  eapply (Forall2_trans _ _ _ _ _ _ marker_kept_trans);
    [exact Hscan|apply checkForHomepage_keeps_markers].
Qed.

(** Outside navigation and the reset, no event takes a marker away. *)
Lemma step_keeps_markers (ev : Event) (w : World) :
  strips_markers ev w = false →
  Forall2 marker_kept (elements (document w)) (elements (document (step ev w))).
Proof.
  assert (Hsame : Forall2 marker_kept (elements (document w))
                    (elements (document w))).
  { apply Forall_Forall2_diag, Forall_forall. intros el _. apply marker_kept_refl. }
  unfold step. destruct ev as [| | | |[s|]|]; simpl; intros Hev.
  - unfold mbind, M_bind, get_world.
    destruct (truthy (focusModeEnabled (settings w))) eqn:Hon; [|done].
    by apply scanAndFilter_keeps_markers.
  - apply negb_false_iff in Hev. by apply scanAndFilter_keeps_markers.
  - apply negb_false_iff in Hev. by apply settled_scan_keeps_markers.
  - done.
  - apply negb_false_iff in Hev.
    unfold mbind at 1, M_bind at 1, modify. rewrite Hev.
    by apply (settled_scan_keeps_markers (set_settings s w)).
  - done.
  - unfold mbind, M_bind, get_world.
    destruct (dashboard (document w)); [|done].
    destruct (search_box (document w)); [|done].
    rewrite hideFocusDashboard_run. simpl. destruct (truthy _); [done|].
    apply first_matching_keeps_markers.
Qed.

Lemma clear_markers_Forall2 (els : list Element) :
  Forall2 (λ el el1, same_node el el1 ∧ classList el1 = classList el ∧
                     thumbnail el1 = thumbnail el ∧
                     dataset_focusProcessed el1 = None)
    els (clear_markers els).
Proof.
  unfold clear_markers. apply forEach_matching_Forall2.
  - intros el Hno. split_and!; [apply same_node_refl|done..|].
    unfold SELECTORS.data_focus_processed, hasAttribute in Hno.
    apply bool_decide_eq_false in Hno. by apply eq_None_not_Some.
  - intros el _. split_and!; [apply same_node_removeAttribute|done..|].
    unfold dataset_focusProcessed. simpl. apply lookup_delete_eq.
Qed.

(** C5, as the script has it.  [onNavigate] returns normally and leaves
    every element without the marker, and otherwise as it was (same node,
    same classes, same thumbnail); so the callback of the next pass takes
    no video of the page for processed, and with both keyword lists in
    place the pass marks and classifies every video renderer of the page
    again.  Navigation is not the only event that strips markers:
    [removeAllFilters] does so too, whenever it runs.  Every other event
    keeps the marker on every element that has it. *)
Theorem onNavigate_clears_markers (w : World) :
  let w1 := (onNavigate w).2 in
  (onNavigate w).1 = Normal tt ∧
  Forall2 (λ el el1, same_node el el1 ∧ classList el1 = classList el ∧
                     thumbnail el1 = thumbnail el ∧
                     dataset_focusProcessed el1 = None)
    (elements (document w)) (elements (document w1)) ∧
  Forall (λ el1, ∀ s, filterVideo s el1 = classify_and_mark s el1)
    (elements (document w1)) ∧
  (∀ s, is_Some (allowedKeywords s) → is_Some (blockedKeywords s) →
     (forEach_video s (elements (document w1)) 0).1
     = (λ el1, if SELECTORS.videoRenderer el1
               then (classify_and_mark s el1).1 else el1)
         <$> elements (document w1)) ∧
  (∀ ev w0, strips_markers ev w0 = false →
     ∀ i el, elements (document w0) !! i = Some el → processed el →
     ∃ el', elements (document (step ev w0)) !! i = Some el' ∧ processed el').
Proof.
  cbv zeta. rewrite onNavigate_run. simpl.
  pose proof (clear_markers_Forall2 (elements (document w))) as Hclear.
  assert (Hunmarked : Forall (λ el1, ∀ s, filterVideo s el1 = classify_and_mark s el1)
                        (clear_markers (elements (document w)))).
  { apply Forall_forall. intros el1 Hin s.
    apply list_elem_of_lookup in Hin as [i Hi].
    destruct (Forall2_lookup_r _ _ _ _ _ Hclear Hi) as (el & _ & _ & _ & _ & Hm).
    apply filterVideo_unmarked. unfold processed. by rewrite Hm. }
  split_and!; [done|done|done| |].
  - intros s HA HB.
    destruct (forEach_video_lists s (clear_markers (elements (document w))) 0
                HA HB) as [c ->]. simpl.
    apply Forall_fmap_ext_1. eapply Forall_impl; [exact Hunmarked|].
    intros el1 Hel1. simpl. unfold visit. by rewrite Hel1.
  - intros ev w0 Hev i el Hi Hp.
    destruct (Forall2_lookup_l _ _ _ _ _ (step_keeps_markers ev w0 Hev) Hi)
      as (el' & Hi' & Hk).
    exists el'. split; [done|]. by apply Hk.
Qed.

(** C5, what fails.  A settings update that switches focus mode off is not
    a navigation event, and it strips the marker all the same. *)
Lemma disable_also_strips_markers :
  let w := step SettledScan sample_world in
  let ev := Incoming (SETTINGS_UPDATED sample_disabled) in
  ev ≠ Navigate ∧
  dataset_focusProcessed <$> elements (document w) !! 0%nat
    = Some (Some "true") ∧
  dataset_focusProcessed <$> elements (document (step ev w)) !! 0%nat
    = Some None.
Proof. by vm_compute. Qed.

(** * Switching focus mode off and on again *)

Lemma first_matching_id (sel : Element → bool) (f : Element → Element)
    (els : list Element) :
  Forall (λ el, f el = el) els → first_matching sel f els = els.
Proof.
  induction 1 as [|el els Hel _ IH]; simpl; [done|].
  destruct (sel el); by rewrite ?Hel, ?IH.
Qed.

Lemma handleMessage_enable (s : Settings) (w : World) :
  truthy (focusModeEnabled s) = true →
  is_Some (allowedKeywords s) → is_Some (blockedKeywords s) →
  document (step (Incoming (SETTINGS_UPDATED s)) w) = enable_page s (document w).
Proof.
  intros Hon HA HB. unfold step. simpl.
  unfold mbind at 1, M_bind at 1, modify. rewrite Hon.
  set (w1 := set_settings s w).
  destruct (scanAndFilter_lists w1 Hon HA HB) as [Hr Hd].
  pose proof (scanAndFilter_stays_on w1 Hon) as Hon2.
  unfold mbind, M_bind. destruct (scanAndFilter w1) as [r w2].
  simpl in *. subst r.
  rewrite checkForHomepage_run, Hon2, andb_true_r.
  assert (Hhome : isHome (document w2) = isHome (document w))
    by by rewrite Hd.
  rewrite Hhome. unfold enable_page. destruct (isHome (document w)).
  - unfold showFocusDashboard. run_M. by rewrite Hd.
  - rewrite hideFocusDashboard_run, Hon2. simpl. by rewrite Hd.
Qed.

Lemma handleMessage_disable (s : Settings) (w : World) :
  truthy (focusModeEnabled s) = false →
  document (step (Incoming (SETTINGS_UPDATED s)) w) = disable_page (document w).
Proof.
  intros Hoff. unfold step. simpl.
  unfold mbind at 1, M_bind at 1, modify. rewrite Hoff.
  rewrite removeAllFilters_run. cbn [snd settings set_settings]. rewrite Hoff.
  destruct w as [[path els hb d wh sb] s0 st t n].
  unfold disable_page, set_document, set_dashboard, set_elements.
  cbn [document pathname elements home_browse dashboard watch_heading search_box].
  rewrite reset_pass_fmap. f_equal.
  apply first_matching_id, Forall_fmap, Forall_forall. intros el _. simpl.
  apply classList_remove_absent.
  destruct (reset_element_untouched el) as (Hc&_).
  by apply bool_decide_eq_false_2.
Qed.

Lemma fmap_first_matching_absorb (g f : Element → Element)
    (sel : Element → bool) (els : list Element) :
  (∀ el, g (f el) = g el) → g <$> first_matching sel f els = g <$> els.
Proof.
  intros Hgf. induction els as [|el els IH]; csimpl; [done|].
  destruct (sel el); csimpl; by rewrite ?Hgf, ?IH.
Qed.

Lemma fmap_forEach_matching_absorb (g f : Element → Element)
    (sel : Element → bool) (els : list Element) :
  (∀ el, g (f el) = g el) → g <$> forEach_matching sel f els = g <$> els.
Proof.
  intros Hgf. unfold forEach_matching. rewrite <- list_fmap_compose.
  apply list_fmap_ext. intros _ el _. simpl. destruct (sel el); by rewrite ?Hgf.
Qed.

Lemma first_matching_fmap (g f : Element → Element) (sel : Element → bool)
    (els : list Element) :
  (∀ el, sel (g el) = sel el) → (∀ el, f (g el) = g (f el)) →
  first_matching sel f (g <$> els) = g <$> first_matching sel f els.
Proof.
  intros Hsel Hfg. induction els as [|el els IH]; csimpl; [done|].
  rewrite Hsel. destruct (sel el); csimpl; by rewrite ?Hfg, ?IH.
Qed.

Lemma forEach_matching_fmap (g f : Element → Element) (sel : Element → bool)
    (els : list Element) :
  (∀ el, sel (g el) = sel el) → (∀ el, f (g el) = g (f el)) →
  forEach_matching sel f (g <$> els) = g <$> forEach_matching sel f els.
Proof.
  intros Hsel Hfg. unfold forEach_matching. rewrite <- !list_fmap_compose.
  apply list_fmap_ext. intros _ el _. simpl. rewrite Hsel.
  destruct (sel el); by rewrite ?Hfg.
Qed.

Lemma shorts_pass_absorb (g : Element → Element) (els : list Element) :
  (∀ el, g (classList_add "focus-hidden" el) = g el) →
  g <$> shorts_pass els = g <$> els.
Proof.
  intros Hg. unfold shorts_pass.
  by rewrite fmap_forEach_matching_absorb, fmap_first_matching_absorb,
    fmap_forEach_matching_absorb.
Qed.

Lemma shorts_pass_fmap (g : Element → Element) (els : list Element) :
  (∀ el, same_node el (g el)) →
  (∀ el, classList_add "focus-hidden" (g el) = g (classList_add "focus-hidden" el)) →
  shorts_pass (g <$> els) = g <$> shorts_pass els.
Proof.
  intros Hn Hg. unfold shorts_pass.
  rewrite forEach_matching_fmap, first_matching_fmap, forEach_matching_fmap;
    try done; intros el; by destruct (same_node_selectors _ _ (Hn el)) as (?&?&?&?&?).
Qed.

Lemma forEach_matching_Forall (P : Element → Prop) (sel : Element → bool)
    (f : Element → Element) (els : list Element) :
  (∀ el, P el → P (f el)) → Forall P els → Forall P (forEach_matching sel f els).
Proof.
  intros Hf Hels. unfold forEach_matching. apply Forall_fmap.
  eapply Forall_impl; [exact Hels|]. intros el Hel. simpl.
  destruct (sel el); auto.
Qed.

Lemma shorts_pass_Forall (P : Element → Prop) (els : list Element) :
  (∀ el, P el → P (classList_add "focus-hidden" el)) →
  Forall P els → Forall P (shorts_pass els).
Proof.
  intros Hf Hels. unfold shorts_pass.
  by apply forEach_matching_Forall, first_matching_Forall, forEach_matching_Forall.
Qed.

(** The callback does not look at the classes of a video. *)
Lemma visit_classList_add (s : Settings) (el : Element) :
  visit s (classList_add "focus-hidden" el)
  = classList_add "focus-hidden" (visit s el).
Proof.
  unfold visit. change (SELECTORS.videoRenderer (classList_add "focus-hidden" el))
    with (SELECTORS.videoRenderer el).
  destruct (SELECTORS.videoRenderer el); [|done].
  unfold filterVideo.
  change (dataset_focusProcessed (classList_add "focus-hidden" el))
    with (dataset_focusProcessed el).
  case_bool_decide; [done|]. unfold classify_and_mark. simpl.
  destruct (title_text el); [|done].
  destruct (classifyContent _ _) as [[]|]; simpl; try done.
  unfold markAsEducational.
  change (has_badge (setAttribute "data-focus-processed" "true"
                       (classList_add "focus-hidden" el)))
    with (has_badge (setAttribute "data-focus-processed" "true" el)).
  by destruct (has_badge _).
Qed.

Lemma reset_element_classList_add (el : Element) :
  reset_element (classList_add "focus-hidden" el) = reset_element el.
Proof.
  destruct el as [t a cl ti ch th d h].
  unfold reset_element, removeAttribute, remove_badges, classList_remove,
    classList_add, set_attributes, set_thumbnail, set_classList. simpl.
  f_equal. apply set_eq. intros x.
  rewrite !elem_of_difference, elem_of_union. tauto.
Qed.

Lemma element_eq (a b : Element) :
  tagName a = tagName b → attributes a = attributes b →
  classList a = classList b → title_text a = title_text b →
  channel_text a = channel_text b → thumbnail a = thumbnail b →
  has_shorts_descendant a = has_shorts_descendant b →
  in_home_browse a = in_home_browse b → a = b.
Proof. destruct a, b. simpl. by intros -> -> -> -> -> -> -> ->. Qed.

Lemma classifyContent_policy (s s' : Settings) (t : string) :
  same_policy s s' → classifyContent s' t = classifyContent s t.
Proof. intros (_&HA&HB). unfold classifyContent. by rewrite HA, HB. Qed.

(** What a visit may have changed on an element, besides its thumbnail. *)
Lemma visit_fields (s : Settings) (el : Element) :
  same_node el (visit s el) ∧
  (attributes (visit s el) = attributes el ∨
   attributes (visit s el) = <["data-focus-processed" := "true"]> (attributes el)) ∧
  (classList (visit s el) = classList el ∨
   classList (visit s el) = classList el ∪ {["focus-hidden"]}).
Proof.
  unfold visit. destruct (SELECTORS.videoRenderer el).
  - split; [apply filterVideo_grows|].
    unfold filterVideo, classify_and_mark. case_bool_decide; [by split; left|].
    simpl. destruct (title_text el); [|by split; [right|left]].
    destruct (classifyContent _ _) as [[]|]; simpl;
      try (by split; [right|left]); [by split; right|].
    unfold markAsEducational. by case_match; split; [right|left|right|left].
  - split; [apply same_node_refl|]. by split; left.
Qed.

(** After the reset, a visited element that was untouched before is what
    it was, up to the inline style of its thumbnail. *)
Lemma reset_visit_untouched (s : Settings) (el : Element) :
  untouched el → reset_element (visit s el) = restyle s el.
Proof.
  intros (Hc & Hm & _).
  destruct (visit_fields s el) as ((Ht&_&Hti&Hch&Hd&Hh) & Hattr & Hcl).
  apply element_eq; unfold restyle; simpl; try done.
  - destruct Hattr as [-> | ->].
    + by apply delete_id.
    + rewrite delete_insert_eq. by apply delete_id.
  - apply set_eq. intros x. rewrite elem_of_difference, elem_of_singleton.
    destruct Hcl as [-> | ->].
    + split; [by intros [? _] | intros Hx; split; [done | by intros ->]].
    + rewrite elem_of_union, elem_of_singleton.
      split; [intros [[?|?] ?]; by try done | intros Hx; split; [by left | by intros ->]].
Qed.

Lemma restyle_same_node (s : Settings) (el : Element) :
  same_node el (restyle s el).
Proof. by repeat split. Qed.

Lemma restyle_classList_add (s : Settings) (el : Element) :
  classList_add "focus-hidden" (restyle s el)
  = restyle s (classList_add "focus-hidden" el).
Proof.
  unfold restyle. by rewrite visit_classList_add, reset_element_classList_add.
Qed.

Lemma unscanned_classList_add (c : string) (el : Element) :
  unscanned el → unscanned (classList_add c el).
Proof. done. Qed.

Lemma untouched_unscanned (el : Element) : untouched el → unscanned el.
Proof.
  intros (_ & Hm & Hb). split; [|done]. unfold processed, dataset_focusProcessed.
  by rewrite Hm.
Qed.

(** Visiting again after the reset gives what the first visit gave. *)
Lemma visit_restyle (s s' : Settings) (el : Element) :
  same_policy s s' → unscanned el → visit s' (restyle s el) = visit s el.
Proof.
  intros Hpol [Hp Hb].
  unfold restyle, visit.
  change (SELECTORS.videoRenderer (with_thumbnail _ el))
    with (SELECTORS.videoRenderer el).
  destruct el as [t a cl ti ch th d h]. unfold has_badge in Hb. simpl in Hb.
  assert (Hth : (λ t0, {| style_position := style_position t0; edu_badges := 0 |})
                  <$> th = th).
  { destruct th as [[pos n]|]; simpl in *; [|done].
    apply bool_decide_eq_false in Hb. f_equal. f_equal.
    destruct n; [done|]. by destruct Hb. }
  destruct (SELECTORS.videoRenderer _).
  - unfold filterVideo.
    change (dataset_focusProcessed (with_thumbnail _ _))
      with (dataset_focusProcessed (mkElement t a cl ti ch th d h)).
    rewrite !bool_decide_eq_false_2 by done.
    unfold classify_and_mark. simpl.
    destruct ti as [title|]; simpl.
    + rewrite (classifyContent_policy s s') by done.
      destruct (classifyContent s _) as [[]|]; simpl.
      * unfold hideVideo, classList_add, set_classList, with_thumbnail,
          reset_element, removeAttribute, remove_badges, classList_remove,
          set_attributes, set_thumbnail, set_classList. simpl. by rewrite Hth.
      * unfold markAsEducational, has_badge. simpl.
        destruct th as [[pos n]|]; simpl in *; [|done].
        apply bool_decide_eq_false in Hb.
        assert (n = 0%nat) as -> by (destruct n; [done | by destruct Hb]).
        done.
      * unfold with_thumbnail, reset_element, removeAttribute, remove_badges,
          classList_remove, setAttribute, set_attributes, set_thumbnail,
          set_classList. simpl. by rewrite Hth.
      * unfold with_thumbnail, reset_element, removeAttribute, remove_badges,
          classList_remove, setAttribute, set_attributes, set_thumbnail,
          set_classList. simpl. by rewrite Hth.
    + unfold with_thumbnail, reset_element, removeAttribute, remove_badges,
        classList_remove, setAttribute, set_attributes, set_thumbnail,
        set_classList. simpl. by rewrite Hth.
  - unfold with_thumbnail, reset_element, removeAttribute, remove_badges,
      classList_remove, set_attributes, set_thumbnail, set_classList. simpl.
    by rewrite Hth.
Qed.

(** Hiding the Shorts and visiting the videos again, on what the reset
    left of a first such pass over untouched elements, gives the result of
    the first pass. *)
Lemma rescan_after_reset (s s' : Settings) (els : list Element) :
  same_policy s s' → Forall untouched els →
  visit s' <$> shorts_pass (reset_element <$> (visit s <$> shorts_pass els))
  = visit s <$> shorts_pass els.
Proof.
  intros Hpol Hels.
  assert (H1 : reset_element <$> (visit s <$> shorts_pass els)
               = restyle s <$> els).
  { rewrite <- list_fmap_compose.
    rewrite (shorts_pass_absorb (reset_element ∘ visit s)).
    - apply Forall_fmap_ext_1. eapply Forall_impl; [exact Hels|].
      intros el Hel. simpl. by apply reset_visit_untouched.
    - intros el. simpl.
      by rewrite visit_classList_add, reset_element_classList_add. }
  rewrite H1.
  rewrite (shorts_pass_fmap (restyle s));
    [| apply restyle_same_node | apply restyle_classList_add].
  rewrite <- list_fmap_compose. apply Forall_fmap_ext_1.
  assert (Hun : Forall unscanned (shorts_pass els)).
  { apply shorts_pass_Forall; [intros el; apply unscanned_classList_add|].
    eapply Forall_impl; [exact Hels|]. apply untouched_unscanned. }
  eapply Forall_impl; [exact Hun|]. intros el Hel. simpl.
  by apply visit_restyle.
Qed.

Lemma enable_after_disable (s s' : Settings) (p : Page) :
  same_policy s s' → Forall untouched (elements p) →
  enable_page s' (disable_page (enable_page s p)) = enable_page s p.
Proof.
  intros Hpol Hels.
  assert (Hhome : isHome (disable_page (enable_page s p)) = isHome p).
  { assert (Hpath : pathname (disable_page (enable_page s p)) = pathname p)
      by (unfold enable_page; by destruct (isHome p)).
    assert (Hhb : home_browse (disable_page (enable_page s p)) = home_browse p)
      by (unfold enable_page; by destruct (isHome p)).
    unfold isHome. by rewrite Hpath, Hhb. }
  unfold enable_page at 1. cbv zeta. rewrite Hhome.
  unfold enable_page. destruct (isHome p);
    unfold disable_page, set_dashboard, set_elements;
    cbn [pathname elements home_browse dashboard watch_heading search_box];
    f_equal.
  - rewrite (fmap_first_matching_absorb reset_element)
      by apply reset_element_classList_add.
    by rewrite rescan_after_reset.
  - cbn [fmap option_fmap option_map default]. f_equal. unfold id.
    apply set_eq. intros x.
    rewrite !elem_of_difference, elem_of_union, elem_of_difference. tauto.
  - by rewrite rescan_after_reset.
  - destruct (dashboard p) as [cl|]; cbn [fmap option_fmap option_map]; [|done].
    f_equal. apply set_eq. intros x. rewrite !elem_of_union. tauto.
Qed.


(** * Scanning a page that has been scanned *)

Lemma classList_add_present (c : string) (el : Element) :
  classList_contains c el = true → classList_add c el = el.
Proof.
  unfold classList_contains. rewrite bool_decide_eq_true. intros Hc.
  destruct el as [t a cl ti ch th d h]. unfold classList_add, set_classList.
  simpl in *. f_equal. apply set_eq. intros x.
  rewrite elem_of_union, elem_of_singleton.
  split; [by intros [?| ->] | by left].
Qed.

Lemma classList_add_idemp (c : string) (el : Element) :
  classList_add c (classList_add c el) = classList_add c el.
Proof.
  apply classList_add_present. unfold classList_contains. simpl.
  apply bool_decide_eq_true_2, elem_of_union_r. by apply elem_of_singleton.
Qed.

(** Hiding the first match again changes nothing, and stays so while the
    elements only grow. *)
Lemma first_matching_again (sel : Element → bool) (els : list Element) :
  (∀ el, sel (classList_add "focus-hidden" el) = sel el) →
  first_matching sel (classList_add "focus-hidden")
    (first_matching sel (classList_add "focus-hidden") els)
  = first_matching sel (classList_add "focus-hidden") els.
Proof.
  intros Hsel. induction els as [|el els IH]; simpl; [done|].
  destruct (sel el) eqn:Hel; simpl.
  - by rewrite Hsel, Hel, classList_add_idemp.
  - by rewrite Hel, IH.
Qed.

Lemma forEach_matching_again (sel : Element → bool) (els : list Element) :
  (∀ el, sel (classList_add "focus-hidden" el) = sel el) →
  forEach_matching sel (classList_add "focus-hidden")
    (forEach_matching sel (classList_add "focus-hidden") els)
  = forEach_matching sel (classList_add "focus-hidden") els.
Proof.
  intros Hsel. unfold forEach_matching. rewrite <- list_fmap_compose.
  apply list_fmap_ext. intros _ el _. simpl.
  destruct (sel el) eqn:Hel; [|by rewrite Hel].
  by rewrite Hsel, Hel, classList_add_idemp.
Qed.

Lemma first_matching_fixed_grows (sel : Element → bool) (els els' : list Element) :
  (∀ el el', same_node el el' → sel el' = sel el) →
  Forall2 grows els els' →
  first_matching sel (classList_add "focus-hidden") els = els →
  first_matching sel (classList_add "focus-hidden") els' = els'.
Proof.
  intros Hsel Hg. induction Hg as [|el el' els els' Hel _ IH]; simpl; [done|].
  rewrite (Hsel el el') by apply Hel.
  destruct (sel el).
  - intros [= Hfix]. f_equal. apply classList_add_present.
    eapply (grows_hidden el el'); [done|].
    rewrite <- Hfix. apply classList_add_hidden.
  - intros [= Hfix]. by rewrite IH.
Qed.

Lemma forEach_matching_fixed_grows (sel : Element → bool)
    (els els' : list Element) :
  (∀ el el', same_node el el' → sel el' = sel el) →
  Forall2 grows els els' →
  forEach_matching sel (classList_add "focus-hidden") els = els →
  forEach_matching sel (classList_add "focus-hidden") els' = els'.
Proof.
  intros Hsel Hg. unfold forEach_matching.
  induction Hg as [|el el' els els' Hel _ IH]; csimpl; [done|].
  rewrite (Hsel el el') by apply Hel.
  intros [= Hfix Hrest]. rewrite IH by done. f_equal.
  destruct (sel el); [|done]. apply classList_add_present.
  eapply (grows_hidden el el'); [done|].
  rewrite <- Hfix. apply classList_add_hidden.
Qed.

Lemma forEach_matching_grows (sel : Element → bool) (els : list Element) :
  Forall2 grows els (forEach_matching sel (classList_add "focus-hidden") els).
Proof.
  apply forEach_matching_Forall2; intros el _;
    [apply grows_refl | apply grows_classList_add].
Qed.

Lemma first_matching_grows (sel : Element → bool) (els : list Element) :
  Forall2 grows els (first_matching sel (classList_add "focus-hidden") els).
Proof.
  apply first_matching_Forall2; [apply grows_refl|].
  intros el _. apply grows_classList_add.
Qed.

Lemma selector_classList_add (el : Element) :
  SELECTORS.shorts (classList_add "focus-hidden" el) = SELECTORS.shorts el ∧
  SELECTORS.shortsTab (classList_add "focus-hidden" el) = SELECTORS.shortsTab el ∧
  SELECTORS.shortsSection (classList_add "focus-hidden" el)
    = SELECTORS.shortsSection el ∧
  SELECTORS.homeFeed (classList_add "focus-hidden" el) = SELECTORS.homeFeed el.
Proof. done. Qed.

Lemma shorts_settled_grows (els els' : list Element) :
  Forall2 grows els els' → shorts_settled els → shorts_settled els'.
Proof.
  intros Hg (H1 & H2 & H3). split_and!.
  - eapply forEach_matching_fixed_grows; [|exact Hg|exact H1].
    intros el el' Hn. by apply same_node_selectors in Hn as (?&?&?&?&?).
  - eapply first_matching_fixed_grows; [|exact Hg|exact H2].
    intros el el' Hn. by apply same_node_selectors in Hn as (?&?&?&?&?).
  - eapply forEach_matching_fixed_grows; [|exact Hg|exact H3].
    intros el el' Hn. by apply same_node_selectors in Hn as (?&?&?&?&?).
Qed.

Lemma shorts_pass_settled (els : list Element) : shorts_settled (shorts_pass els).
Proof.
  unfold shorts_pass.
  set (l1 := forEach_matching SELECTORS.shorts _ els).
  set (l2 := first_matching SELECTORS.shortsTab _ l1).
  set (l3 := forEach_matching SELECTORS.shortsSection _ l2).
  assert (G12 : Forall2 grows l1 l2) by apply first_matching_grows.
  assert (G23 : Forall2 grows l2 l3) by apply forEach_matching_grows.
  assert (S : ∀ sel : Element → bool,
              (∀ el el', same_node el el' → sel el' = sel el) →
              ∀ el, sel (classList_add "focus-hidden" el) = sel el).
  { intros sel Hsel el. apply Hsel, same_node_set_classList. }
  assert (Ssh : ∀ el el', same_node el el' → SELECTORS.shorts el' = SELECTORS.shorts el).
  { intros el el' Hn. by apply same_node_selectors in Hn as (?&?&?&?&?). }
  assert (Stab : ∀ el el', same_node el el' →
                   SELECTORS.shortsTab el' = SELECTORS.shortsTab el).
  { intros el el' Hn. by apply same_node_selectors in Hn as (?&?&?&?&?). }
  assert (Ssec : ∀ el el', same_node el el' →
                   SELECTORS.shortsSection el' = SELECTORS.shortsSection el).
  { intros el el' Hn. by apply same_node_selectors in Hn as (?&?&?&?&?). }
  split_and!.
  - eapply forEach_matching_fixed_grows; [exact Ssh|exact G23|].
    eapply forEach_matching_fixed_grows; [exact Ssh|exact G12|].
    apply forEach_matching_again, (S _ Ssh).
  - eapply first_matching_fixed_grows; [exact Stab|exact G23|].
    apply first_matching_again, (S _ Stab).
  - apply forEach_matching_again, (S _ Ssec).
Qed.

Lemma shorts_pass_fixed (els : list Element) :
  shorts_settled els → shorts_pass els = els.
Proof. intros (H1 & H2 & H3). unfold shorts_pass. by rewrite H1, H2, H3. Qed.

Lemma visit_grows (s : Settings) (els : list Element) :
  Forall2 grows els (visit s <$> els).
Proof.
  apply Forall2_fmap_r, Forall_Forall2_diag, Forall_forall. intros el _.
  change (grows el (visit s el)). unfold visit.
  destruct (SELECTORS.videoRenderer el);
    [apply filterVideo_grows | apply grows_refl].
Qed.

Lemma visit_processed (s s' : Settings) (el : Element) :
  visit s' (visit s el) = visit s el.
Proof.
  unfold visit at 2 3. destruct (SELECTORS.videoRenderer el) eqn:Hv.
  - unfold visit. rewrite filterVideo_videoRenderer, Hv.
    rewrite filterVideo_processed; [done|apply filterVideo_marks].
  - unfold visit. by rewrite Hv.
Qed.

(** The timer callback of [initialize] makes the same page as a settings
    update that has focus mode on. *)
Lemma settled_scan_enable (w : World) :
  truthy (focusModeEnabled (settings w)) = true →
  is_Some (allowedKeywords (settings w)) →
  is_Some (blockedKeywords (settings w)) →
  document (step SettledScan w) = enable_page (settings w) (document w).
Proof.
  intros Hon HA HB.
  rewrite <- (handleMessage_enable (settings w) w Hon HA HB).
  assert (Hw : set_settings (settings w) w = w) by by destruct w.
  unfold step. cbn [handler handleMessage]. rewrite Hon.
  change ((modify (set_settings (settings w));; scanAndFilter;; checkForHomepage) w)
    with ((scanAndFilter;; checkForHomepage) (set_settings (settings w) w)).
  by rewrite Hw.
Qed.

Lemma visit_again (s s' : Settings) (els : list Element) :
  visit s' <$> (visit s <$> els) = visit s <$> els.
Proof.
  rewrite <- list_fmap_compose. apply list_fmap_ext. intros _ el _.
  apply visit_processed.
Qed.

(** What a pass leaves has nothing left for the next pass. *)
Lemma enable_page_settled (s : Settings) (p : Page) :
  shorts_settled (elements (enable_page s p)) ∧
  Forall (λ el, ∀ s', visit s' el = el) (elements (enable_page s p)) ∧
  (isHome p = true →
   first_matching SELECTORS.homeFeed (classList_add "focus-hidden")
     (elements (enable_page s p)) = elements (enable_page s p)).
Proof.
  assert (Hs : shorts_settled (visit s <$> shorts_pass (elements p))).
  { eapply shorts_settled_grows; [apply visit_grows | apply shorts_pass_settled]. }
  assert (Hv : Forall (λ el, ∀ s', visit s' el = el)
                 (visit s <$> shorts_pass (elements p))).
  { apply Forall_fmap, Forall_forall. intros el _ s'. apply visit_processed. }
  unfold enable_page. destruct (isHome p); simpl; split_and!; try done.
  - eapply shorts_settled_grows; [apply first_matching_grows | exact Hs].
  - apply first_matching_Forall; [|exact Hv].
    intros el Hel s'. by rewrite visit_classList_add, Hel.
  - intros _. by apply first_matching_again.
Qed.

Lemma scan_page_again (s s' : Settings) (p : Page) :
  set_elements (λ els, visit s' <$> shorts_pass els) (enable_page s p)
  = enable_page s p.
Proof.
  destruct (enable_page_settled s p) as (Hs & Hv & _).
  assert (Hels : visit s' <$> shorts_pass (elements (enable_page s p))
                 = elements (enable_page s p)).
  { rewrite shorts_pass_fixed by done.
    rewrite <- (list_fmap_id (elements (enable_page s p))) at 2.
    apply Forall_fmap_ext_1. eapply Forall_impl; [exact Hv|].
    intros el Hel. apply Hel. }
  unfold set_elements. rewrite Hels. by destruct (enable_page s p).
Qed.

Lemma enable_page_isHome (s : Settings) (p : Page) :
  isHome (enable_page s p) = isHome p.
Proof.
  assert (Hpath : pathname (enable_page s p) = pathname p)
    by (unfold enable_page; by destruct (isHome p)).
  assert (Hhb : home_browse (enable_page s p) = home_browse p)
    by (unfold enable_page; by destruct (isHome p)).
  unfold isHome. by rewrite Hpath, Hhb.
Qed.

Lemma enable_page_again (s s' : Settings) (p : Page) :
  enable_page s' (enable_page s p) = enable_page s p.
Proof.
  destruct (enable_page_settled s p) as (_ & _ & Hhf).
  pose proof (enable_page_isHome s p) as Hhome.
  unfold enable_page at 1. cbv zeta. rewrite Hhome, scan_page_again.
  destruct (isHome p) eqn:Hh.
  - unfold set_elements at 1. rewrite Hhf by done.
    unfold enable_page. rewrite Hh. unfold set_dashboard, set_elements.
    cbn [pathname elements home_browse dashboard watch_heading search_box
         default]. f_equal. f_equal. unfold id. apply set_eq. intros x.
    rewrite !elem_of_difference. tauto.
  - unfold enable_page. rewrite Hh. unfold set_dashboard, set_elements.
    cbn [pathname elements home_browse dashboard watch_heading search_box].
    f_equal. destruct (dashboard p) as [cl|]; cbn [fmap option_fmap option_map];
      [|done].
    f_equal. apply set_eq. intros x. rewrite !elem_of_union. tauto.
Qed.

Lemma settled_scan_policy (w : World) :
  truthy (focusModeEnabled (settings w)) = true →
  same_policy (settings w) (settings (settled_scan w).2).
Proof.
  intros Hon. destruct (scanAndFilter_enabled w Hon) as [_ Hpol].
  unfold settled_scan, mbind, M_bind.
  destruct (scanAndFilter w) as [[[]|e] w2]; simpl in *; [|done].
  by destruct (checkForHomepage_settings w2) as [_ ->].
Qed.

(** On a page that a pass has made, with focus mode on and both lists in
    place, a further scan changes nothing on the page. *)
Lemma step_scan_keeps_page (ev : Event) (w : World) (s : Settings) (p : Page) :
  is_scan ev = true →
  truthy (focusModeEnabled (settings w)) = true →
  is_Some (allowedKeywords (settings w)) →
  is_Some (blockedKeywords (settings w)) →
  document w = enable_page s p →
  document (step ev w) = document w ∧
  same_policy (settings w) (settings (step ev w)).
Proof.
  intros Hev Hon HA HB Hdoc.
  assert (Hscan : document (scanAndFilter w).2 = document w ∧
                  same_policy (settings w) (settings (scanAndFilter w).2)).
  { destruct (scanAndFilter_lists w Hon HA HB) as [_ ->].
    destruct (scanAndFilter_enabled w Hon) as [_ Hpol].
    split; [|done]. rewrite Hdoc. apply scan_page_again. }
  destruct ev; try discriminate Hev; unfold step; cbn [handler].
  - unfold mbind, M_bind, get_world. rewrite Hon. exact Hscan.
  - exact Hscan.
  - split; [|by apply settled_scan_policy].
    change ((settled_scan w).2) with (step SettledScan w).
    rewrite settled_scan_enable, Hdoc by done. apply enable_page_again.
Qed.

Lemma run_scans_keep_page (evs : list Event) (w : World) (s : Settings)
    (p : Page) :
  Forall (λ ev, is_scan ev = true) evs →
  truthy (focusModeEnabled (settings w)) = true →
  is_Some (allowedKeywords (settings w)) →
  is_Some (blockedKeywords (settings w)) →
  document w = enable_page s p →
  document (run evs w) = document w.
Proof.
  intros Hevs. revert w. induction Hevs as [|ev evs Hev _ IH];
    intros w Hon HA HB Hdoc; [done|].
  destruct (step_scan_keeps_page ev w s p Hev Hon HA HB Hdoc)
    as [Hd (H1 & H2 & H3)].
  unfold run. simpl. fold (run evs (step ev w)).
  rewrite IH; [done| | | |]; congruence.
Qed.

(** * The round trip *)

Lemma handleMessage_enable_policy (s : Settings) (w : World) :
  truthy (focusModeEnabled s) = true →
  same_policy s (settings (step (Incoming (SETTINGS_UPDATED s)) w)).
Proof.
  intros Hon. unfold step. cbn [handler handleMessage]. rewrite Hon.
  change ((modify (set_settings s);; scanAndFilter;; checkForHomepage) w)
    with (settled_scan (set_settings s w)).
  by apply (settled_scan_policy (set_settings s w)).
Qed.

(** C3, as the script has it.  [removeAllFilters] leaves no element with
    the class [focus-hidden], with a badge or with the marker, and the
    overlay off, whatever the page was.  What the scan after the switch-on
    restores is what scan passes under the same keyword lists have made of
    the items as they are.  Take a page the script has not touched yet, a
    settings update that switches focus mode on, any number of scan passes
    after it (poll ticks, debounced scans, timer callbacks), then an update
    that switches focus mode off and one that switches it on again with
    the same keyword lists.  The page after the last update is the page
    before the switch-off: every element has the classes, the badge and
    the marker it had, so what the user sees of each item is the same, and
    the overlay is as it was. *)
Theorem disable_enable_restores (w0 : World) (on off on' : Settings)
    (scans : list Event) :
  truthy (focusModeEnabled on) = true →
  is_Some (allowedKeywords on) → is_Some (blockedKeywords on) →
  truthy (focusModeEnabled off) = false →
  same_policy on on' →
  Forall untouched (elements (document w0)) →
  Forall (λ ev, is_scan ev = true) scans →
  let w1 := run scans (step (Incoming (SETTINGS_UPDATED on)) w0) in
  let w2 := step (Incoming (SETTINGS_UPDATED off)) w1 in
  let w3 := step (Incoming (SETTINGS_UPDATED on')) w2 in
  (∀ w, Forall untouched (elements (document (removeAllFilters w).2)) ∧
        dashboard_shown (document (removeAllFilters w).2) = false) ∧
  Forall untouched (elements (document w2)) ∧
  dashboard_shown (document w2) = false ∧
  document w3 = document w1 ∧
  Forall2 (λ el1 el3, display el3 = display el1)
    (elements (document w1)) (elements (document w3)).
Proof.
  intros Hon HA HB Hoff Hpol Hclean Hscans w1 w2 w3.
  assert (Hon' : truthy (focusModeEnabled on') = true).
  { destruct Hpol as (-> & _). done. }
  assert (HA' : is_Some (allowedKeywords on')).
  { destruct Hpol as (_ & -> & _). done. }
  assert (HB' : is_Some (blockedKeywords on')).
  { destruct Hpol as (_ & _ & ->). done. }
  set (w := step (Incoming (SETTINGS_UPDATED on)) w0) in *.
  assert (Hw : document w = enable_page on (document w0))
    by by apply handleMessage_enable.
  destruct (handleMessage_enable_policy on w0 Hon) as (P1 & P2 & P3).
  fold w in P1, P2, P3.
  assert (H1 : document w1 = enable_page on (document w0)).
  { unfold w1. rewrite (run_scans_keep_page scans w on (document w0));
      try done; congruence. }
  assert (H2 : document w2 = disable_page (document w1))
    by by apply handleMessage_disable.
  assert (H3 : document w3 = document w1).
  { unfold w3. rewrite handleMessage_enable, H2, H1 by done.
    by apply enable_after_disable. }
  split_and!.
  - intros w'. split; [apply removeAllFilters_untouched
                      | apply removeAllFilters_overlay_off].
  - rewrite H2. simpl. apply Forall_fmap, Forall_forall.
    intros el _. apply reset_element_untouched.
  - rewrite H2. unfold disable_page. apply dashboard_shown_hide.
  - done.
  - rewrite H3. apply Forall_Forall2_diag, Forall_forall. by intros el _.
Qed.

(** * The first scan after loading, and a title that comes late *)

(** So the round trip also restores the page that the first scan after
    loading made. *)
Lemma disable_enable_restores_first_scan (w0 : World) (off on' : Settings) :
  truthy (focusModeEnabled (settings w0)) = true →
  is_Some (allowedKeywords (settings w0)) →
  is_Some (blockedKeywords (settings w0)) →
  truthy (focusModeEnabled off) = false →
  same_policy (settings w0) on' →
  Forall untouched (elements (document w0)) →
  let w1 := step SettledScan w0 in
  let w2 := step (Incoming (SETTINGS_UPDATED off)) w1 in
  let w3 := step (Incoming (SETTINGS_UPDATED on')) w2 in
  document w3 = document w1.
Proof.
  intros Hon HA HB Hoff Hpol Hclean w1 w2 w3. unfold w3, w2, w1.
  destruct Hpol as (H1 & H2 & H3).
  rewrite handleMessage_enable, handleMessage_disable, settled_scan_enable;
    try done; try congruence.
  by apply enable_after_disable.
Qed.

(** With both keyword lists in place, the pass reaches a video that has no
    title yet wherever it stands in the page, and only marks it. *)
Lemma forEach_video_untitled (s : Settings) (els : list Element) (i : nat)
    (video : Element) :
  is_Some (allowedKeywords s) → is_Some (blockedKeywords s) →
  els !! i = Some video → SELECTORS.videoRenderer video = true →
  title_text video = None → ¬ processed video →
  (forEach_video s els 0).1 !! i
  = Some (setAttribute "data-focus-processed" "true" video).
Proof.
  intros HA HB Hi Hv Ht Hp.
  destruct (forEach_video_lists s els 0 HA HB) as [c ->]. simpl.
  rewrite list_lookup_fmap, Hi. simpl. unfold visit. rewrite Hv.
  rewrite filterVideo_unmarked by done. unfold classify_and_mark. simpl.
  by rewrite Ht.
Qed.

(** C3, what fails.  The fourth video of the sample page has no title when
    the first scan marks it.  The host page then renders its title, "Epic
    prank"; the next pass skips the marked video, so before the switch-off
    it is on screen.  The reset takes the marker away with everything
    else, and the scan after the switch-on, under the same keyword lists
    and over the same items with the same texts, hides it: its display
    after the round trip is not the one it had before. *)
Lemma late_title_after_reset :
  let w1 := step SettledScan sample_world in
  let titled :=
    set_document
      (set_elements (fmap (λ el,
         if bool_decide (title_text el = None ∧ SELECTORS.videoRenderer el = true)
         then host_set_texts (Some "Epic prank") None el else el))) w1 in
  let w2 := step Poll titled in
  let w3 := step (Incoming (SETTINGS_UPDATED sample_disabled)) w2 in
  let w4 := step (Incoming (SETTINGS_UPDATED sample_settings)) w3 in
  same_policy (settings w2) sample_settings ∧
  display <$> elements (document w2) = [hidden; badged; plain; plain; hidden] ∧
  display <$> elements (document w3) = [plain; plain; plain; plain; plain] ∧
  title_text <$> elements (document w4) = title_text <$> elements (document w2) ∧
  channel_text <$> elements (document w4)
    = channel_text <$> elements (document w2) ∧
  display <$> elements (document w4) = [hidden; badged; plain; hidden; hidden] ∧
  display <$> elements (document w4) ≠ display <$> elements (document w2).
Proof. by vm_compute. Qed.

(** * The theorems at the sample inputs *)

Example sample_scan_displays :
  display <$> elements (document (step SettledScan sample_world))
  = [hidden; badged; plain; plain; hidden].
Proof. by vm_compute. Qed.

Example sample_scan_counts :
  (focusSettings (sync (step SettledScan sample_world)) ≫= stats) ≫= blockedCount
  = Some 4.
Proof. by vm_compute. Qed.

(** With nothing stored, the object written is the script's own settings
    object, which the update has changed in place. *)
Lemma updateBlockedCount_nothing_stored (c : Z) (w : World) :
  get_rejects (sync w) = false → set_rejects (sync w) = false →
  focusSettings (sync w) = None →
  let w' := (updateBlockedCount c w).2 in
  settings w' = add_blockedCount c (settings w) ∧
  focusSettings (sync w') = Some (add_blockedCount c (settings w)).
Proof.
  intros Hg Hs Hn. unfold updateBlockedCount, update_stored, update_call, update_resume,
    storage_get_call, storage_answer, await, storage_get,
    storage_set. run_M. rewrite Hg, Hn. simpl. by rewrite Hs.
Qed.

(** C1 at the spec's scenarios, with capitals in the texts where the
    keywords have small letters: "PRANK" in the text is the blocked keyword
    "prank", which wins over "Python"; "Python" is the allowed keyword
    "python"; no keyword occurs in "Sourdough at home". *)
Lemma classifyContent_spec_witness :
  some_occurs_ignoring_case ["prank"] "Python PRANK Compilation" ∧
  classifyContent sample_settings "Python PRANK Compilation" = Normal blocked ∧
  classifyContent sample_settings "Intro to Python Tutorial"
    = Normal educational ∧
  classifyContent sample_settings "Sourdough at home" = Normal neutral.
Proof.
  assert (Hup : ∀ lo up : ascii,
            (65 <=? nat_of_ascii up)%nat && (nat_of_ascii up <=? 90)%nat
            && (nat_of_ascii lo =? nat_of_ascii up + 32)%nat = true →
            same_letter up lo).
  { intros lo up H. right. right.
    rewrite !andb_true_iff, !Nat.leb_le, Nat.eqb_eq in H.
    unfold capital_of. tauto. }
  assert (Hprank : some_occurs_ignoring_case ["prank"]
                     "Python PRANK Compilation").
  { exists "prank". split; [apply list_elem_of_In; by left|].
    exists "Python ", "PRANK", " Compilation". split; [reflexivity|].
    cbn [equal_ignoring_case]. split_and!; try done; by apply Hup. }
  assert (Hpython : some_occurs_ignoring_case ["python"; "react"]
                      "Intro to Python Tutorial").
  { exists "python". split; [apply list_elem_of_In; by left|].
    exists "Intro to ", "Python", " Tutorial". split; [reflexivity|].
    cbn [equal_ignoring_case]. split_and!; try done; try (by left);
      by apply Hup. }
  assert (Hno : ∀ L : list string, matches_any (toLowerCase "Sourdough at home") L
                  = false → ¬ some_occurs_ignoring_case L "Sourdough at home").
  { intros L H. rewrite <- contains_any_ignoring_case.
    by apply matches_any_false. }
  destruct (classifyContent_spec sample_settings ["python"; "react"] ["prank"]
              "Python PRANK Compilation" eq_refl eq_refl) as (H1 & _ & _).
  destruct (classifyContent_spec sample_settings ["python"; "react"] ["prank"]
              "Intro to Python Tutorial" eq_refl eq_refl) as (_ & H2 & _).
  destruct (classifyContent_spec sample_settings ["python"; "react"] ["prank"]
              "Sourdough at home" eq_refl eq_refl) as (_ & _ & H3).
  split_and!; [exact Hprank | exact (H1 Hprank) | | ].
  - apply H2; [|exact Hpython].
    rewrite <- contains_any_ignoring_case. by apply matches_any_false.
  - apply H3; by apply Hno.
Defined.

(** C2 at the sample page, after its first scan. *)
Lemma filterVideos_idempotent_witness :
  let w := step SettledScan sample_world in
  filterVideos w = (Normal tt, w).
Proof.
  intros w. apply (proj1 (filterVideos_idempotent w)).
  apply (bool_decide_unpack _). by vm_compute.
Defined.

(** C3 at the sample page: on, a poll tick and a timer callback, off, on
    again. *)
Lemma disable_enable_restores_witness :
  let w1 := run [Poll; SettledScan]
              (step (Incoming (SETTINGS_UPDATED sample_settings)) sample_world) in
  let w2 := step (Incoming (SETTINGS_UPDATED sample_disabled)) w1 in
  let w3 := step (Incoming (SETTINGS_UPDATED sample_settings)) w2 in
  Forall untouched (elements (document sample_world)) ∧
  display <$> elements (document w1) = [hidden; badged; plain; plain; hidden] ∧
  display <$> elements (document w2) = [plain; plain; plain; plain; plain] ∧
  document w3 = document w1.
Proof.
  intros w1 w2 w3.
  assert (Hclean : Forall untouched (elements (document sample_world))).
  { apply (bool_decide_unpack _). by vm_compute. }
  split_and!; [exact Hclean | by vm_compute | by vm_compute |].
  refine (proj1 (proj2 (proj2 (proj2
    (disable_enable_restores sample_world sample_settings sample_disabled
       sample_settings [Poll; SettledScan] _ _ _ _ _ Hclean _))))).
  - reflexivity.
  - by eexists.
  - by eexists.
  - reflexivity.
  - done.
  - by repeat constructor.
Defined.

(** C4 at the sample page, scanned and then switched off behind the
    script's back. *)
Lemma disabled_scan_has_no_effects_witness :
  let w := set_settings sample_disabled (step SettledScan sample_world) in
  let w' := (scanAndFilter w).2 in
  truthy (focusModeEnabled (settings w)) = false ∧
  display <$> elements (document w) = [hidden; badged; plain; plain; hidden] ∧
  Forall untouched (elements (document w')) ∧
  sync w' = sync w ∧
  dashboard_shown (document w') = false.
Proof.
  intros w w'.
  assert (Hoff : truthy (focusModeEnabled (settings w)) = false) by reflexivity.
  destruct (disabled_scan_has_no_effects w Hoff) as (_ & _ & H1 & H2 & H3 & _).
  split_and!; [exact Hoff | by vm_compute | exact H1 | exact H2 | exact H3].
Defined.

(** C6 on the sample watch page, ninety seconds after the baseline. *)
Lemma trackEducationalTime_reports_witness :
  let w := sample_watch_world in
  let w' := (trackEducationalTime w).2 in
  contains_any "Learn React in 30 Minutes" ["python"; "react"] ∧
  1 ≤ (now w - lastTrackTime w) `div` 60000 ∧
  lastTrackTime w' = lastTrackTime w + (now w - lastTrackTime w).
Proof.
  intros w w'.
  assert (Hedu : contains_any "Learn React in 30 Minutes" ["python"; "react"])
    by (apply matches_any_true; reflexivity).
  assert (Hmin : 1 ≤ (now w - lastTrackTime w) `div` 60000) by (by vm_compute).
  split_and!; [exact Hedu | exact Hmin |].
  exact (proj1 (proj2
    (trackEducationalTime_reports w "Learn React in 30 Minutes"
       ["python"; "react"] eq_refl eq_refl eq_refl Hedu Hmin))).
Defined.


(** C9 at the sample page: the shelf of Shorts, fifth in the page. *)
Lemma scanAndFilter_hides_shorts_witness :
  let w := sample_world in
  SELECTORS.shorts sample_shelf = true ∧
  elements (document w) !! 4%nat = Some sample_shelf ∧
  ∃ el', elements (document (scanAndFilter w).2) !! 4%nat = Some el' ∧
         same_node sample_shelf el' ∧ SELECTORS.focus_hidden el' = true.
Proof.
  intros w. split_and!; [reflexivity | reflexivity |].
  exact (proj1 (scanAndFilter_hides_shorts w eq_refl) 4%nat sample_shelf
           eq_refl (or_introl eq_refl)).
Defined.

(** C10 for the untitled sample video, through two later passes that find
    it titled. *)
Lemma untitled_video_stays_unclassified_witness :
  let video := sample_video None None in
  let later :=
    later_passes
      [(sample_settings, (Some "Epic prank", Some "Fun Channel"));
       (sample_settings, (Some "Python course", None))]
      (filterVideo sample_settings video).1 in
  ¬ processed video ∧
  (filterVideo sample_settings video).2 = Normal 0 ∧
  display later.1 = plain ∧
  later.2 = [Normal 0; Normal 0].
Proof.
  intros video later.
  assert (Hp : ¬ processed video) by (by vm_compute).
  destruct (untitled_video_stays_unclassified sample_settings video eq_refl Hp)
    as (Hcb & Hlater & _).
  split_and!; [exact Hp | by rewrite Hcb | |by vm_compute].
  destruct (Hlater [(sample_settings, (Some "Epic prank", Some "Fun Channel"));
                    (sample_settings, (Some "Python course", None))])
    as (_ & _ & _ & Hd & _).
  fold later in Hd. rewrite Hd. by vm_compute.
Defined.
(** * A video the script has not been to *)

Lemma video_text_lower (title : string) (channel : option string) :
  toLowerCase
    (toLowerCase title +:+ " " +:+
       match channel with
       | Some channelText => toLowerCase channelText
       | None => ""
       end)
  = toLowerCase (title +:+ " " +:+ default "" channel).
Proof.
  rewrite !toLowerCase_app, toLowerCase_idemp.
  destruct channel as [c|]; simpl; [by rewrite toLowerCase_idemp | done].
Qed.

(** The callback on a video without the marker, with both lists in place:
    its outcome in terms of the rendered texts. *)
Lemma classify_and_mark_lists (s : Settings) (A B : list string)
    (video : Element) :
  allowedKeywords s = Some A → blockedKeywords s = Some B →
  classify_and_mark s video =
  let marked := setAttribute "data-focus-processed" "true" video in
  match video_text video with
  | None => (marked, Normal 0)
  | Some text =>
    if matches_any (toLowerCase text) B then (hideVideo marked, Normal 1)
    else if matches_any (toLowerCase text) A
         then (markAsEducational marked, Normal 0)
         else (marked, Normal 0)
  end.
Proof.
  intros HA HB. unfold classify_and_mark, video_text. cbn [title_text setAttribute set_attributes channel_text].
  destruct (title_text video) as [title|]; [|done]. cbn [fmap option_fmap option_map].
  rewrite (classifyContent_lists s A B) by done.
  rewrite video_text_lower.
  by repeat case_match.
Qed.

(** X1.  What a first visit makes of a video renderer that shows no trace
    of the script and has a title, under settings with both keyword lists.
    The text that counts is the title, a space and the channel name, the
    comparison is case-insensitive on both sides (lower-casing the texts
    before [classifyContent] lower-cases them again changes nothing): if
    the text contains a blocked keyword the video ends hidden and counts
    as one blocked video; if not and it contains an allowed keyword, it
    gets a badge, provided it has a thumbnail to carry it (without one
    it stays plain); otherwise it stays plain.  In every case it carries
    the marker afterwards. *)
Theorem fresh_video_display (s : Settings) (A B : list string)
    (video : Element) (title : string) :
  allowedKeywords s = Some A → blockedKeywords s = Some B →
  untouched video → title_text video = Some title →
  let text := title +:+ " " +:+ default "" (channel_text video) in
  let r := filterVideo s video in
  processed r.1 ∧
  (contains_any text B → display r.1 = hidden ∧ r.2 = Normal 1) ∧
  (¬ contains_any text B → contains_any text A →
     display r.1 = match thumbnail video with
                   | Some _ => badged
                   | None => plain
                   end ∧ r.2 = Normal 0) ∧
  (¬ contains_any text B → ¬ contains_any text A →
     display r.1 = plain ∧ r.2 = Normal 0).
Proof.
  intros HA HB (Hcl & Hm & Hb) Ht text r.
  assert (Hun : ¬ processed video).
  { unfold processed, dataset_focusProcessed. by rewrite Hm. }
  split; [apply filterVideo_marks|].
  subst r. rewrite filterVideo_unmarked by done.
  rewrite (classify_and_mark_lists s A B) by done.
  unfold video_text. rewrite Ht. cbn [fmap option_fmap option_map]. fold text.
  cbv zeta.
  assert (Hplain : display (setAttribute "data-focus-processed" "true" video)
                   = plain).
  { unfold display, SELECTORS.focus_hidden, classList_contains.
    cbn [classList setAttribute set_attributes].
    rewrite bool_decide_eq_false_2 by done.
    change (has_badge (setAttribute "data-focus-processed" "true" video))
      with (has_badge video). by rewrite Hb. }
  split_and!.
  - intros HinB. apply matches_any_true in HinB. rewrite HinB. split; [|done].
    unfold display, SELECTORS.focus_hidden, classList_contains, hideVideo.
    cbn [classList classList_add set_classList setAttribute set_attributes].
    rewrite bool_decide_eq_true_2; [done|].
    apply elem_of_union_r. by apply elem_of_singleton.
  - intros HnB HinA. apply matches_any_false in HnB.
    apply matches_any_true in HinA. rewrite HnB, HinA. split; [|done].
    unfold markAsEducational.
    change (has_badge (setAttribute "data-focus-processed" "true" video))
      with (has_badge video). rewrite Hb.
    unfold display, SELECTORS.focus_hidden, classList_contains.
    cbn [fst classList set_thumbnail setAttribute set_attributes].
    rewrite (bool_decide_eq_false_2 _ Hcl).
    unfold has_badge. simpl.
    by destruct (thumbnail video) as [t|].
  - intros HnB HnA. apply matches_any_false in HnB.
    apply matches_any_false in HnA. by rewrite HnB, HnA.
Qed.

Lemma fresh_video_display_witness :
  let video := sample_video (Some "Intro to PYTHON") (Some "Prank Kings") in
  display (filterVideo sample_settings video).1 = hidden ∧
  (filterVideo sample_settings video).2 = Normal 1.
Proof.
  apply (fresh_video_display sample_settings ["python"; "react"] ["prank"]
           (sample_video (Some "Intro to PYTHON") (Some "Prank Kings"))
           "Intro to PYTHON"); [reflexivity|reflexivity| |reflexivity|].
  - apply (bool_decide_unpack _). by vm_compute.
  - apply matches_any_true. by vm_compute.
Defined.

(** * What a pass counts *)

Lemma filterVideo_count (s : Settings) (A B : list string) (el : Element) :
  allowedKeywords s = Some A → blockedKeywords s = Some B →
  SELECTORS.videoRenderer el = true →
  (filterVideo s el).2 = Normal (if newly_blocked B el then 1 else 0).
Proof.
  intros HA HB Hv. unfold newly_blocked. rewrite Hv.
  destruct (decide (processed el)) as [Hp|Hp].
  { rewrite filterVideo_processed by done.
    by rewrite (bool_decide_eq_true_2 _ Hp). }
  rewrite filterVideo_unmarked, (bool_decide_eq_false_2 _ Hp) by done.
  rewrite (classify_and_mark_lists s A B) by done. cbv zeta.
  cbn [negb andb].
  destruct (video_text el) as [text|]; [|done].
  by repeat case_match.
Qed.

Lemma forEach_video_count (s : Settings) (A B : list string)
    (els : list Element) (c : Z) :
  allowedKeywords s = Some A → blockedKeywords s = Some B →
  forEach_video s els c
  = (visit s <$> els,
     Normal (c + Z.of_nat (length (List.filter (newly_blocked B) els)))).
Proof.
  intros HA HB. revert c. induction els as [|el els IH]; intros c.
  - simpl. f_equal. f_equal. lia.
  - cbn [forEach_video List.filter]. csimpl. unfold visit at 1.
    destruct (SELECTORS.videoRenderer el) eqn:Hv.
    + pose proof (filterVideo_count s A B el HA HB Hv) as Hc.
      destruct (filterVideo s el) as [el' r]. simpl in Hc. subst r.
      rewrite IH. cbn [fst]. f_equal. f_equal.
      destruct (newly_blocked B el); cbn [length]; lia.
    + rewrite IH. f_equal.
      assert (newly_blocked B el = false) as ->
        by (unfold newly_blocked; by rewrite Hv).
      done.
Qed.

(** X2.  The number a pass of the video loop ends with, under settings
    with both keyword lists: the number of video renderers of the page
    that did not carry the marker and whose rendered texts (title, space,
    channel name) contain a blocked keyword.  Videos that carry the
    marker, videos without a title, and elements that are no video
    renderers add nothing, and the loop never throws. *)
Theorem forEach_video_counts_newly_blocked (enabled : option bool)
    (st : option Stats) (A B : list string) (els : list Element) :
  let s := {| focusModeEnabled := enabled; allowedKeywords := Some A;
              blockedKeywords := Some B; stats := st |} in
  (forEach_video s els 0).2
  = Normal (Z.of_nat (length (List.filter (newly_blocked B) els))) ∧
  (∀ el, newly_blocked B el = true ↔
     SELECTORS.videoRenderer el = true ∧ ¬ processed el ∧
     ∃ title, title_text el = Some title ∧
       contains_any (title +:+ " " +:+ default "" (channel_text el)) B).
Proof.
  intros s. split.
  - by rewrite (forEach_video_count s A B).
  - intros el. unfold newly_blocked, video_text.
    rewrite !andb_true_iff, negb_true_iff, bool_decide_eq_false.
    destruct (title_text el) as [title|]; cbn [fmap option_fmap option_map].
    + rewrite matches_any_true. split.
      * intros [[Hv Hp] Hc]. split_and!; [done..|]. by exists title.
      * intros (Hv & Hp & title' & [= <-] & Hc). done.
    + split; [by intros [_ ?] | by intros (_ & _ & title & ? & _)].
Qed.

Lemma newly_blocked_same_texts (B : list string) (el el' : Element) :
  same_node el el' → ¬ processed el → ¬ processed el' →
  newly_blocked B el' = newly_blocked B el.
Proof.
  intros Hn Hp Hp'. destruct (same_node_selectors _ _ Hn) as (_&_&_&Hv&_).
  destruct Hn as (_ & _ & Hti & Hch & _).
  unfold newly_blocked, video_text.
  by rewrite Hv, Hti, Hch, !bool_decide_eq_false_2.
Qed.

Lemma filter_length_Forall2 (R : Element → Element → Prop)
    (f : Element → bool) (els els' : list Element) :
  (∀ el el', R el el' → f el' = f el) →
  Forall2 R els els' →
  length (List.filter f els') = length (List.filter f els).
Proof.
  intros Hf Hels. induction Hels as [|el el' els els' HR _ IH]; [done|].
  cbn [List.filter]. rewrite (Hf _ _ HR). destruct (f el); simpl; by rewrite IH.
Qed.

(** What a pass of [filterVideos] does to the stored blocked count, with
    both lists in place and a working store that holds a settings
    object. *)
Lemma filterVideos_stored_count (w : World) (A B : list string)
    (stored : Settings) :
  allowedKeywords (settings w) = Some A →
  blockedKeywords (settings w) = Some B →
  get_rejects (sync w) = false → set_rejects (sync w) = false →
  focusSettings (sync w) = Some stored →
  let c := Z.of_nat (length (List.filter (newly_blocked B)
                               (elements (document w)))) in
  let w1 := (filterVideos w).2 in
  stored_blockedCount w1 = stored_blockedCount w + c ∧
  settings w1 = settings w ∧
  elements (document w1) = visit (settings w) <$> elements (document w) ∧
  get_rejects (sync w1) = false ∧ set_rejects (sync w1) = false ∧
  is_Some (focusSettings (sync w1)).
Proof.
  intros HA HB Hg Hs Hf c w1. subst w1. rewrite filterVideos_unfold.
  rewrite (forEach_video_count (settings w) A B) by done.
  rewrite Z.add_0_l. fold c.
  unfold stored_blockedCount. case_bool_decide as Hc.
  - unfold updateBlockedCount. rewrite (update_stored_some _ _ stored);
      cbn [sync set_document]; [|done..].
    cbn [snd sync set_sync focusSettings settings document elements
         set_document set_elements get_rejects set_rejects].
    rewrite Hf. split_and!; try done. simpl.
    by destruct (stats stored) as [[? []]|].
  - cbn [snd sync set_document settings document elements set_elements].
    rewrite Hf. split_and!; try done. lia.
Qed.

(** X3.  Navigation makes the script count the same videos again.  On a
    page whose elements carry no marker, with both keyword lists in place
    and a working store that holds a settings object, a pass of
    [filterVideos] adds to the stored blocked count the number [c] of
    video renderers whose texts contain a blocked keyword; after a
    ['yt-navigate-finish'] event on the same elements the next pass adds
    [c] once more, although the videos it hides were hidden already.  *)
Theorem navigation_counts_blocked_again (w : World) (A B : list string)
    (stored : Settings) :
  allowedKeywords (settings w) = Some A →
  blockedKeywords (settings w) = Some B →
  get_rejects (sync w) = false → set_rejects (sync w) = false →
  focusSettings (sync w) = Some stored →
  Forall (λ el, ¬ processed el) (elements (document w)) →
  let c := Z.of_nat (length (List.filter (newly_blocked B)
                               (elements (document w)))) in
  let w1 := (filterVideos w).2 in
  let w2 := step Navigate w1 in
  let w3 := (filterVideos w2).2 in
  stored_blockedCount w1 = stored_blockedCount w + c ∧
  stored_blockedCount w3 = stored_blockedCount w + 2 * c.
Proof.
  intros HA HB Hg Hs Hf Hun c w1 w2 w3.
  destruct (filterVideos_stored_count w A B stored HA HB Hg Hs Hf)
    as (Hc1 & Hs1 & He1 & Hg1 & Hss1 & [stored1 Hf1]).
  fold c w1 in Hc1, Hs1, He1, Hg1, Hss1, Hf1.
  assert (Hw2 : w2 = set_document (set_elements clear_markers) w1)
    by (subst w2; unfold step; cbn [handler]; by rewrite onNavigate_run).
  assert (Hrel : Forall2 (λ el el2, same_node el el2 ∧ ¬ processed el2)
                   (elements (document w)) (elements (document w2))).
  { rewrite Hw2. cbn [document set_document elements set_elements].
    rewrite He1.
    pose proof (clear_markers_Forall2 (visit (settings w) <$> elements (document w))) as H.
    apply Forall2_fmap_l in H. eapply Forall2_impl; [exact H|].
    intros el el2 (Hn & Hcl & Hth & Hm). cbn beta in *. split.
    - eapply same_node_trans; [|exact Hn]. by destruct (visit_fields (settings w) el).
    - unfold processed. by rewrite Hm. }
  assert (Hc2 : Z.of_nat (length (List.filter (newly_blocked B)
                                    (elements (document w2)))) = c).
  { subst c. f_equal.
    assert (Hrel' : Forall2 (λ el el2, same_node el el2 ∧ ¬ processed el ∧ ¬ processed el2)
                      (elements (document w)) (elements (document w2))).
    { apply Forall2_same_length_lookup. 
      pose proof (Forall2_length _ _ _ Hrel) as Hlen. split; [done|].
      intros i el el2 Hi Hi2.
      destruct (Forall2_lookup_lr _ _ _ _ _ _ Hrel Hi Hi2) as (?&?).
      split_and!; try done. by eapply (proj1 (Forall_lookup _ _) Hun). }
    eapply filter_length_Forall2; [|exact Hrel'].
    intros el el2 (Hn & Hp & Hp2). by apply newly_blocked_same_texts. }
  assert (HA2 : allowedKeywords (settings w2) = Some A)
    by (rewrite Hw2; cbn [settings set_document]; by rewrite Hs1).
  assert (HB2 : blockedKeywords (settings w2) = Some B)
    by (rewrite Hw2; cbn [settings set_document]; by rewrite Hs1).
  assert (Hsync2 : sync w2 = sync w1) by (by rewrite Hw2).
  destruct (filterVideos_stored_count w2 A B stored1 HA2 HB2)
    as (Hc3 & Hs3 & He3 & _); [by rewrite Hsync2..|].
  fold w3 in Hc3, Hs3, He3. rewrite Hc2 in Hc3.
  split; [done|].
  rewrite Hc3. unfold stored_blockedCount at 1. rewrite Hsync2.
  fold (stored_blockedCount w1). lia.
Qed.

Lemma navigation_counts_blocked_again_witness :
  let w1 := (filterVideos sample_world).2 in
  stored_blockedCount w1 = 3 + 1 ∧
  stored_blockedCount (filterVideos (step Navigate w1)).2 = 3 + 2 * 1.
Proof.
  apply (navigation_counts_blocked_again sample_world ["python"; "react"]
           ["prank"] sample_settings); try reflexivity.
  apply (bool_decide_unpack _). by vm_compute.
Defined.

(** * Nothing is taken back while focus mode is on *)

Lemma only_grows_refl (el : Element) : only_grows el el.
Proof. split; [apply grows_refl | done]. Qed.

Lemma only_grows_trans (a b c : Element) :
  only_grows a b → only_grows b c → only_grows a c.
Proof.
  intros [Hab Hn] [Hbc Hm]. split; [by eapply grows_trans | lia].
Qed.

Lemma only_grows_classList_add (c : string) (el : Element) :
  only_grows el (classList_add c el).
Proof. split; [apply grows_classList_add | done]. Qed.

Lemma filterVideo_only_grows (s : Settings) (el : Element) :
  only_grows el (filterVideo s el).1.
Proof.
  split; [apply filterVideo_grows|].
  unfold filterVideo, classify_and_mark. case_bool_decide; [done|]. simpl.
  destruct (title_text el); [|done].
  destruct (classifyContent _ _) as [[]|]; simpl; try done.
  unfold markAsEducational. case_match; [done|].
  unfold badge_count. simpl. destruct (thumbnail el); simpl; lia.
Qed.

Lemma Forall2_only_grows_refl (els : list Element) :
  Forall2 only_grows els els.
Proof. apply Forall_Forall2_diag, Forall_forall. intros el _. apply only_grows_refl. Qed.

Lemma shorts_pass_only_grows (els : list Element) :
  Forall2 only_grows els (shorts_pass els).
Proof.
  unfold shorts_pass.
  eapply (Forall2_trans _ _ _ _ _ _ only_grows_trans);
    [|apply forEach_matching_Forall2;
      [intros; apply only_grows_refl | intros; apply only_grows_classList_add]].
  eapply (Forall2_trans _ _ _ _ _ _ only_grows_trans);
    [|apply first_matching_Forall2;
      [intros; apply only_grows_refl | intros; apply only_grows_classList_add]].
  apply forEach_matching_Forall2;
    [intros; apply only_grows_refl | intros; apply only_grows_classList_add].
Qed.

Lemma scanAndFilter_only_grows (w : World) :
  truthy (focusModeEnabled (settings w)) = true →
  Forall2 only_grows (elements (document w))
    (elements (document (scanAndFilter w).2)).
Proof.
  intros Hon. destruct (scanAndFilter_enabled w Hon) as [-> _]. simpl.
  eapply (Forall2_trans _ _ _ _ _ _ only_grows_trans);
    [apply shorts_pass_only_grows|].
  apply forEach_video_Forall2; [apply only_grows_refl|].
  intros el. apply filterVideo_only_grows.
Qed.

Lemma checkForHomepage_only_grows (w : World) :
  truthy (focusModeEnabled (settings w)) = true →
  Forall2 only_grows (elements (document w))
    (elements (document (checkForHomepage w).2)).
Proof.
  intros Hon. rewrite checkForHomepage_run. destruct (_ && _).
  - unfold showFocusDashboard. run_M.
    apply first_matching_Forall2;
      [intros; apply only_grows_refl | intros; apply only_grows_classList_add].
  - rewrite hideFocusDashboard_run. simpl. rewrite Hon. simpl.
    apply Forall2_only_grows_refl.
Qed.

Lemma settled_scan_only_grows (w : World) :
  truthy (focusModeEnabled (settings w)) = true →
  Forall2 only_grows (elements (document w))
    (elements (document (settled_scan w).2)).
Proof.
  intros Hon. pose proof (scanAndFilter_only_grows w Hon) as Hscan.
  pose proof (scanAndFilter_stays_on w Hon) as Hon2.
  unfold settled_scan, mbind, M_bind.
  destruct (scanAndFilter w) as [[[]|e] w2]; simpl in *; [|done].
  eapply (Forall2_trans _ _ _ _ _ _ only_grows_trans);
    [exact Hscan | by apply checkForHomepage_only_grows].
Qed.

(** X4.  While focus mode is on the script takes nothing back.  Unless an
    event runs [removeAllFilters] or the disabled branch of
    [hideFocusDashboard] (a scan or a click on the overlay's search button
    while the switch is off, a settings update that switches it off), every
    element is afterwards the same node with at least the classes and at
    least the badges it had: an element that was hidden stays hidden.  This
    holds for navigation too, which removes markers only: a video hidden
    for its old title is hidden still when the script visits it again,
    whatever its texts have become and whatever the settings say. *)
Theorem step_never_unhides (ev : Event) (w : World) :
  takes_back ev w = false →
  Forall2 only_grows (elements (document w)) (elements (document (step ev w))) ∧
  (∀ i el, elements (document w) !! i = Some el → display el = hidden →
     ∃ el', elements (document (step ev w)) !! i = Some el' ∧
            display el' = hidden ∧
            ∀ s title channel,
              display (filterVideo s (host_set_texts title channel el')).1
              = hidden).
Proof.
  intros Hev.
  assert (Hgrow : Forall2 only_grows (elements (document w))
                    (elements (document (step ev w)))).
  { unfold step. destruct ev as [| | | |[s|]|]; simpl in Hev; cbn [handler].
    - unfold mbind, M_bind, get_world.
      destruct (truthy (focusModeEnabled (settings w))) eqn:Hon;
        [by apply scanAndFilter_only_grows | apply Forall2_only_grows_refl].
    - apply negb_false_iff in Hev. by apply scanAndFilter_only_grows.
    - apply negb_false_iff in Hev. by apply settled_scan_only_grows.
    - rewrite onNavigate_run. cbn [snd document set_document elements set_elements].
      eapply Forall2_impl; [apply clear_markers_Forall2|].
      intros el el1 (Hn & Hcl & Hth & _). split; [split; [done | by rewrite Hcl]|].
      unfold badge_count. by rewrite Hth.
    - apply negb_false_iff in Hev. unfold handleMessage.
      unfold mbind at 1, M_bind at 1, modify. rewrite Hev.
      by apply (settled_scan_only_grows (set_settings s w)).
    - apply Forall2_only_grows_refl.
    - apply negb_false_iff in Hev. unfold mbind, M_bind, get_world.
      destruct (dashboard (document w)); [|apply Forall2_only_grows_refl].
      destruct (search_box (document w)); [|apply Forall2_only_grows_refl].
      rewrite hideFocusDashboard_run. simpl. rewrite Hev. simpl.
      apply Forall2_only_grows_refl. }
  split; [exact Hgrow|].
  intros i el Hi Hd.
  destruct (Forall2_lookup_l _ _ _ _ _ Hgrow Hi) as (el' & Hi' & [[_ Hsub] _]).
  assert (Hh : "focus-hidden" ∈ classList el).
  { unfold display, SELECTORS.focus_hidden, classList_contains in Hd.
    case_bool_decide; [done|]. by destruct (has_badge el). }
  assert (Hhid : ∀ x, "focus-hidden" ∈ classList x → display x = hidden).
  { intros x Hx. unfold display, SELECTORS.focus_hidden, classList_contains.
    by rewrite bool_decide_eq_true_2. }
  exists el'. split; [done|]. split; [apply Hhid; by apply Hsub|].
  intros s title channel. apply Hhid.
  destruct (filterVideo_grows s (host_set_texts title channel el')) as [_ Hsub'].
  apply Hsub'. cbn [classList host_set_texts]. by apply Hsub.
Qed.

Lemma step_never_unhides_witness :
  Forall2 only_grows (elements (document (step SettledScan sample_world)))
    (elements (document (step DebouncedScan (step SettledScan sample_world)))).
Proof.
  apply (step_never_unhides DebouncedScan (step SettledScan sample_world)).
  reflexivity.
Defined.

(** * Keyword changes and the videos already marked *)

Lemma step_stays_enabled (ev : Event) (w : World) (s : Settings) (p : Page) :
  stays_enabled ev = true →
  truthy (focusModeEnabled (settings w)) = true →
  is_Some (allowedKeywords (settings w)) →
  is_Some (blockedKeywords (settings w)) →
  document w = enable_page s p →
  document (step ev w) = document w ∧
  truthy (focusModeEnabled (settings (step ev w))) = true ∧
  is_Some (allowedKeywords (settings (step ev w))) ∧
  is_Some (blockedKeywords (settings (step ev w))).
Proof.
  intros Hev Hon HA HB Hdoc.
  assert (Hscan : ∀ ev', is_scan ev' = true →
            document (step ev' w) = document w ∧
            truthy (focusModeEnabled (settings (step ev' w))) = true ∧
            is_Some (allowedKeywords (settings (step ev' w))) ∧
            is_Some (blockedKeywords (settings (step ev' w)))).
  { intros ev' Hev'.
    destruct (step_scan_keeps_page ev' w s p Hev' Hon HA HB Hdoc)
      as [Hd (H1 & H2 & H3)].
    by rewrite H1, H2, H3. }
  destruct ev as [| | | |[s'|]|]; try discriminate Hev; try by apply Hscan.
  - simpl in Hev. apply andb_true_iff in Hev as [Hev HB'].
    apply andb_true_iff in Hev as [Hon' HA'].
    apply bool_decide_eq_true in HA', HB'.
    destruct (handleMessage_enable_policy s' w Hon') as (H1 & H2 & H3).
    rewrite H1, H2, H3. split_and!; try done.
    rewrite handleMessage_enable, Hdoc by done. apply enable_page_again.
  - done.
Qed.

(** X5.  A change of the keyword lists does not reach the videos already
    marked.  After a settings update that has focus mode on and carries
    both lists, the page stays exactly as that update left it under any
    sequence of polls, debounced and settled scans and further settings
    updates that have the switch on and carry lists, whatever keywords the
    later lists hold: every video renderer carries the marker, so no later
    pass classifies it again.  Only navigation or switching focus mode off
    makes a new list count for them. *)
Theorem marked_page_ignores_new_keywords (w0 : World) (s : Settings)
    (evs : list Event) :
  truthy (focusModeEnabled s) = true →
  is_Some (allowedKeywords s) → is_Some (blockedKeywords s) →
  Forall (λ ev, stays_enabled ev = true) evs →
  let w1 := step (Incoming (SETTINGS_UPDATED s)) w0 in
  document (run evs w1) = document w1 ∧
  all_videos_processed (elements (document w1)).
Proof.
  intros Hon HA HB Hevs w1.
  assert (Hdoc : document w1 = enable_page s (document w0))
    by (by apply handleMessage_enable).
  destruct (handleMessage_enable_policy s w0 Hon) as (H1 & H2 & H3).
  fold w1 in H1, H2, H3.
  assert (Hon1 : truthy (focusModeEnabled (settings w1)) = true) by by rewrite H1.
  assert (HA1 : is_Some (allowedKeywords (settings w1))) by by rewrite H2.
  assert (HB1 : is_Some (blockedKeywords (settings w1))) by by rewrite H3.
  split.
  - clear H1 H2 H3. generalize dependent w1.
    induction Hevs as [|ev evs Hev _ IH]; intros w1 Hdoc Hon1 HA1 HB1; [done|].
    destruct (step_stays_enabled ev w1 s (document w0) Hev Hon1 HA1 HB1 Hdoc)
      as (Hd & Hon2 & HA2 & HB2).
    unfold run. simpl. fold (run evs (step ev w1)).
    rewrite IH; [done| |done..]. by rewrite Hd.
  - rewrite Hdoc.
    destruct (enable_page_settled s (document w0)) as (_ & Hfix & _).
    unfold all_videos_processed.
    eapply Forall_impl; [exact Hfix|]. intros el Hel Hv. cbn beta in Hel.
    specialize (Hel s). unfold visit in Hel. rewrite Hv in Hel.
    rewrite <- Hel. apply filterVideo_marks.
Qed.

Lemma marked_page_ignores_new_keywords_witness :
  let w1 := step (Incoming (SETTINGS_UPDATED sample_settings)) sample_world in
  let s' := {| focusModeEnabled := Some true;
               allowedKeywords := Some ["sourdough"];
               blockedKeywords := Some ["python"]; stats := None |} in
  document (run [Poll; Incoming (SETTINGS_UPDATED s'); SettledScan] w1)
  = document w1.
Proof.
  apply (marked_page_ignores_new_keywords sample_world sample_settings);
    [reflexivity | by eexists | by eexists |].
  repeat constructor.
Defined.

(** * What switching off leaves behind *)

Lemma visit_thumbnail (s : Settings) (el : Element) :
  thumbnail (visit s el) = thumbnail el ∨
  (has_badge el = false ∧
   thumbnail (visit s el)
   = (λ t, {| style_position := Some "relative";
              edu_badges := S (edu_badges t) |}) <$> thumbnail el).
Proof.
  unfold visit. destruct (SELECTORS.videoRenderer el); [|by left].
  unfold filterVideo, classify_and_mark. case_bool_decide; [by left|]. simpl.
  destruct (title_text el); [|by left].
  destruct (classifyContent _ _) as [[]|]; simpl; try by left.
  unfold markAsEducational.
  change (has_badge (setAttribute "data-focus-processed" "true" el))
    with (has_badge el).
  destruct (has_badge el); [by left | by right].
Qed.

Lemma restyle_same_but_style (s : Settings) (el : Element) :
  has_badge el = false → same_but_style el (restyle s el).
Proof.
  intros Hb. unfold same_but_style, restyle.
  cbn [tagName attributes classList title_text channel_text
       has_shorts_descendant in_home_browse thumbnail with_thumbnail
       reset_element removeAttribute set_attributes remove_badges
       set_thumbnail classList_remove set_classList].
  split_and!; try done.
  - unfold has_badge in Hb.
    destruct (visit_thumbnail s el) as [-> | [_ ->]];
      destruct (thumbnail el) as [[pos n]|]; simpl in *; try done.
    all: apply bool_decide_eq_false in Hb; f_equal.
    all: destruct n; [done | by destruct Hb].
  - destruct (visit_thumbnail s el) as [-> | [_ ->]];
      destruct (thumbnail el) as [[pos n]|]; simpl; auto.
Qed.

Lemma reset_enable_page (s : Settings) (p : Page) :
  Forall untouched (elements p) →
  reset_element <$> elements (enable_page s p) = restyle s <$> elements p.
Proof.
  intros Hels.
  assert (H1 : reset_element <$> (visit s <$> shorts_pass (elements p))
               = restyle s <$> elements p).
  { rewrite <- list_fmap_compose.
    rewrite (shorts_pass_absorb (reset_element ∘ visit s)).
    - apply Forall_fmap_ext_1. eapply Forall_impl; [exact Hels|].
      intros el Hel. simpl. by apply reset_visit_untouched.
    - intros el. simpl.
      by rewrite visit_classList_add, reset_element_classList_add. }
  unfold enable_page. destruct (isHome p);
    cbn [elements set_dashboard set_elements]; [|done].
  by rewrite (fmap_first_matching_absorb reset_element)
    by apply reset_element_classList_add.
Qed.

(** X6.  Switching focus mode on and off again gives the page back, but
    for one inline style.  On a page whose elements show no trace of the
    script, after a settings update that has the switch on (with both
    lists) and one that has it off, every element has its tag, its
    attributes, its classes, its texts and its number of badges (none) as
    before; the only thing that may differ is [style.position] of a
    thumbnail, which stays ['relative'] where a badge had been added.  The
    overlay, if the first update created it, stays in the document with
    the class [hidden]. *)
Theorem disable_restores_all_but_style (w0 : World) (on off : Settings) :
  truthy (focusModeEnabled on) = true →
  is_Some (allowedKeywords on) → is_Some (blockedKeywords on) →
  truthy (focusModeEnabled off) = false →
  Forall untouched (elements (document w0)) →
  let w1 := step (Incoming (SETTINGS_UPDATED on)) w0 in
  let w2 := step (Incoming (SETTINGS_UPDATED off)) w1 in
  Forall2 same_but_style (elements (document w0)) (elements (document w2)) ∧
  dashboard_shown (document w2) = false ∧
  (isHome (document w0) = true → is_Some (dashboard (document w2))).
Proof.
  intros Hon HA HB Hoff Hels w1 w2. subst w1 w2.
  rewrite handleMessage_disable, handleMessage_enable by done.
  split_and!.
  - unfold disable_page at 1. cbn [elements set_dashboard set_elements].
    rewrite reset_enable_page by done.
    apply Forall2_fmap_r, Forall_Forall2_diag.
    eapply Forall_impl; [exact Hels|]. intros el (_ & _ & Hb).
    by apply restyle_same_but_style.
  - unfold disable_page, dashboard_shown. cbn [dashboard set_dashboard].
    destruct (dashboard _) as [cl|]; cbn [fmap option_fmap option_map]; [|done].
    apply bool_decide_eq_false. intros Hn. apply Hn.
    apply elem_of_union_r. by apply elem_of_singleton.
  - intros Hh. unfold disable_page, enable_page. rewrite Hh.
    cbn [dashboard set_dashboard set_elements fmap option_fmap option_map].
    by eexists.
Qed.

Lemma disable_restores_all_but_style_witness :
  Forall2 same_but_style (elements sample_page)
    (elements (document
       (step (Incoming (SETTINGS_UPDATED sample_disabled))
          (step (Incoming (SETTINGS_UPDATED sample_settings)) sample_world)))).
Proof.
  apply (disable_restores_all_but_style sample_world sample_settings
           sample_disabled); [reflexivity | by eexists | by eexists |
                              reflexivity |].
  apply (bool_decide_unpack _). by vm_compute.
Defined.

(** * What no event does to an element *)

Section step_relation.

Variable R : Element → Element → Prop.
Hypothesis R_refl : ∀ el, R el el.
Hypothesis R_trans : ∀ a b c, R a b → R b c → R a c.
Hypothesis R_add : ∀ el, R el (classList_add "focus-hidden" el).
Hypothesis R_remove : ∀ el, R el (classList_remove "focus-hidden" el).
Hypothesis R_callback : ∀ s el, R el (filterVideo s el).1.
Hypothesis R_badges : ∀ el, R el (remove_badges el).
Hypothesis R_marker : ∀ el, R el (removeAttribute "data-focus-processed" el).

Lemma Forall2_R_refl (els : list Element) : Forall2 R els els.
Proof. apply Forall_Forall2_diag, Forall_forall. intros el _. apply R_refl. Qed.

Lemma forEach_matching_R (sel : Element → bool) (f : Element → Element)
    (els : list Element) :
  (∀ el, R el (f el)) → Forall2 R els (forEach_matching sel f els).
Proof. intros Hf. apply forEach_matching_Forall2; auto. Qed.

Lemma first_matching_R (sel : Element → bool) (f : Element → Element)
    (els : list Element) :
  (∀ el, R el (f el)) → Forall2 R els (first_matching sel f els).
Proof. intros Hf. apply first_matching_Forall2; auto. Qed.

Lemma shorts_pass_R (els : list Element) : Forall2 R els (shorts_pass els).
Proof.
  unfold shorts_pass.
  set (els1 := forEach_matching SELECTORS.shorts
                 (classList_add "focus-hidden") els).
  set (els2 := first_matching SELECTORS.shortsTab
                 (classList_add "focus-hidden") els1).
  assert (H1 : Forall2 R els els1) by by apply forEach_matching_R.
  assert (H2 : Forall2 R els1 els2) by by apply first_matching_R.
  eapply (Forall2_trans _ _ _ _ _ _ R_trans); [exact H1|].
  eapply (Forall2_trans _ _ _ _ _ _ R_trans); [exact H2|].
  by apply forEach_matching_R.
Qed.

Lemma reset_pass_R (els : list Element) : Forall2 R els (reset_pass els).
Proof.
  unfold reset_pass.
  set (els1 := forEach_matching SELECTORS.focus_hidden
                 (classList_remove "focus-hidden") els).
  assert (H1 : Forall2 R els els1) by by apply forEach_matching_R.
  assert (H2 : Forall2 R els1 (remove_badges <$> els1)).
  { apply Forall2_fmap_r, Forall_Forall2_diag, Forall_forall.
    intros el _. apply R_badges. }
  eapply (Forall2_trans _ _ _ _ _ _ R_trans); [exact H1|].
  eapply (Forall2_trans _ _ _ _ _ _ R_trans); [exact H2|].
  by apply forEach_matching_R.
Qed.

Lemma hideFocusDashboard_R (w : World) :
  Forall2 R (elements (document w))
    (elements (document (hideFocusDashboard w).2)).
Proof.
  rewrite hideFocusDashboard_run. simpl. destruct (truthy _); simpl.
  - apply Forall2_R_refl.
  - by apply first_matching_R.
Qed.

Lemma removeAllFilters_R (w : World) :
  Forall2 R (elements (document w))
    (elements (document (removeAllFilters w).2)).
Proof.
  rewrite removeAllFilters_run. simpl. destruct (truthy _); simpl.
  - apply reset_pass_R.
  - eapply (Forall2_trans _ _ _ _ _ _ R_trans); [apply reset_pass_R|].
    by apply first_matching_R.
Qed.

Lemma scanAndFilter_R (w : World) :
  Forall2 R (elements (document w)) (elements (document (scanAndFilter w).2)).
Proof.
  destruct (truthy (focusModeEnabled (settings w))) eqn:Hon.
  - destruct (scanAndFilter_enabled w Hon) as [-> _]. simpl.
    eapply (Forall2_trans _ _ _ _ _ _ R_trans); [apply shorts_pass_R|].
    by apply forEach_video_Forall2.
  - rewrite scanAndFilter_disabled by done. apply removeAllFilters_R.
Qed.

Lemma checkForHomepage_R (w : World) :
  Forall2 R (elements (document w))
    (elements (document (checkForHomepage w).2)).
Proof.
  rewrite checkForHomepage_run. destruct (_ && _).
  - unfold showFocusDashboard. run_M. by apply first_matching_R.
  - apply hideFocusDashboard_R.
Qed.

Lemma settled_scan_R (w : World) :
  Forall2 R (elements (document w)) (elements (document (settled_scan w).2)).
Proof.
  pose proof (scanAndFilter_R w) as Hscan.
  unfold settled_scan, mbind, M_bind.
  destruct (scanAndFilter w) as [[[]|e] w2]; simpl in *; [|done].
  eapply (Forall2_trans _ _ _ _ _ _ R_trans);
    [exact Hscan | apply checkForHomepage_R].
Qed.

(** A relation that every mutation of the script respects holds between
    the elements before and after any event. *)
Lemma step_R (ev : Event) (w : World) :
  Forall2 R (elements (document w)) (elements (document (step ev w))).
Proof.
  unfold step. destruct ev as [| | | |[s|]|]; cbn [handler].
  - unfold mbind, M_bind, get_world.
    destruct (truthy (focusModeEnabled (settings w)));
      [apply scanAndFilter_R | apply Forall2_R_refl].
  - apply scanAndFilter_R.
  - apply settled_scan_R.
  - rewrite onNavigate_run. by apply forEach_matching_R.
  - unfold handleMessage. unfold mbind at 1, M_bind at 1, modify.
    destruct (truthy (focusModeEnabled s)).
    + apply (settled_scan_R (set_settings s w)).
    + apply (removeAllFilters_R (set_settings s w)).
  - apply Forall2_R_refl.
  - unfold mbind, M_bind, get_world.
    destruct (dashboard (document w)); [|apply Forall2_R_refl].
    destruct (search_box (document w)); [|apply Forall2_R_refl].
    apply hideFocusDashboard_R.
Qed.

End step_relation.

Lemma run_snoc (evs : list Event) (ev : Event) (w : World) :
  run (evs ++ [ev]) w = step ev (run evs w).
Proof. unfold run. by rewrite foldl_app. Qed.

(** X8.  No thumbnail ever carries more than one badge.  If every element
    of the page has at most one badge (as on a page the script has not
    been to, where there is none), then so it is after any sequence of
    events: [markAsEducational] adds a badge only where it finds none, and
    neither navigation, which takes the markers away and so lets every
    video be classified again, nor a reset in between changes that. *)
Theorem run_keeps_single_badge (evs : list Event) (w : World) :
  Forall (λ el, (badge_count el ≤ 1)%nat) (elements (document w)) →
  Forall (λ el, (badge_count el ≤ 1)%nat) (elements (document (run evs w))).
Proof.
  set (R := λ el el' : Element,
              (badge_count el ≤ 1)%nat → (badge_count el' ≤ 1)%nat).
  assert (Hrefl : ∀ el, R el el) by (intros el Hel; exact Hel).
  assert (Htrans : ∀ a b c, R a b → R b c → R a c)
    by (intros a b c Hab Hbc Ha; auto).
  assert (Hadd : ∀ el, R el (classList_add "focus-hidden" el))
    by (intros el Hel; exact Hel).
  assert (Hremove : ∀ el, R el (classList_remove "focus-hidden" el))
    by (intros el Hel; exact Hel).
  assert (Hcallback : ∀ s el, R el (filterVideo s el).1).
  { intros s el Hel. unfold filterVideo, classify_and_mark.
    case_bool_decide; [done|]. simpl.
    destruct (title_text el); [|done].
    destruct (classifyContent _ _) as [[]|]; simpl; try done.
    unfold markAsEducational.
    change (has_badge (setAttribute "data-focus-processed" "true" el))
      with (has_badge el).
    destruct (has_badge el) eqn:Hb; [done|].
    unfold has_badge in Hb. unfold badge_count in *. simpl.
    destruct (thumbnail el) as [[pos n]|]; simpl in *; [|lia].
    apply bool_decide_eq_false in Hb. destruct n; [lia | by destruct Hb]. }
  assert (Hbadges : ∀ el, R el (remove_badges el)).
  { intros el _. unfold badge_count. simpl. destruct (thumbnail el); simpl; lia. }
  assert (Hmarker : ∀ el, R el (removeAttribute "data-focus-processed" el))
    by (intros el Hel; exact Hel).
  intros Hels. induction evs as [|ev evs IH] using rev_ind; [done|].
  rewrite run_snoc.
  pose proof (step_R R Hrefl Htrans Hadd Hremove Hcallback Hbadges Hmarker
                ev (run evs w)) as Hstep.
  apply Forall_lookup. intros i el' Hi'.
  destruct (Forall2_lookup_r _ _ _ _ _ Hstep Hi') as (el & Hi & HR).
  apply HR. by eapply (proj1 (Forall_lookup _ _) IH).
Qed.

Lemma run_keeps_single_badge_witness :
  Forall (λ el, (badge_count el ≤ 1)%nat)
    (elements (document
       (run [SettledScan; Navigate; SettledScan] sample_world))).
Proof.
  apply (run_keeps_single_badge [SettledScan; Navigate; SettledScan]
           sample_world).
  repeat constructor.
Defined.

(** * The stat updates, composed and failing *)

(** X9.  What a stat update does when the store fails.  Neither
    [updateBlockedCount] nor [updateEducationalTime] (the two instances of
    [update_stored]) ever throws.  If the
    read is rejected, or the write is rejected while a settings object is
    stored, the update changes nothing at all.  But if nothing is stored
    and the write is rejected, the update has already been made on the
    script's own settings object, which stands in for the stored one: the
    in-memory stats then carry a number that was never saved. *)
Theorem stat_update_when_store_fails (change : Settings → Settings)
    (w : World) :
  (update_stored change w).1 = Normal tt ∧
  (get_rejects (sync w) = true → update_stored change w = (Normal tt, w)) ∧
  (get_rejects (sync w) = false → set_rejects (sync w) = true →
   is_Some (focusSettings (sync w)) → update_stored change w = (Normal tt, w)) ∧
  (get_rejects (sync w) = false → set_rejects (sync w) = true →
   focusSettings (sync w) = None →
   update_stored change w = (Normal tt, set_settings (change (settings w)) w)).
Proof.
  split_and!; try done.
  - by destruct (update_stored_returns change w) as (w' & -> & _).
  - intros Hg. unfold update_stored, update_call, update_resume, storage_get_call,
    storage_answer, await, storage_get. run_M. by rewrite Hg.
  - intros Hg Hs [stored Hf]. unfold update_stored, update_call, update_resume, storage_get_call,
    storage_answer, await, storage_get, storage_set.
    run_M. rewrite Hg, Hf. simpl. by rewrite Hs.
  - intros Hg Hs Hf. unfold update_stored, update_call, update_resume, storage_get_call,
    storage_answer, await, storage_get, storage_set.
    run_M. rewrite Hg, Hf. simpl. by rewrite Hs.
Qed.

Lemma add_blockedCount_add (c1 c2 : Z) (s : Settings) :
  add_blockedCount c2 (add_blockedCount c1 s) = add_blockedCount (c1 + c2) s.
Proof.
  unfold add_blockedCount. simpl. by rewrite Z.add_assoc.
Qed.

Lemma add_educationalMinutes_add (m1 m2 : Z) (s : Settings) :
  add_educationalMinutes m2 (add_educationalMinutes m1 s)
  = add_educationalMinutes (m1 + m2) s.
Proof.
  unfold add_educationalMinutes. simpl. by rewrite Z.add_assoc.
Qed.

Lemma add_stats_comm (c m : Z) (s : Settings) :
  add_educationalMinutes m (add_blockedCount c s)
  = add_blockedCount c (add_educationalMinutes m s).
Proof. done. Qed.

Lemma update_stored_twice (f g : Settings → Settings) (w : World)
    (stored : Settings) :
  get_rejects (sync w) = false → set_rejects (sync w) = false →
  focusSettings (sync w) = Some stored →
  (update_stored g (update_stored f w).2).2
  = set_sync {| focusSettings := Some (g (f stored));
                get_rejects := false; set_rejects := false;
                set_log := set_log (sync w) ++ [f stored; g (f stored)] |} w.
Proof.
  intros Hg Hs Hf.
  rewrite (update_stored_some f w stored) by done. cbn [snd].
  rewrite (update_stored_some g _ (f stored)) by done.
  cbn [snd set_sync sync document settings lastTrackTime now set_log].
  by rewrite <- app_assoc.
Qed.

(** X10.  Stat updates add up, in either order.  With a working store
    that holds a settings object, two blocked-count updates run one
    after the other leave the stored object as one update by the sum
    would, an update of the blocked count and one of the educational
    minutes leave the same stored object whichever runs first, and the
    switch and the keyword lists of the stored object are never touched.
    The script's own settings object is left alone as well. *)
Theorem stat_updates_add_up (w : World) (stored : Settings) (c1 c2 m : Z) :
  get_rejects (sync w) = false → set_rejects (sync w) = false →
  focusSettings (sync w) = Some stored →
  let twice := (updateBlockedCount c2 (updateBlockedCount c1 w).2).2 in
  let bm := (updateEducationalTime m (updateBlockedCount c1 w).2).2 in
  let mb := (updateBlockedCount c1 (updateEducationalTime m w).2).2 in
  focusSettings (sync twice) = Some (add_blockedCount (c1 + c2) stored) ∧
  stored_blockedCount twice = stored_blockedCount w + c1 + c2 ∧
  focusSettings (sync bm) = focusSettings (sync mb) ∧
  stored_blockedCount bm = stored_blockedCount w + c1 ∧
  stored_educationalMinutes bm = stored_educationalMinutes w + m ∧
  same_policy stored (add_educationalMinutes m (add_blockedCount c1 stored)) ∧
  settings twice = settings w ∧ settings bm = settings w ∧
  settings mb = settings w.
Proof.
  intros Hg Hs Hf twice bm mb. subst twice bm mb.
  unfold updateBlockedCount, updateEducationalTime.
  rewrite !(update_stored_twice _ _ w stored) by done.
  unfold stored_blockedCount, stored_educationalMinutes.
  cbn [sync set_sync focusSettings settings]. rewrite Hf.
  rewrite add_blockedCount_add.
  split_and!; try done.
  - simpl. destruct (stats stored) as [[? []]|]; simpl; lia.
  - simpl. by destruct (stats stored) as [[? []]|].
  - simpl. by destruct (stats stored) as [[[] ?]|].
Qed.

Lemma stat_updates_add_up_witness :
  stored_blockedCount
    (updateBlockedCount 4 (updateBlockedCount 2 sample_world).2).2
  = 3 + 2 + 4.
Proof.
  apply (stat_updates_add_up sample_world sample_settings 2 4 0);
    reflexivity.
Defined.

(** * The time tracker between reports *)

(** X11.  The time tracker keeps its baseline until it reports.  A check
    that reports nothing (the page is no watch page, there is no heading,
    the heading contains no allowed keyword, or less than a full minute
    has passed since the baseline) leaves the world as it is, the baseline
    included.  So the time before such a check is not lost: on a watch
    page with an educational heading, a check less than a minute after the
    baseline followed by a check at [t2], a minute or more after the
    baseline, reports the whole minutes from the baseline to [t2] and moves
    the baseline to [t2]. *)
Theorem trackEducationalTime_keeps_baseline (w : World) (heading : string)
    (A : list string) (t1 t2 : Z) :
  includes (pathname (document w)) "/watch" = true →
  watch_heading (document w) = Some heading →
  allowedKeywords (settings w) = Some A →
  contains_any heading A →
  t1 - lastTrackTime w < 60000 → 60000 ≤ t2 - lastTrackTime w →
  get_rejects (sync w) = false → set_rejects (sync w) = false →
  is_Some (focusSettings (sync w)) →
  let w1 := (trackEducationalTime (at_time t1 w)).2 in
  let w2 := (trackEducationalTime (at_time t2 w1)).2 in
  w1 = at_time t1 w ∧
  stored_educationalMinutes w2
    = stored_educationalMinutes w + (t2 - lastTrackTime w) `div` 60000 ∧
  lastTrackTime w2 = t2 ∧
  (∀ w0, includes (pathname (document w0)) "/watch" = false
         ∨ watch_heading (document w0) = None
         ∨ (∃ h A0, watch_heading (document w0) = Some h ∧
                    allowedKeywords (settings w0) = Some A0 ∧
                    ¬ contains_any h A0) →
         trackEducationalTime w0 = (Normal tt, w0)).
Proof.
  intros Hpath Hh HA Hin Ht1 Ht2 Hg Hs [stored Hf] w1 w2.
  assert (H1 : w1 = at_time t1 w).
  { subst w1. rewrite trackEducationalTime_alone.
    cbn [document settings at_time now lastTrackTime].
    rewrite Hpath, Hh, HA. cbv zeta.
    apply matches_any_true in Hin. rewrite Hin.
    rewrite bool_decide_eq_false_2; [done|].
    assert ((t1 - lastTrackTime w) `div` 60000 < 1); [|lia].
    apply Z.div_lt_upper_bound; lia. }
  split; [done|].
  assert (He : 1 ≤ (t2 - lastTrackTime w) `div` 60000).
  { apply Z.div_le_lower_bound; lia. }
  subst w2. rewrite H1.
  rewrite (trackEducationalTime_unfold _ heading A); try done.
  cbn [now lastTrackTime at_time snd set_lastTrackTime].
  split; [|split; [done|]].
  - unfold updateEducationalTime.
    rewrite (update_stored_some _ _ stored) by done.
    unfold stored_educationalMinutes.
    cbn [snd sync set_sync focusSettings at_time]. rewrite Hf. simpl.
    by destruct (stats stored) as [[[] ?]|].
  - intros w0 Hidle. rewrite trackEducationalTime_alone.
    destruct Hidle as [Hp | [Hn | (h & A0 & Hh0 & HA0 & Hno)]].
    + by rewrite Hp.
    + rewrite Hn. by destruct (negb (includes (pathname (document w0)) "/watch")).
    + rewrite Hh0, HA0. apply matches_any_false in Hno. cbv zeta. rewrite Hno.
      by destruct (negb (includes (pathname (document w0)) "/watch")).
Qed.

Lemma trackEducationalTime_keeps_baseline_witness :
  let w := sample_watch_world in
  let w1 := (trackEducationalTime (at_time 1040000 w)).2 in
  let w2 := (trackEducationalTime (at_time 1130000 w1)).2 in
  w1 = at_time 1040000 w ∧ stored_educationalMinutes w2 = 7 + 2.
Proof.
  cbv zeta.
  destruct (trackEducationalTime_keeps_baseline sample_watch_world
              "Learn React in 30 Minutes" ["python"; "react"] 1040000 1130000)
    as (H1 & H2 & _); try reflexivity.
  - apply matches_any_true. by vm_compute.
  - by vm_compute.
  - by eexists.
  - split; [exact H1 | exact H2].
Defined.

(** * The order of the keywords *)

Lemma matches_any_ext (text : string) (K K' : list string) :
  (∀ k, k ∈ K ↔ k ∈ K') → matches_any text K = matches_any text K'.
Proof.
  intros HK. unfold matches_any. apply eq_true_iff_eq.
  rewrite !existsb_exists. split; intros (k & Hin & Hk); exists k;
    (split; [|done]); apply list_elem_of_In, HK, list_elem_of_In, Hin.
Qed.

(** X12.  Only the keywords that occur in a list matter, not their order
    and not how often they occur: two settings whose blocked lists hold
    the same keywords and whose allowed lists hold the same keywords
    classify every text alike.  ("First match wins" decides nothing, since
    every match in a list leads to the same answer.)  A keyword that is the
    empty string matches every text: with it in the blocked list every
    text is blocked. *)
Theorem classifyContent_lists_as_sets (e e' : option bool)
    (st st' : option Stats) (A A' B B' : list string) (t : string) :
  let s := {| focusModeEnabled := e; allowedKeywords := Some A;
              blockedKeywords := Some B; stats := st |} in
  let s' := {| focusModeEnabled := e'; allowedKeywords := Some A';
               blockedKeywords := Some B'; stats := st' |} in
  ((∀ k, k ∈ A ↔ k ∈ A') → (∀ k, k ∈ B ↔ k ∈ B') →
   classifyContent s' t = classifyContent s t) ∧
  ("" ∈ B → classifyContent s t = Normal blocked).
Proof.
  intros s s'. split.
  - intros HA HB.
    rewrite (classifyContent_lists s A B), (classifyContent_lists s' A' B')
      by done.
    by rewrite (matches_any_ext _ A A'), (matches_any_ext _ B B').
  - intros Hin. rewrite (classifyContent_lists s A B) by done.
    assert (matches_any (toLowerCase t) B = true) as ->; [|done].
    unfold matches_any. apply existsb_exists. exists "".
    split; [by apply list_elem_of_In|]. simpl. by destruct (toLowerCase t).
Qed.

(** * The search button of the overlay *)

(** X26.  A click on the search button of the overlay, while focus mode
    is on, takes the overlay off the screen and nothing else: the home
    feed that [showFocusDashboard] had hidden stays hidden, since
    [hideFocusDashboard] gives it back only when focus mode is off.  Polls
    and debounced scans leave the overlay off; it comes back with the
    next homepage check, which only the settled scan after loading or
    navigation and a settings update run. *)
Theorem search_click_leaves_feed_hidden (w : World) :
  truthy (focusModeEnabled (settings w)) = true →
  is_Some (dashboard (document w)) → search_box (document w) = true →
  let w' := step SearchClick w in
  dashboard_shown (document w') = false ∧
  elements (document w') = elements (document w) ∧
  settings w' = settings w ∧
  dashboard_shown (document (step Poll w')) = false ∧
  dashboard_shown (document (step DebouncedScan w')) = false ∧
  (isHome (document w) = true →
   is_Some (allowedKeywords (settings w)) →
   is_Some (blockedKeywords (settings w)) →
   dashboard_shown (document (step SettledScan w')) = true).
Proof.
  intros Hon [cl Hd] Hsb w'.
  assert (Hw' : w' = set_document
                       (set_dashboard (Some (cl ∪ {["hidden"]}))) w).
  { subst w'. unfold step. cbn [handler].
    unfold mbind, M_bind, get_world. rewrite Hd, Hsb.
    rewrite hideFocusDashboard_run, Hon. cbn [snd].
    unfold set_document, set_dashboard, set_elements. simpl.
    by rewrite Hd. }
  assert (Hoff : dashboard_shown (document w') = false).
  { rewrite Hw'. unfold dashboard_shown. simpl.
    apply bool_decide_eq_false. intros Hn. apply Hn.
    apply elem_of_union_r. by apply elem_of_singleton. }
  assert (Hon' : truthy (focusModeEnabled (settings w')) = true)
    by by rewrite Hw'.
  assert (Hscan : dashboard_shown (document (scanAndFilter w').2) = false).
  { destruct (scanAndFilter_enabled w' Hon') as [-> _].
    by unfold dashboard_shown in *. }
  split_and!; try done.
  - by rewrite Hw'.
  - by rewrite Hw'.
  - unfold step. cbn [handler]. unfold mbind, M_bind, get_world.
    by rewrite Hon'.
  - intros Hhome HA HB.
    rewrite settled_scan_enable by (by rewrite ?Hw').
    assert (Hhome' : isHome (document w') = true) by (by rewrite Hw').
    unfold enable_page. rewrite Hhome'. unfold dashboard_shown. simpl.
    apply bool_decide_eq_true. apply not_elem_of_difference. right.
    by apply elem_of_singleton.
Qed.

Lemma search_click_leaves_feed_hidden_witness :
  let w := step SettledScan
             (set_document (λ p, {| pathname := "/"; elements := elements p;
                                    home_browse := true;
                                    dashboard := dashboard p;
                                    watch_heading := watch_heading p;
                                    search_box := true |}) sample_world) in
  dashboard_shown (document w) = true ∧
  dashboard_shown (document (step SearchClick w)) = false.
Proof.
  intros w. split; [by vm_compute|].
  apply (search_click_leaves_feed_hidden w); [by vm_compute | | by vm_compute].
  vm_compute. by eexists.
Defined.

(** * The popup: saving settings *)

Ltac run_PM :=
  unfold Popup.try_catch, Popup.throw, Popup.get_state, Popup.modify,
    Popup.storage_get, Popup.storage_set, mbind, Popup.PM_bind, mret,
    Popup.PM_ret; simpl.

(** [saveSettings], run. *)
Lemma popup_saveSettings_run (updates : Settings) (p : Popup.State) :
  Popup.saveSettings updates p =
  if get_rejects (Popup.sync p) || set_rejects (Popup.sync p)
  then (Normal tt, p)
  else
    let saved :=
      Popup.spread
        (Popup.spread (Popup.DEFAULT_SETTINGS p)
           (default Popup.no_settings (focusSettings (Popup.sync p))))
        updates in
    (Normal tt,
     Popup.add_broadcast saved
       (Popup.set_sync
          {| focusSettings := Some saved; get_rejects := false;
             set_rejects := false;
             set_log := set_log (Popup.sync p) ++ [saved] |} p)).
Proof.
  unfold Popup.saveSettings. run_PM.
  destruct (get_rejects (Popup.sync p)) eqn:Hg; simpl; [done|].
  destruct (set_rejects (Popup.sync p)) eqn:Hs; simpl; [done|].
  by rewrite Hg.
Qed.

Lemma spread_get_list (type : string) (a b : Settings) :
  Popup.get_list type (Popup.spread a b)
  = or_else (Popup.get_list type b) (Popup.get_list type a).
Proof. unfold Popup.get_list, Popup.spread. by destruct (Popup.is_allowed type). Qed.

(** [saveSettings] with a working store: what is stored and sent. *)
Lemma popup_saveSettings_working (updates : Settings) (p : Popup.State) :
  get_rejects (Popup.sync p) = false → set_rejects (Popup.sync p) = false →
  let r := Popup.saveSettings updates p in
  let stored := focusSettings (Popup.sync p) in
  ∃ saved,
    r.1 = Normal tt ∧
    focusSettings (Popup.sync r.2) = Some saved ∧
    set_log (Popup.sync r.2) = set_log (Popup.sync p) ++ [saved] ∧
    Popup.broadcasts r.2 = Popup.broadcasts p ++ [saved] ∧
    focusModeEnabled saved
      = or_else (focusModeEnabled updates)
          (or_else (stored ≫= focusModeEnabled)
             (focusModeEnabled (Popup.DEFAULT_SETTINGS p))) ∧
    (∀ type, Popup.get_list type saved
       = or_else (Popup.get_list type updates)
           (or_else (stored ≫= Popup.get_list type)
              (Popup.get_list type (Popup.DEFAULT_SETTINGS p)))) ∧
    stats saved
      = or_else (stats updates)
          (or_else (stored ≫= stats) (stats (Popup.DEFAULT_SETTINGS p))).
Proof.
  intros Hg Hs r stored. subst r. rewrite popup_saveSettings_run, Hg, Hs.
  simpl. eexists. split_and!; try done.
  - subst stored. destruct (focusSettings (Popup.sync p)); reflexivity.
  - intros type. rewrite !spread_get_list. subst stored.
    destruct (focusSettings (Popup.sync p)); simpl; [done|].
    unfold Popup.get_list at 2. by destruct (Popup.is_allowed type).
  - subst stored. destruct (focusSettings (Popup.sync p)); reflexivity.
Qed.

(** X13.  What [saveSettings] of the popup stores and sends.  With a
    working store the call returns normally, writes one settings object
    and hands that same object to the YouTube tabs.  Property by property
    the object holds the value of [updates] if [updates] has the
    property, else the stored value if the stored object has it, else the
    value of [DEFAULT_SETTINGS]; a list or the [stats] object is taken
    whole, never merged.  So a stored object that lacks a property gets it
    from the defaults the next time anything is saved.  If the read or the
    write is rejected, the call still returns normally, and nothing is
    stored and nothing is sent. *)
Theorem popup_saveSettings_merges (updates : Settings) (p : Popup.State) :
  let r := Popup.saveSettings updates p in
  let stored := focusSettings (Popup.sync p) in
  r.1 = Normal tt ∧
  (get_rejects (Popup.sync p) = false → set_rejects (Popup.sync p) = false →
   ∃ saved,
     focusSettings (Popup.sync r.2) = Some saved ∧
     set_log (Popup.sync r.2) = set_log (Popup.sync p) ++ [saved] ∧
     Popup.broadcasts r.2 = Popup.broadcasts p ++ [saved] ∧
     focusModeEnabled saved
       = or_else (focusModeEnabled updates)
           (or_else (stored ≫= focusModeEnabled)
              (focusModeEnabled (Popup.DEFAULT_SETTINGS p))) ∧
     (∀ type, Popup.get_list type saved
        = or_else (Popup.get_list type updates)
            (or_else (stored ≫= Popup.get_list type)
               (Popup.get_list type (Popup.DEFAULT_SETTINGS p)))) ∧
     stats saved
       = or_else (stats updates)
           (or_else (stored ≫= stats) (stats (Popup.DEFAULT_SETTINGS p)))) ∧
  (get_rejects (Popup.sync p) = true ∨ set_rejects (Popup.sync p) = true →
   r.2 = p).
Proof.
  intros r stored. split_and!.
  - subst r. rewrite popup_saveSettings_run. by destruct (_ || _).
  - intros Hg Hs.
    destruct (popup_saveSettings_working updates p Hg Hs)
      as (saved & _ & H1 & H2 & H3 & H4 & H5 & H6).
    by exists saved.
  - intros Hrej. subst r. rewrite popup_saveSettings_run.
    by destruct Hrej as [-> | ->]; rewrite ?orb_true_r.
Qed.

(** * Trimming *)

Lemma lower_ascii_white_space (c : ascii) :
  is_white_space (lower_ascii c) = is_white_space c.
Proof. destruct c as [[] [] [] [] [] [] [] []]; reflexivity. Qed.

Lemma trimStart_first (s : string) (c : ascii) :
  first_char (trimStart s) = Some c → is_white_space c = false.
Proof.
  induction s as [|a s IH]; simpl; [done|].
  destruct (is_white_space a) eqn:Ha; [done|]. simpl. by intros [= <-].
Qed.

Lemma trimEnd_first (s : string) (c : ascii) :
  first_char (trimEnd s) = Some c → first_char s = Some c.
Proof.
  destruct s as [|a s]; simpl; [done|].
  destruct (trimEnd s); [|done]. by destruct (is_white_space a).
Qed.

Lemma trimEnd_last (s : string) (c : ascii) :
  last_char (trimEnd s) = Some c → is_white_space c = false.
Proof.
  induction s as [|a s IH]; simpl; [done|].
  destruct (trimEnd s) as [|b r] eqn:Hr.
  - destruct (is_white_space a) eqn:Ha; simpl; [done|]. by intros [= <-].
  - exact IH.
Qed.

Lemma toLowerCase_first (s : string) :
  first_char (toLowerCase s) = lower_ascii <$> first_char s.
Proof. by destruct s. Qed.

Lemma toLowerCase_last (s : string) :
  last_char (toLowerCase s) = lower_ascii <$> last_char s.
Proof.
  induction s as [|a s IH]; [done|]. simpl.
  destruct s as [|b s]; [done|]. exact IH.
Qed.

Lemma trim_normalised (value : string) : normalised (toLowerCase (trim value)).
Proof.
  split_and!.
  - apply toLowerCase_idemp.
  - intros c. rewrite toLowerCase_first.
    destruct (first_char (trim value)) as [a|] eqn:Ha; [|done].
    intros [= <-]. rewrite lower_ascii_white_space.
    apply trimEnd_first in Ha. by apply trimStart_first in Ha.
  - intros c. rewrite toLowerCase_last.
    destruct (last_char (trim value)) as [a|] eqn:Ha; [|done].
    intros [= <-]. rewrite lower_ascii_white_space. by apply trimEnd_last in Ha.
Qed.

(** * The popup: adding and removing keywords *)

Lemma popup_addKeyword_run (type : string) (p : Popup.State) :
  Popup.addKeyword type p =
  let keyword := toLowerCase (trim (Popup.input_value type p)) in
  if bool_decide (keyword = "") then (Normal tt, p)
  else if get_rejects (Popup.sync p) then (Throw StorageError, p)
  else
    match Popup.current_list type p with
    | None => (Throw TypeError, p)
    | Some keywords =>
      if bool_decide (keyword ∈ keywords) then
        (Normal tt, Popup.set_input_value type "" p)
      else
        let keywords := keywords ++ [keyword] in
        let p1 :=
          match focusSettings (Popup.sync p) with
          | Some _ => p
          | None =>
            Popup.set_DEFAULT_SETTINGS (Popup.set_list type keywords) p
          end in
        (Normal tt,
         Popup.set_input_value type ""
           (Popup.set_rendered type keywords
              (Popup.saveSettings (Popup.only_list type keywords) p1).2))
    end.
Proof.
  unfold Popup.addKeyword, Popup.current_list.
  unfold mbind at 1, Popup.PM_bind at 1, Popup.get_state at 1. cbv zeta.
  case_bool_decide as Hk; [done|].
  unfold mbind at 1, Popup.PM_bind at 1, Popup.storage_get at 1.
  destruct (get_rejects (Popup.sync p)); [done|].
  unfold mbind at 1, Popup.PM_bind at 1, Popup.get_state at 1.
  destruct (Popup.get_list type _) as [keywords|]; [|done].
  case_bool_decide as Hin.
  - by run_PM.
  - unfold Popup.renderKeywords.
    destruct (focusSettings (Popup.sync p)) as [stored|].
    + unfold mbind, Popup.PM_bind, Popup.modify, mret, Popup.PM_ret.
      rewrite popup_saveSettings_run. by destruct (_ || _).
    + unfold mbind, Popup.PM_bind, Popup.modify, mret, Popup.PM_ret.
      rewrite popup_saveSettings_run. by destruct (_ || _).
Qed.

Lemma get_list_set_list (type : string) (l : list string) (s : Settings) :
  Popup.get_list type (Popup.set_list type l s) = Some l.
Proof. unfold Popup.get_list, Popup.set_list. by destruct (Popup.is_allowed type). Qed.

Lemma input_value_set (type value : string) (p : Popup.State) :
  Popup.input_value type (Popup.set_input_value type value p) = value.
Proof.
  unfold Popup.input_value, Popup.set_input_value. simpl.
  by destruct (Popup.is_allowed type).
Qed.

Lemma rendered_set (type : string) (l : list string) (p : Popup.State) :
  Popup.rendered type (Popup.set_rendered type l p) = l.
Proof.
  unfold Popup.rendered, Popup.set_rendered. simpl.
  by destruct (Popup.is_allowed type).
Qed.

(** The state after a [saveSettings] that carries a list, with a working
    store. *)
Lemma popup_save_list (type : string) (l : list string) (p : Popup.State) :
  get_rejects (Popup.sync p) = false → set_rejects (Popup.sync p) = false →
  let p' := (Popup.saveSettings (Popup.only_list type l) p).2 in
  ∃ m, focusSettings (Popup.sync p') = Some m ∧
       Popup.get_list type m = Some l ∧
       Popup.broadcasts p' = Popup.broadcasts p ++ [m] ∧
       set_log (Popup.sync p') = set_log (Popup.sync p) ++ [m] ∧
       get_rejects (Popup.sync p') = false ∧
       set_rejects (Popup.sync p') = false ∧
       Popup.DEFAULT_SETTINGS p' = Popup.DEFAULT_SETTINGS p ∧
       Popup.allowedInput p' = Popup.allowedInput p ∧
       Popup.blockedInput p' = Popup.blockedInput p.
Proof.
  intros Hg Hs p'. subst p'. rewrite popup_saveSettings_run, Hg, Hs. simpl.
  eexists. split_and!; try done.
  rewrite spread_get_list. unfold Popup.only_list.
  by rewrite get_list_set_list.
Qed.

(** [addKeyword] with a working store: the list afterwards, and the store
    still works. *)
Lemma popup_addKeyword_adds_run (type : string) (p : Popup.State)
    (L : list string) :
  get_rejects (Popup.sync p) = false → set_rejects (Popup.sync p) = false →
  Popup.current_list type p = Some L →
  let k := toLowerCase (trim (Popup.input_value type p)) in
  let r := Popup.addKeyword type p in
  r.1 = Normal tt ∧
  Popup.current_list type r.2
    = Some (if bool_decide (k = "" ∨ k ∈ L) then L else L ++ [k]) ∧
  get_rejects (Popup.sync r.2) = false ∧
  set_rejects (Popup.sync r.2) = false.
Proof.
  intros Hg Hs HL k r. subst r. rewrite popup_addKeyword_run. cbv zeta. fold k.
  rewrite Hg, HL.
  destruct (decide (k = "")) as [Hk|Hk].
  { rewrite (bool_decide_eq_true_2 _ Hk). cbn [fst snd].
    by rewrite bool_decide_eq_true_2 by by left. }
  rewrite (bool_decide_eq_false_2 _ Hk).
  destruct (decide (k ∈ L)) as [Hin|Hin].
  { rewrite (bool_decide_eq_true_2 _ Hin). cbn [fst snd].
    by rewrite bool_decide_eq_true_2 by by right. }
  rewrite (bool_decide_eq_false_2 _ Hin). cbv zeta. cbn [fst snd].
  rewrite bool_decide_eq_false_2 by (by intros [|]).
  set (p1 := match focusSettings (Popup.sync p) with
             | Some _ => p
             | None => Popup.set_DEFAULT_SETTINGS
                         (Popup.set_list type (L ++ [k])) p
             end).
  assert (Hsync1 : Popup.sync p1 = Popup.sync p)
    by (subst p1; by destruct (focusSettings (Popup.sync p))).
  destruct (popup_save_list type (L ++ [k]) p1)
    as (m & Hm & Hlist & _ & _ & Hg' & Hs' & _); [by rewrite Hsync1..|].
  split_and!; try done.
  unfold Popup.current_list.
  cbn [Popup.sync Popup.set_input_value Popup.set_rendered]. rewrite Hm.
  simpl. by rewrite Hlist.
Qed.

(** X14.  [addKeyword] with a working store, on the list [L] it finds
    (the stored one, or the one of [DEFAULT_SETTINGS] when nothing is
    stored).  The keyword is the value of the input, trimmed and in lower
    case; it has no upper-case letter and no white space at either end.
    A blank input changes nothing at all.  A keyword that [L] has already
    only clears the input: nothing is written and nothing is sent.  A new
    keyword goes to the end of the list, which is stored, sent to the
    YouTube tabs and rendered, and the input is cleared.  So the list
    never gets an empty keyword and never gets a keyword twice. *)
Theorem popup_addKeyword_adds (type : string) (p : Popup.State)
    (L : list string) :
  get_rejects (Popup.sync p) = false → set_rejects (Popup.sync p) = false →
  Popup.current_list type p = Some L →
  let k := toLowerCase (trim (Popup.input_value type p)) in
  let r := Popup.addKeyword type p in
  let L' := if bool_decide (k = "" ∨ k ∈ L) then L else L ++ [k] in
  r.1 = Normal tt ∧
  Popup.current_list type r.2 = Some L' ∧
  normalised k ∧
  (NoDup L → NoDup L') ∧
  ("" ∉ L → "" ∉ L') ∧
  (k = "" → r.2 = p) ∧
  (k ≠ "" → Popup.input_value type r.2 = "") ∧
  (k ≠ "" → k ∈ L →
     Popup.sync r.2 = Popup.sync p ∧
     Popup.broadcasts r.2 = Popup.broadcasts p) ∧
  (k ≠ "" → k ∉ L →
     Popup.rendered type r.2 = L ++ [k] ∧
     ∃ m, focusSettings (Popup.sync r.2) = Some m ∧
          Popup.broadcasts r.2 = Popup.broadcasts p ++ [m] ∧
          Popup.get_list type m = Some (L ++ [k])).
Proof.
  intros Hg Hs HL k r L'.
  assert (HND : NoDup L → NoDup L').
  { subst L'. case_bool_decide as Hc; [done|]. intros HL0.
    apply NoDup_app. split_and!; [done| |apply NoDup_singleton].
    intros x Hx ->%list_elem_of_singleton. apply Hc. by right. }
  assert (HNE : "" ∉ L → "" ∉ L').
  { subst L'. case_bool_decide as Hc; [done|]. intros HL0.
    rewrite elem_of_app, list_elem_of_singleton. intros [?|Hk]; [done|].
    apply Hc. by left. }
  subst r. rewrite popup_addKeyword_run. cbv zeta. fold k.
  rewrite Hg, HL.
  destruct (decide (k = "")) as [Hk|Hk].
  { rewrite (bool_decide_eq_true_2 _ Hk). cbn [fst snd].
    subst L'. rewrite bool_decide_eq_true_2 by by left.
    split_and!; try done. apply trim_normalised. }
  rewrite (bool_decide_eq_false_2 _ Hk).
  destruct (decide (k ∈ L)) as [Hin|Hin].
  { rewrite (bool_decide_eq_true_2 _ Hin). cbn [fst snd].
    subst L'. rewrite bool_decide_eq_true_2 by by right.
    split_and!; try done.
    - apply trim_normalised.
    - intros _. apply input_value_set. }
  rewrite (bool_decide_eq_false_2 _ Hin). cbv zeta. cbn [fst snd].
  assert (HL' : L' = L ++ [k]).
  { subst L'. rewrite bool_decide_eq_false_2; [done|]. by intros [|]. }
  set (p1 := match focusSettings (Popup.sync p) with
             | Some _ => p
             | None => Popup.set_DEFAULT_SETTINGS
                         (Popup.set_list type (L ++ [k])) p
             end).
  assert (Hsync1 : Popup.sync p1 = Popup.sync p)
    by (subst p1; by destruct (focusSettings (Popup.sync p))).
  assert (Hbr1 : Popup.broadcasts p1 = Popup.broadcasts p)
    by (subst p1; by destruct (focusSettings (Popup.sync p))).
  destruct (popup_save_list type (L ++ [k]) p1)
    as (m & Hm & Hlist & Hbr & _); [by rewrite Hsync1..|].
  split_and!; try done.
  - unfold Popup.current_list.
    cbn [Popup.sync Popup.set_input_value Popup.set_rendered]. rewrite Hm.
    simpl. by rewrite Hlist, HL'.
  - apply trim_normalised.
  - intros _. apply input_value_set.
  - intros _ _. split.
    + unfold Popup.rendered, Popup.set_input_value, Popup.set_rendered. simpl.
      by destruct (Popup.is_allowed type).
    + exists m. split_and!; [done| |done].
      cbn [Popup.broadcasts Popup.set_input_value Popup.set_rendered].
      by rewrite Hbr, Hbr1.
Qed.

Lemma popup_addKeyword_adds_witness :
  Popup.current_list "allowed"
    (Popup.addKeyword "allowed"
       (sample_popup (Some sample_settings) "  Rust Lang ")).2
  = Some ["python"; "react"; "rust lang"].
Proof.
  apply (popup_addKeyword_adds "allowed"
           (sample_popup (Some sample_settings) "  Rust Lang ")
           ["python"; "react"]); reflexivity.
Defined.

Lemma popup_removeKeyword_run (keyword type : string) (p : Popup.State) :
  Popup.removeKeyword keyword type p =
  if get_rejects (Popup.sync p) then (Throw StorageError, p)
  else
    match Popup.current_list type p with
    | None => (Throw TypeError, p)
    | Some keywords =>
      let keywords :=
        List.filter (λ k, negb (bool_decide (k = keyword))) keywords in
      let p1 :=
        match focusSettings (Popup.sync p) with
        | Some _ => p
        | None =>
          Popup.set_DEFAULT_SETTINGS (Popup.set_list type keywords) p
        end in
      (Normal tt,
       Popup.set_rendered type keywords
         (Popup.saveSettings (Popup.only_list type keywords) p1).2)
    end.
Proof.
  unfold Popup.removeKeyword, Popup.current_list.
  unfold mbind at 1, Popup.PM_bind at 1, Popup.storage_get at 1.
  destruct (get_rejects (Popup.sync p)); [done|].
  unfold mbind at 1, Popup.PM_bind at 1, Popup.get_state at 1. cbv zeta.
  destruct (Popup.get_list type _) as [keywords|]; [|done].
  unfold Popup.renderKeywords.
  destruct (focusSettings (Popup.sync p)) as [stored|];
    unfold mbind, Popup.PM_bind, Popup.modify, mret, Popup.PM_ret;
    rewrite popup_saveSettings_run; by destruct (_ || _).
Qed.

Lemma filter_other_elem_of (keyword : string) (L : list string) (k : string) :
  k ∈ List.filter (λ x, negb (bool_decide (x = keyword))) L
  ↔ k ∈ L ∧ k ≠ keyword.
Proof.
  rewrite !list_elem_of_In, filter_In, negb_true_iff, bool_decide_eq_false.
  done.
Qed.

Lemma filter_other_absent (keyword : string) (L : list string) :
  keyword ∉ L →
  List.filter (λ x, negb (bool_decide (x = keyword))) L = L.
Proof.
  induction L as [|x L IH]; [done|]. intros Hn.
  apply not_elem_of_cons in Hn as [Hx HL]. simpl.
  rewrite bool_decide_eq_false_2 by done. simpl. by rewrite IH.
Qed.

Lemma filter_other_snoc (keyword : string) (L : list string) :
  keyword ∉ L →
  List.filter (λ x, negb (bool_decide (x = keyword))) (L ++ [keyword]) = L.
Proof.
  intros Hn. rewrite List.filter_app, filter_other_absent by done. simpl.
  rewrite bool_decide_eq_true_2 by done. simpl. apply app_nil_r.
Qed.

(** X15.  [removeKeyword] with a working store, on the list [L] it finds.
    Every occurrence of the keyword goes, the other keywords stay in their
    order; the result is stored, sent to the YouTube tabs and rendered,
    also when the keyword was not in the list and nothing changes.  And
    removing a keyword that [addKeyword] has just added to a list that did
    not have it gives back the list as it was. *)
Theorem popup_removeKeyword_removes (keyword type : string)
    (p : Popup.State) (L : list string) :
  get_rejects (Popup.sync p) = false → set_rejects (Popup.sync p) = false →
  Popup.current_list type p = Some L →
  let r := Popup.removeKeyword keyword type p in
  ∃ L',
    r.1 = Normal tt ∧
    Popup.current_list type r.2 = Some L' ∧
    Popup.rendered type r.2 = L' ∧
    (∃ m, focusSettings (Popup.sync r.2) = Some m ∧
          Popup.broadcasts r.2 = Popup.broadcasts p ++ [m] ∧
          Popup.get_list type m = Some L') ∧
    (keyword ∉ L') ∧
    (∀ k, k ≠ keyword → k ∈ L' ↔ k ∈ L) ∧
    (L' `sublist_of` L) ∧
    (keyword ∉ L → L' = L) ∧
    (let added := Popup.addKeyword type p in
     let k := toLowerCase (trim (Popup.input_value type p)) in
     k ≠ "" → k ∉ L →
     Popup.current_list type (Popup.removeKeyword k type added.2).2 = Some L).
Proof.
  intros Hg Hs HL r.
  assert (Hrun : ∀ kw q Lq,
            get_rejects (Popup.sync q) = false →
            set_rejects (Popup.sync q) = false →
            Popup.current_list type q = Some Lq →
            let Lq' := List.filter (λ x, negb (bool_decide (x = kw))) Lq in
            let rq := Popup.removeKeyword kw type q in
            rq.1 = Normal tt ∧
            Popup.current_list type rq.2 = Some Lq' ∧
            Popup.rendered type rq.2 = Lq' ∧
            ∃ m, focusSettings (Popup.sync rq.2) = Some m ∧
                 Popup.broadcasts rq.2 = Popup.broadcasts q ++ [m] ∧
                 Popup.get_list type m = Some Lq').
  { intros kw q Lq Hgq Hsq HLq Lq' rq. subst rq.
    rewrite popup_removeKeyword_run, Hgq, HLq. cbv zeta. fold Lq'.
    set (q1 := match focusSettings (Popup.sync q) with
               | Some _ => q
               | None => Popup.set_DEFAULT_SETTINGS
                           (Popup.set_list type Lq') q
               end).
    assert (Hsync1 : Popup.sync q1 = Popup.sync q)
      by (subst q1; by destruct (focusSettings (Popup.sync q))).
    assert (Hbr1 : Popup.broadcasts q1 = Popup.broadcasts q)
      by (subst q1; by destruct (focusSettings (Popup.sync q))).
    destruct (popup_save_list type Lq' q1)
      as (m & Hm & Hlist & Hbr & _); [by rewrite Hsync1..|].
    cbn [fst snd]. split_and!; [done| |apply rendered_set|].
    - unfold Popup.current_list. cbn [Popup.sync Popup.set_rendered].
      rewrite Hm. simpl. by rewrite Hlist.
    - exists m. cbn [Popup.sync Popup.broadcasts Popup.set_rendered].
      by rewrite Hbr, Hbr1. }
  exists (List.filter (λ x, negb (bool_decide (x = keyword))) L).
  destruct (Hrun keyword p L Hg Hs HL) as (H1 & H2 & H3 & H4).
  split_and!; try done.
  - rewrite filter_other_elem_of. by intros [_ ?].
  - intros k Hk. rewrite filter_other_elem_of. tauto.
  - clear. induction L as [|x L IH]; simpl; [done|].
    destruct (negb _); by constructor.
  - apply filter_other_absent.
  - intros added k Hk Hin.
    destruct (popup_addKeyword_adds_run type p L Hg Hs HL)
      as (Ha1 & Ha2 & Ha3 & Ha4).
    fold k added in Ha1, Ha2, Ha3, Ha4.
    rewrite bool_decide_eq_false_2 in Ha2 by (by intros [|]).
    destruct (Hrun k added.2 (L ++ [k]) Ha3 Ha4 Ha2) as (_ & -> & _).
    by rewrite filter_other_snoc.
Qed.

Lemma popup_removeKeyword_removes_witness :
  ∃ L',
    Popup.current_list "allowed"
      (Popup.removeKeyword "python" "allowed"
         (sample_popup (Some sample_settings) "")).2 = Some L' ∧
    "python" ∉ L'.
Proof.
  destruct (popup_removeKeyword_removes "python" "allowed"
              (sample_popup (Some sample_settings) "") ["python"; "react"])
    as (L' & _ & H2 & _ & _ & H5 & _); try reflexivity.
  by exists L'.
Defined.

(** X16.  [addKeyword] when something fails.  Nothing in it is inside a
    [try]: with a keyword to add, a rejected read ends the call with the
    storage error, and a settings object without the list ends it with a
    [TypeError]; in both cases nothing has changed, and the input keeps
    its text.  A rejected write is caught inside [saveSettings]: the call
    returns normally with nothing stored and nothing sent, yet the new
    keyword is rendered and the input is cleared.  If at that point
    nothing was stored, the keyword has been pushed onto the list of
    [DEFAULT_SETTINGS] itself; then adding the same keyword again finds it
    there and writes nothing, even once the store works again. *)
Theorem popup_addKeyword_failures (type : string) (p : Popup.State) :
  let k := toLowerCase (trim (Popup.input_value type p)) in
  k ≠ "" →
  (get_rejects (Popup.sync p) = true →
   Popup.addKeyword type p = (Throw StorageError, p)) ∧
  (get_rejects (Popup.sync p) = false → Popup.current_list type p = None →
   Popup.addKeyword type p = (Throw TypeError, p)) ∧
  (get_rejects (Popup.sync p) = false → set_rejects (Popup.sync p) = true →
   ∀ L, Popup.current_list type p = Some L → k ∉ L →
   let r := Popup.addKeyword type p in
   r.1 = Normal tt ∧
   Popup.sync r.2 = Popup.sync p ∧
   Popup.broadcasts r.2 = Popup.broadcasts p ∧
   Popup.rendered type r.2 = L ++ [k] ∧
   Popup.input_value type r.2 = "" ∧
   (focusSettings (Popup.sync p) = None →
    Popup.get_list type (Popup.DEFAULT_SETTINGS r.2) = Some (L ++ [k]) ∧
    ∀ st, focusSettings st = None → get_rejects st = false →
      let again :=
        Popup.run [Popup.StorageChanged st;
                   Popup.TypeInput type (Popup.input_value type p);
                   Popup.AddClick type] r.2 in
      Popup.sync again = st ∧ Popup.broadcasts again = Popup.broadcasts p)).
Proof.
  intros k Hk. split_and!.
  - intros Hg. rewrite popup_addKeyword_run. cbv zeta. fold k.
    by rewrite (bool_decide_eq_false_2 _ Hk), Hg.
  - intros Hg HL. rewrite popup_addKeyword_run. cbv zeta. fold k.
    by rewrite (bool_decide_eq_false_2 _ Hk), Hg, HL.
  - intros Hg Hs L HL Hin r. subst r.
    rewrite popup_addKeyword_run. cbv zeta. fold k.
    rewrite (bool_decide_eq_false_2 _ Hk), Hg, HL,
      (bool_decide_eq_false_2 _ Hin).
    rewrite popup_saveSettings_run.
    destruct (focusSettings (Popup.sync p)) as [stored|] eqn:Hf.
    + rewrite Hg, Hs. cbn [orb fst snd].
      split_and!; try done; [apply rendered_set | apply input_value_set].
    + cbn [Popup.sync Popup.set_DEFAULT_SETTINGS]. rewrite Hg, Hs.
      cbn [orb fst snd].
      split_and!; try done; [apply rendered_set | apply input_value_set |].
      intros _. split.
      { cbn [Popup.DEFAULT_SETTINGS Popup.set_input_value Popup.set_rendered
             Popup.set_DEFAULT_SETTINGS]. apply get_list_set_list. }
      intros st Hst Hgst.
      unfold Popup.run. cbn [foldl]. unfold Popup.step.
      cbn [Popup.handler Popup.modify snd].
      rewrite popup_addKeyword_run. cbv zeta.
      rewrite input_value_set. fold k.
      rewrite (bool_decide_eq_false_2 _ Hk).
      cbn [Popup.sync Popup.set_sync Popup.set_input_value]. rewrite Hgst.
      unfold Popup.current_list.
      cbn [Popup.sync Popup.set_sync Popup.set_input_value
           Popup.DEFAULT_SETTINGS Popup.set_rendered
           Popup.set_DEFAULT_SETTINGS]. rewrite Hst.
      cbn [default]. rewrite get_list_set_list.
      rewrite bool_decide_eq_true_2
        by (apply elem_of_app; right; by apply list_elem_of_singleton).
      done.
Qed.

Lemma popup_addKeyword_failures_witness :
  let p := Popup.set_sync
             {| focusSettings := None; get_rejects := true;
                set_rejects := false; set_log := [] |}
             (sample_popup None "Rust") in
  Popup.addKeyword "allowed" p = (Throw StorageError, p).
Proof.
  apply (popup_addKeyword_failures "allowed"); [by vm_compute | reflexivity].
Defined.

(** * From the popup to the content script *)

Lemma spread_complete (a b : Settings) :
  Popup.complete a → Popup.complete (Popup.spread a b).
Proof.
  intros (He & HA & HB & Hst). unfold Popup.complete, Popup.spread. simpl.
  split_and!; by case_match.
Qed.

Lemma set_list_complete (type : string) (l : list string) (s : Settings) :
  Popup.complete s → Popup.complete (Popup.set_list type l s).
Proof.
  intros (He & HA & HB & Hst). unfold Popup.complete, Popup.set_list.
  by destruct (Popup.is_allowed type).
Qed.

(** What a [saveSettings] keeps: the defaults, and that every message is
    complete. *)
Lemma popup_saveSettings_complete (updates : Settings) (p : Popup.State) :
  Popup.complete (Popup.DEFAULT_SETTINGS p) →
  Forall Popup.complete (Popup.broadcasts p) →
  let p' := (Popup.saveSettings updates p).2 in
  Popup.complete (Popup.DEFAULT_SETTINGS p') ∧
  Forall Popup.complete (Popup.broadcasts p').
Proof.
  intros HD Hbr p'. subst p'. rewrite popup_saveSettings_run.
  destruct (_ || _); cbn [snd]; [done|]. split; [done|].
  cbn [Popup.broadcasts Popup.add_broadcast Popup.set_sync].
  apply Forall_app. split; [done|]. apply Forall_singleton.
  by apply spread_complete, spread_complete.
Qed.

Lemma popup_step_complete (ev : Popup.Event) (p : Popup.State) :
  Popup.complete (Popup.DEFAULT_SETTINGS p) →
  Forall Popup.complete (Popup.broadcasts p) →
  Popup.complete (Popup.DEFAULT_SETTINGS (Popup.step ev p)) ∧
  Forall Popup.complete (Popup.broadcasts (Popup.step ev p)).
Proof.
  intros HD Hbr. unfold Popup.step.
  destruct ev as [type value|type|keyword type|checked|st];
    cbn [Popup.handler].
  - done.
  - rewrite popup_addKeyword_run. cbv zeta.
    case_bool_decide; [done|].
    destruct (get_rejects (Popup.sync p)); [done|].
    destruct (Popup.current_list type p) as [L|]; [|done].
    case_bool_decide; [done|]. cbn [snd].
    cbn [Popup.DEFAULT_SETTINGS Popup.broadcasts Popup.set_input_value
         Popup.set_rendered].
    apply popup_saveSettings_complete;
      destruct (focusSettings (Popup.sync p)); try done.
    by apply set_list_complete.
  - rewrite popup_removeKeyword_run.
    destruct (get_rejects (Popup.sync p)); [done|].
    destruct (Popup.current_list type p) as [L|]; [|done].
    cbv zeta. cbn [snd].
    cbn [Popup.DEFAULT_SETTINGS Popup.broadcasts Popup.set_rendered].
    apply popup_saveSettings_complete;
      destruct (focusSettings (Popup.sync p)); try done.
    by apply set_list_complete.
  - by apply popup_saveSettings_complete.
  - done.
Qed.

(** A settings update that carries both keyword lists never makes the
    content script throw. *)
Lemma handleMessage_returns (m : Settings) (w : World) :
  is_Some (allowedKeywords m) → is_Some (blockedKeywords m) →
  (handleMessage (SETTINGS_UPDATED m) w).1 = Normal tt.
Proof.
  intros HA HB. unfold handleMessage.
  unfold mbind at 1, M_bind at 1, modify.
  destruct (truthy (focusModeEnabled m)) eqn:Hon.
  - destruct (scanAndFilter_lists (set_settings m w) Hon HA HB) as [Hr _].
    unfold mbind, M_bind.
    destruct (scanAndFilter (set_settings m w)) as [[[]|e] w2]; [|done].
    by destruct (checkForHomepage_settings w2) as [-> _].
  - by rewrite removeAllFilters_run.
Qed.

(** X17.  Every [SETTINGS_UPDATED] message of the popup is a whole
    settings object.  Start with [DEFAULT_SETTINGS] as the script declares
    it (or in any state whose defaults have all four properties); then
    after any sequence of typing, adding and removing keywords and
    toggling, and whatever other scripts write to the storage area in
    between (objects without lists or stats included), the defaults still
    have all four properties and every message sent to the YouTube tabs
    carries the switch, both keyword lists and the stats.  The content
    script's handler therefore never throws on a message from the popup,
    whatever page it is on. *)
Theorem popup_messages_are_complete (evs : list Popup.Event)
    (p : Popup.State) :
  Popup.complete Popup.DEFAULT_SETTINGS_literal ∧
  (Popup.complete (Popup.DEFAULT_SETTINGS p) →
   Forall Popup.complete (Popup.broadcasts p) →
   let p' := Popup.run evs p in
   Popup.complete (Popup.DEFAULT_SETTINGS p') ∧
   Forall Popup.complete (Popup.broadcasts p') ∧
   ∀ m w, m ∈ Popup.broadcasts p' →
     (handler (Incoming (SETTINGS_UPDATED m)) w).1 = Normal tt).
Proof.
  split; [by repeat split; eexists|].
  intros HD Hbr p'.
  assert (H : Popup.complete (Popup.DEFAULT_SETTINGS p') ∧
              Forall Popup.complete (Popup.broadcasts p')).
  { subst p'. revert p HD Hbr. induction evs as [|ev evs IH]; intros p HD Hbr;
      [done|].
    unfold Popup.run. cbn [foldl]. apply IH; by apply popup_step_complete. }
  destruct H as [HD' Hbr']. split_and!; [done..|].
  intros m w Hm. cbn [handler].
  destruct (proj1 (Forall_forall _ _) Hbr' m Hm) as (_ & HA & HB & _).
  by apply handleMessage_returns.
Qed.

(** X18.  The toggle of the popup, end to end.  With a working store,
    changing the toggle stores a settings object whose switch is the
    state of the checkbox and whose keyword lists are the stored ones (or
    the defaults where the stored object has none), and sends it to the
    YouTube tabs.  A content script that receives it takes it as its
    settings; if the box was unchecked, the page shows no trace of the
    script afterwards and the overlay is off; if it was checked (and the
    defaults have their lists), the page is what a scan under the new
    settings makes of it, every video renderer marked. *)
Theorem popup_toggle_reaches_content (checked : bool) (p : Popup.State)
    (w : World) :
  get_rejects (Popup.sync p) = false → set_rejects (Popup.sync p) = false →
  Popup.complete (Popup.DEFAULT_SETTINGS p) →
  let p' := Popup.step (Popup.ToggleChange checked) p in
  ∃ m,
    focusSettings (Popup.sync p') = Some m ∧
    Popup.broadcasts p' = Popup.broadcasts p ++ [m] ∧
    focusModeEnabled m = Some checked ∧
    (∀ type, Popup.get_list type m
       = or_else (focusSettings (Popup.sync p) ≫= Popup.get_list type)
           (Popup.get_list type (Popup.DEFAULT_SETTINGS p))) ∧
    let w' := step (Incoming (SETTINGS_UPDATED m)) w in
    (handler (Incoming (SETTINGS_UPDATED m)) w).1 = Normal tt ∧
    (checked = false →
       Forall untouched (elements (document w')) ∧
       dashboard_shown (document w') = false) ∧
    (checked = true →
       document w' = enable_page m (document w) ∧
       all_videos_processed (elements (document w'))).
Proof.
  intros Hg Hs HD p'. subst p'. unfold Popup.step. cbn [Popup.handler].
  unfold Popup.onToggle.
  destruct (popup_saveSettings_working
              {| focusModeEnabled := Some checked; allowedKeywords := None;
                 blockedKeywords := None; stats := None |} p Hg Hs)
    as (m & _ & Hm & _ & Hbr & He & Hl & _).
  assert (HA : is_Some (allowedKeywords m)).
  { specialize (Hl "allowed"). unfold Popup.get_list in Hl. simpl in Hl.
    rewrite Hl. destruct HD as (_ & [A HA] & _).
    destruct (focusSettings (Popup.sync p)) as [[? [?|] ? ?]|]; simpl;
      rewrite ?HA; by eexists. }
  assert (HB : is_Some (blockedKeywords m)).
  { specialize (Hl "blocked"). unfold Popup.get_list in Hl. simpl in Hl.
    rewrite Hl. destruct HD as (_ & _ & [B HB] & _).
    destruct (focusSettings (Popup.sync p)) as [[? ? [?|] ?]|]; simpl;
      rewrite ?HB; by eexists. }
  exists m. do 4 (split; [try done|]).
  { intros type. rewrite Hl. unfold Popup.get_list at 1. simpl.
    by destruct (Popup.is_allowed type). }
  cbv zeta. split; [|split].
  - cbn [handler]. by apply handleMessage_returns.
  - intros Hc. subst checked. unfold step. cbn [handler handleMessage].
    unfold mbind at 1 3, M_bind at 1 3, modify.
    assert (Hoff : truthy (focusModeEnabled m) = false) by by rewrite He.
    rewrite Hoff.
    split; [apply removeAllFilters_untouched | apply removeAllFilters_overlay_off].
  - intros Hc. subst checked.
    assert (Hon : truthy (focusModeEnabled m) = true) by by rewrite He.
    rewrite handleMessage_enable by done. split; [done|].
    destruct (enable_page_settled m (document w)) as (_ & Hfix & _).
    unfold all_videos_processed.
    eapply Forall_impl; [exact Hfix|]. intros el Hel Hv. cbn beta in Hel.
    specialize (Hel m). unfold visit in Hel. rewrite Hv in Hel.
    rewrite <- Hel. apply filterVideo_marks.
Qed.

Lemma popup_toggle_reaches_content_witness :
  ∃ m,
    Popup.broadcasts
      (Popup.step (Popup.ToggleChange false)
         (sample_popup (Some sample_settings) "")) = [m] ∧
    Forall untouched
      (elements (document (step (Incoming (SETTINGS_UPDATED m))
                             (step SettledScan sample_world)))).
Proof.
  destruct (popup_toggle_reaches_content false
              (sample_popup (Some sample_settings) "")
              (step SettledScan sample_world))
    as (m & _ & Hbr & _ & _ & _ & Hoff & _);
    [reflexivity | reflexivity | by repeat split; eexists |].
  exists m. split; [exact Hbr | by apply Hoff].
Defined.

(** * The countdown timer of the popup *)

Lemma timer_stopTimer_consistent (s : Timer.State) :
  Timer.consistent s → Timer.consistent (Timer.stopTimer s).
Proof.
  unfold Timer.consistent, Timer.stopTimer. simpl.
  destruct (Timer.isTimerRunning s).
  - intros (h & -> & -> & _). simpl. by rewrite Nat.eqb_refl.
  - by intros [-> ->].
Qed.

Lemma timer_stopTimer_stopped (s : Timer.State) :
  Timer.isTimerRunning (Timer.stopTimer s) = false.
Proof. done. Qed.

Lemma timer_on_interval_run (s : Timer.State) :
  Timer.on_interval s =
  if bool_decide (Timer.timerSeconds s ≤ 1) then
    {| Timer.timerSeconds := 25 * 60; Timer.isTimerRunning := false;
       Timer.timerInterval := None;
       Timer.intervals :=
         Timer.clearInterval (Timer.timerInterval s) (Timer.intervals s);
       Timer.next_handle := Timer.next_handle s;
       Timer.activePreset := Timer.activePreset s;
       Timer.timerDisplay := Timer.display_text (25 * 60);
       Timer.startTimerBtn := "Start";
       Timer.timer_complete_sent := S (Timer.timer_complete_sent s) |}
  else
    {| Timer.timerSeconds := Timer.timerSeconds s - 1;
       Timer.isTimerRunning := Timer.isTimerRunning s;
       Timer.timerInterval := Timer.timerInterval s;
       Timer.intervals := Timer.intervals s;
       Timer.next_handle := Timer.next_handle s;
       Timer.activePreset := Timer.activePreset s;
       Timer.timerDisplay := Timer.display_text (Timer.timerSeconds s - 1);
       Timer.startTimerBtn := Timer.startTimerBtn s;
       Timer.timer_complete_sent := Timer.timer_complete_sent s |}.
Proof.
  unfold Timer.on_interval. cbv zeta.
  cbn [Timer.timerSeconds Timer.updateTimerDisplay Timer.set_timerSeconds].
  destruct (decide (Timer.timerSeconds s ≤ 1)) as [Hle|Hgt].
  - rewrite (bool_decide_eq_true_2 _ Hle).
    by rewrite bool_decide_eq_true_2 by lia.
  - rewrite (bool_decide_eq_false_2 _ Hgt).
    by rewrite bool_decide_eq_false_2 by lia.
Qed.

Lemma timer_on_interval_consistent (s : Timer.State) :
  Timer.consistent s → Timer.consistent (Timer.on_interval s).
Proof.
  intros Hc. rewrite timer_on_interval_run. case_bool_decide; [|done].
  by apply timer_stopTimer_consistent in Hc.
Qed.

(** With the flag, the handle and the interval timers in agreement, a
    second is one run of the callback while the timer runs, and nothing
    otherwise. *)
Lemma timer_second_run (s : Timer.State) :
  Timer.consistent s →
  Timer.second s = if Timer.isTimerRunning s then Timer.on_interval s else s.
Proof.
  unfold Timer.consistent, Timer.second.
  destruct (Timer.isTimerRunning s).
  - intros (h & _ & Hi & _). rewrite Hi. simpl.
    rewrite bool_decide_eq_true_2; [done|]. rewrite Hi. by left.
  - by intros [_ ->].
Qed.

Lemma timer_step_consistent (ev : Timer.Event) (s : Timer.State) :
  Timer.consistent s → Timer.consistent (Timer.step ev s).
Proof.
  intros Hc. destruct ev as [| |time|]; cbn [Timer.step].
  - unfold Timer.toggleTimer.
    destruct (Timer.isTimerRunning s) eqn:Hr;
      [by apply timer_stopTimer_consistent|].
    unfold Timer.consistent in *. rewrite Hr in Hc. destruct Hc as [_ Hi].
    simpl. rewrite Hi. exists (Timer.next_handle s). split_and!; [done..|lia].
  - by apply timer_stopTimer_consistent in Hc.
  - unfold Timer.onPreset. cbv zeta.
    cbn [Timer.isTimerRunning Timer.updateTimerDisplay].
    destruct (Timer.isTimerRunning s) eqn:Hr.
    + apply (timer_stopTimer_consistent
               (Timer.updateTimerDisplay
                  {| Timer.timerSeconds := time * 60;
                     Timer.isTimerRunning := Timer.isTimerRunning s;
                     Timer.timerInterval := Timer.timerInterval s;
                     Timer.intervals := Timer.intervals s;
                     Timer.next_handle := Timer.next_handle s;
                     Timer.activePreset := Some time;
                     Timer.timerDisplay := Timer.timerDisplay s;
                     Timer.startTimerBtn := Timer.startTimerBtn s;
                     Timer.timer_complete_sent := Timer.timer_complete_sent s |})).
      exact Hc.
    + unfold Timer.consistent in *. simpl. by rewrite Hr in *.
  - rewrite timer_second_run by done.
    destruct (Timer.isTimerRunning s); [|done].
    by apply timer_on_interval_consistent.
Qed.

Lemma timer_run_snoc (evs : list Timer.Event) (ev : Timer.Event)
    (s : Timer.State) :
  Timer.run (evs ++ [ev]) s = Timer.step ev (Timer.run evs s).
Proof. unfold Timer.run. by rewrite foldl_app. Qed.

Lemma timer_run_consistent (evs : list Timer.Event) (s : Timer.State) :
  Timer.consistent s → Timer.consistent (Timer.run evs s).
Proof.
  intros Hc. induction evs as [|ev evs IH] using rev_ind; [done|].
  rewrite timer_run_snoc. by apply timer_step_consistent.
Qed.

(** X19.  The popup never has two countdowns running.  From the state the
    script starts in, after any sequence of clicks on the start/pause
    button, the reset button and the presets, and of seconds passing, the
    flag [isTimerRunning], the handle [timerInterval] and the interval
    timers that are actually running agree: while the flag is set there
    is exactly one interval timer and the handle is its handle, otherwise
    there is none and the handle is [null].  So a second takes at most one
    second off the clock, and none while the timer is paused. *)
Theorem timer_has_one_interval (evs : list Timer.Event) (preset : option Z)
    (display button : string) :
  let s := Timer.run evs (Timer.initial preset display button) in
  Timer.consistent s ∧
  (length (Timer.intervals s) ≤ 1)%nat ∧
  (Timer.isTimerRunning s = true ↔ is_Some (Timer.timerInterval s)) ∧
  (Timer.isTimerRunning s = true ↔ Timer.intervals s ≠ []) ∧
  (Timer.isTimerRunning s = false → Timer.step Timer.Second s = s) ∧
  (Timer.isTimerRunning s = true → 1 < Timer.timerSeconds s →
   Timer.timerSeconds (Timer.step Timer.Second s) = Timer.timerSeconds s - 1).
Proof.
  intros s.
  assert (Hc : Timer.consistent s) by (by apply timer_run_consistent).
  split; [done|].
  pose proof (timer_second_run s Hc) as Hsec.
  unfold Timer.consistent in Hc. cbn [Timer.step].
  destruct (Timer.isTimerRunning s).
  - destruct Hc as (h & Ht & Hi & _). rewrite Ht, Hi. simpl.
    split; [lia|]. split; [split; [by eexists | done]|].
    split; [done|]. split; [done|].
    intros _ Hn. rewrite Hsec, timer_on_interval_run.
    by rewrite bool_decide_eq_false_2 by lia.
  - destruct Hc as [Ht Hi]. rewrite Ht, Hi. simpl.
    split; [lia|]. split; [split; [done | by intros []]|].
    split; [done|]. split; done.
Qed.

Lemma timer_run_seconds_S (k : nat) (s : Timer.State) :
  Timer.run (replicate (S k) Timer.Second) s
  = Timer.run (replicate k Timer.Second) (Timer.second s).
Proof. done. Qed.

(** The timer while it counts: [k] seconds into a countdown that has more
    than [k] seconds to go. *)
Lemma timer_counting (k : nat) (s : Timer.State) :
  Timer.consistent s → Timer.isTimerRunning s = true →
  Z.of_nat k < Timer.timerSeconds s →
  let sk := Timer.run (replicate k Timer.Second) s in
  Timer.consistent sk ∧
  Timer.isTimerRunning sk = true ∧
  Timer.timerSeconds sk = Timer.timerSeconds s - Z.of_nat k ∧
  Timer.timer_complete_sent sk = Timer.timer_complete_sent s ∧
  Timer.activePreset sk = Timer.activePreset s ∧
  (0 < k → Timer.timerDisplay sk = Timer.display_text (Timer.timerSeconds sk))%nat.
Proof.
  revert s. induction k as [|k IH]; intros s Hc Hr Hk sk.
  - subst sk. simpl. split_and!; try done; [lia|lia].
  - subst sk. rewrite timer_run_seconds_S.
    rewrite timer_second_run, Hr, timer_on_interval_run by done.
    rewrite bool_decide_eq_false_2 by lia.
    set (s1 := {| Timer.timerSeconds := Timer.timerSeconds s - 1 |}).
    assert (Hc1 : Timer.consistent s1).
    { unfold Timer.consistent in *. subst s1. simpl. by rewrite Hr in *. }
    destruct (IH s1 Hc1) as (H1 & H2 & H3 & H4 & H5 & H6);
      [by subst s1; simpl | subst s1; simpl; lia |].
    split_and!; try done.
    + rewrite H3. subst s1. simpl. lia.
    + intros _. destruct k as [|k]; [by subst s1|]. apply H6. lia.
Qed.

(** X20.  The countdown.  While the timer runs, with [n] seconds on the
    clock, each of the first seconds takes one second off and shows it,
    and sends nothing; the second that brings the clock to zero (the very
    first one if the clock was at one or below) stops the timer, sends
    exactly one [TIMER_COMPLETE] message and puts 25 minutes on the clock
    and on the display, whatever preset is active; after that, seconds
    change nothing. *)
Theorem timer_counts_down (s : Timer.State) :
  Timer.consistent s → Timer.isTimerRunning s = true →
  let n := Z.to_nat (Z.max 1 (Timer.timerSeconds s)) in
  (∀ k, (0 < k < n)%nat →
     let sk := Timer.run (replicate k Timer.Second) s in
     Timer.isTimerRunning sk = true ∧
     Timer.timerSeconds sk = Timer.timerSeconds s - Z.of_nat k ∧
     Timer.timerDisplay sk = Timer.display_text (Timer.timerSeconds sk) ∧
     Timer.timer_complete_sent sk = Timer.timer_complete_sent s) ∧
  let done := Timer.run (replicate n Timer.Second) s in
  Timer.isTimerRunning done = false ∧
  Timer.intervals done = [] ∧
  Timer.timer_complete_sent done = S (Timer.timer_complete_sent s) ∧
  Timer.timerSeconds done = 25 * 60 ∧
  Timer.timerDisplay done = "25:00" ∧
  Timer.activePreset done = Timer.activePreset s ∧
  (∀ m, Timer.run (replicate m Timer.Second) done = done).
Proof.
  intros Hc Hr n. split.
  - intros k Hk sk.
    destruct (timer_counting k s Hc Hr) as (_ & H2 & H3 & H4 & _ & H6);
      [unfold n in Hk; lia|].
    split_and!; try done. apply H6. lia.
  - assert (Hn : n = S (Nat.pred n)) by (unfold n; lia).
    assert (Hlast : Timer.timerSeconds s - Z.of_nat (Nat.pred n) ≤ 1)
      by (unfold n; lia).
    assert (Hpred : Z.of_nat (Nat.pred n) < Timer.timerSeconds s
                    ∨ Nat.pred n = 0%nat) by (unfold n; lia).
    clearbody n.
    rewrite Hn. replace (S (Nat.pred n)) with (Nat.pred n + 1)%nat by lia.
    rewrite replicate_add. unfold Timer.run at 1. rewrite foldl_app.
    fold (Timer.run (replicate (Nat.pred n) Timer.Second) s).
    assert (Hcount :
      let s' := Timer.run (replicate (Nat.pred n) Timer.Second) s in
      Timer.consistent s' ∧ Timer.isTimerRunning s' = true ∧
      Timer.timerSeconds s' = Timer.timerSeconds s - Z.of_nat (Nat.pred n) ∧
      Timer.timer_complete_sent s' = Timer.timer_complete_sent s ∧
      Timer.activePreset s' = Timer.activePreset s).
    { destruct Hpred as [Hlt | ->].
      - by destruct (timer_counting (Nat.pred n) s Hc Hr Hlt)
          as (? & ? & ? & ? & ? & _).
      - simpl. split_and!; try done. lia. }
    destruct Hcount as (Hc' & Hr' & Hs' & Hm' & Hp').
    set (s' := Timer.run (replicate (Nat.pred n) Timer.Second) s) in *.
    cbn [replicate foldl Timer.step].
    rewrite timer_second_run, Hr', timer_on_interval_run by done.
    rewrite bool_decide_eq_true_2 by lia.
    cbv zeta. cbn [Timer.isTimerRunning Timer.intervals
                   Timer.timer_complete_sent Timer.timerSeconds
                   Timer.timerDisplay Timer.activePreset].
    assert (Hi : Timer.clearInterval (Timer.timerInterval s')
                   (Timer.intervals s') = []).
    { unfold Timer.consistent in Hc'. rewrite Hr' in Hc'.
      destruct Hc' as (h & -> & -> & _). simpl. by rewrite Nat.eqb_refl. }
    rewrite Hi, Hm', Hp'. split_and!; try done.
    intros m. induction m as [|m IH]; [done|].
    rewrite timer_run_seconds_S. by unfold Timer.second at 1.
Qed.

Lemma timer_counts_down_witness :
  let s := Timer.run [Timer.PresetClick 1; Timer.StartClick]
             (Timer.initial None "" "Start") in
  let n := Z.to_nat (Z.max 1 (Timer.timerSeconds s)) in
  n = 60%nat ∧
  Timer.isTimerRunning (Timer.run (replicate n Timer.Second) s) = false.
Proof.
  intros s n. split; [by vm_compute|].
  assert (Hc : Timer.consistent s).
  { vm_compute. exists 1%nat. repeat split. lia. }
  assert (Hr : Timer.isTimerRunning s = true) by by vm_compute.
  destruct (timer_counts_down s Hc Hr) as (_ & H1 & _). exact H1.
Defined.

(** X21.  Pausing keeps the time.  While the timer runs, a click on the
    start/pause button stops the clock where it is: however many seconds
    pass, the time left stays the same and nothing is sent, and a second
    click makes the timer run again from that time.  A click on a preset
    puts its minutes on the clock and stops a running timer; a click on
    the reset button stops the timer and puts the minutes of the active
    preset on the clock, or 25 if no preset is active. *)
Theorem timer_pause_keeps_time (s : Timer.State) (m : nat) :
  Timer.consistent s → Timer.isTimerRunning s = true →
  let paused := Timer.run (replicate m Timer.Second)
                  (Timer.step Timer.StartClick s) in
  let resumed := Timer.step Timer.StartClick paused in
  Timer.isTimerRunning paused = false ∧
  Timer.timerSeconds paused = Timer.timerSeconds s ∧
  Timer.timer_complete_sent paused = Timer.timer_complete_sent s ∧
  Timer.isTimerRunning resumed = true ∧
  Timer.timerSeconds resumed = Timer.timerSeconds s ∧
  Timer.consistent resumed ∧
  (∀ time, let s' := Timer.step (Timer.PresetClick time) s in
     Timer.isTimerRunning s' = false ∧ Timer.timerSeconds s' = time * 60 ∧
     Timer.timerSeconds (Timer.step Timer.ResetClick s') = time * 60) ∧
  (let s' := Timer.step Timer.ResetClick s in
   Timer.isTimerRunning s' = false ∧
   Timer.timerSeconds s' = default 25 (Timer.activePreset s) * 60).
Proof.
  intros Hc Hr paused resumed.
  assert (Hstop : Timer.step Timer.StartClick s = Timer.stopTimer s)
    by (cbn [Timer.step]; unfold Timer.toggleTimer; by rewrite Hr).
  assert (Hp : paused = Timer.stopTimer s).
  { subst paused. rewrite Hstop. induction m as [|m IH]; [done|].
    rewrite timer_run_seconds_S.
    rewrite timer_second_run by by apply timer_stopTimer_consistent.
    by rewrite timer_stopTimer_stopped. }
  subst resumed. rewrite Hp. cbn [Timer.step]. unfold Timer.toggleTimer.
  rewrite timer_stopTimer_stopped.
  split_and!; try done.
  - apply (timer_step_consistent Timer.StartClick (Timer.stopTimer s)).
    by apply timer_stopTimer_consistent.
  - intros time. unfold Timer.onPreset. cbv zeta.
    cbn [Timer.isTimerRunning Timer.updateTimerDisplay]. by rewrite Hr.
  - unfold Timer.resetTimer. simpl. by destruct (Timer.activePreset s).
Qed.

Lemma timer_pause_keeps_time_witness :
  let s := Timer.run [Timer.StartClick; Timer.Second; Timer.Second]
             (Timer.initial None "" "Start") in
  Timer.timerSeconds s = 1498 ∧
  Timer.timerSeconds
    (Timer.run (replicate 30 Timer.Second) (Timer.step Timer.StartClick s))
  = Timer.timerSeconds s.
Proof.
  intros s. split; [by vm_compute|].
  assert (Hc : Timer.consistent s).
  { vm_compute. exists 1%nat. repeat split. lia. }
  assert (Hr : Timer.isTimerRunning s = true) by by vm_compute.
  destruct (timer_pause_keeps_time s 30 Hc Hr) as (_ & H1 & _). exact H1.
Defined.

Lemma two_digits (m : Z) :
  0 ≤ m < 100 →
  padStart2 (toString m)
  = String (digit (m `div` 10)) (String (digit (m `mod` 10)) EmptyString).
Proof.
  intros Hm.
  assert (Hall : forallb (λ n : nat,
                    String.eqb (padStart2 (toString (Z.of_nat n)))
                      (String (digit (Z.of_nat n `div` 10))
                         (String (digit (Z.of_nat n `mod` 10)) EmptyString)))
                  (seq 0 100) = true) by (vm_compute; reflexivity).
  pose proof (proj1 (forallb_forall _ _) Hall (Z.to_nat m)) as H.
  cbn beta in H. rewrite Z2Nat.id in H by lia.
  apply String.eqb_eq, H, in_seq. lia.
Qed.

Lemma digit_inj (a b : Z) :
  0 ≤ a < 10 → 0 ≤ b < 10 → digit a = digit b → a = b.
Proof.
  intros Ha Hb Hd. unfold digit in Hd.
  apply (f_equal nat_of_ascii) in Hd.
  rewrite !nat_ascii_embedding in Hd by lia. lia.
Qed.

(** X22.  What the display shows.  For a clock between zero and a hundred
    minutes (exclusive) [updateTimerDisplay] writes five characters: the
    minutes in two digits, a colon, the seconds in two digits.  The text
    is therefore different for different times in that range. *)
Theorem timer_display_format (seconds : Z) :
  0 ≤ seconds < 6000 →
  Timer.display_text seconds
  = String (digit (seconds `div` 600))
      (String (digit ((seconds `div` 60) `mod` 10))
         (String ":"
            (String (digit ((seconds `mod` 60) `div` 10))
               (String (digit (seconds `mod` 10)) EmptyString)))) ∧
  (∀ other, 0 ≤ other < 6000 →
     Timer.display_text other = Timer.display_text seconds →
     other = seconds).
Proof.
  assert (Hone : ∀ n, 0 ≤ n < 6000 →
            Timer.display_text n
            = String (digit (n `div` 600))
                (String (digit ((n `div` 60) `mod` 10))
                   (String ":"
                      (String (digit ((n `mod` 60) `div` 10))
                         (String (digit (n `mod` 10)) EmptyString))))).
  { intros n Hn. unfold Timer.display_text.
    rewrite Z.rem_mod_nonneg by lia.
    rewrite !two_digits by (Z.div_mod_to_equations; lia).
    assert ((n `div` 60) `div` 10 = n `div` 600) as ->
      by (Z.div_mod_to_equations; lia).
    assert ((n `mod` 60) `mod` 10 = n `mod` 10) as ->
      by (Z.div_mod_to_equations; lia).
    done. }
  intros Hs. split; [by apply Hone|].
  intros other Ho Heq. rewrite !Hone in Heq by done.
  injection Heq as H1 H2 H3 H4.
  apply digit_inj in H1, H2, H3, H4; Z.div_mod_to_equations; lia.
Qed.

Lemma timer_display_format_witness :
  Timer.display_text 1499 = "24:59".
Proof.
  destruct (timer_display_format 1499) as (H & _); [lia|]. exact H.
Defined.

(** * The background script *)

Ltac run_BM :=
  unfold Background.try_catch, Background.throw, Background.get_state,
    Background.modify, Background.storage_get, Background.storage_set,
    Background.assign, mbind, Background.BM_bind, mret, Background.BM_ret;
  simpl.

Lemma background_updateStats_run (newStats : Background.StatsUpdate)
    (b : Background.State) :
  Background.updateStats newStats b =
  if get_rejects (Background.sync b) then (Normal false, b)
  else
    let change s :=
      Background.set_stats (Background.spread_stats (stats s) newStats) s in
    match focusSettings (Background.sync b) with
    | Some stored =>
      if set_rejects (Background.sync b) then (Normal false, b)
      else
        (Normal true,
         Background.set_sync
           {| focusSettings := Some (change stored); get_rejects := false;
              set_rejects := false;
              set_log := set_log (Background.sync b) ++ [change stored] |} b)
    | None =>
      let b1 := Background.set_DEFAULT_SETTINGS change b in
      if set_rejects (Background.sync b) then (Normal false, b1)
      else
        (Normal true,
         Background.set_sync
           {| focusSettings := Some (Background.DEFAULT_SETTINGS b1);
              get_rejects := false; set_rejects := false;
              set_log := set_log (Background.sync b)
                         ++ [Background.DEFAULT_SETTINGS b1] |} b1)
    end.
Proof.
  unfold Background.updateStats. run_BM.
  destruct (get_rejects (Background.sync b)) eqn:Hg; simpl; [done|].
  destruct (focusSettings (Background.sync b)) as [stored|]; simpl;
    destruct (set_rejects (Background.sync b)) eqn:Hs; simpl; try done;
    by rewrite Hg.
Qed.

Lemma spread_stats_idemp (old : option Stats)
    (newStats : Background.StatsUpdate) :
  Background.spread_stats (Some (Background.spread_stats old newStats)) newStats
  = Background.spread_stats old newStats.
Proof.
  unfold Background.spread_stats. simpl.
  destruct newStats as [[?|] [?|] [?|] [?|]]; reflexivity.
Qed.

(** X23.  [updateStats] of the background script overwrites.  With a
    working store that holds a settings object, the call answers
    [success: true] and stores the object with each stat that the payload
    names set to the payload's value (not added to the old one) and every
    other stat, the switch and the keyword lists as they were; so sending
    the same payload twice stores what sending it once stores.  If the
    read or the write is rejected the call answers [success: false], never
    throws, and stores nothing.  With nothing stored the new stats are
    assigned to [DEFAULT_SETTINGS] itself, which is then what is stored;
    the assignment stays even if the write is rejected. *)
Theorem background_updateStats_overwrites
    (newStats : Background.StatsUpdate) (b : Background.State) :
  let r := Background.updateStats newStats b in
  (∃ success, r.1 = Normal success ∧
     (success = false ↔
      get_rejects (Background.sync b) = true
      ∨ set_rejects (Background.sync b) = true)) ∧
  (get_rejects (Background.sync b) = true
   ∨ set_rejects (Background.sync b) = true →
   Background.sync r.2 = Background.sync b) ∧
  (get_rejects (Background.sync b) = false →
   set_rejects (Background.sync b) = false →
   ∀ stored, focusSettings (Background.sync b) = Some stored →
   ∃ stored' st',
     focusSettings (Background.sync r.2) = Some stored' ∧
     stats stored' = Some st' ∧
     same_policy stored stored' ∧
     educationalMinutes st'
       = or_else (Background.new_educationalMinutes newStats)
           (stats stored ≫= educationalMinutes) ∧
     blockedCount st'
       = or_else (Background.new_blockedCount newStats)
           (stats stored ≫= blockedCount) ∧
     focusStreak st'
       = or_else (Background.new_focusStreak newStats)
           (stats stored ≫= focusStreak) ∧
     lastActiveDate st'
       = default (stats stored ≫= lastActiveDate)
           (Background.new_lastActiveDate newStats) ∧
     focusSettings (Background.sync (Background.updateStats newStats r.2).2)
       = Some stored' ∧
     Background.DEFAULT_SETTINGS r.2 = Background.DEFAULT_SETTINGS b) ∧
  (get_rejects (Background.sync b) = false →
   focusSettings (Background.sync b) = None →
   stats (Background.DEFAULT_SETTINGS r.2)
     = Some (Background.spread_stats
               (stats (Background.DEFAULT_SETTINGS b)) newStats) ∧
   (set_rejects (Background.sync b) = false →
    focusSettings (Background.sync r.2)
      = Some (Background.DEFAULT_SETTINGS r.2))).
Proof.
  intros r. subst r. rewrite background_updateStats_run.
  destruct (get_rejects (Background.sync b)) eqn:Hg.
  { split_and!; [exists false; split; [done | split; [by left | done]]
                | done | done | done]. }
  cbv zeta.
  destruct (focusSettings (Background.sync b)) as [stored|] eqn:Hf.
  - destruct (set_rejects (Background.sync b)) eqn:Hs.
    { split_and!; [exists false; split; [done | split; [by right | done]]
                  | done | done | done]. }
    split_and!; [| | |done].
    + exists true. split; [done|]. split; [done | by intros [|]].
    + by intros [|].
    + intros _ _ stored0 [= <-].
      eexists _, _. split_and!; try done.
      * by destruct (stats stored).
      * by destruct (stats stored).
      * by destruct (stats stored).
      * simpl. destruct (Background.new_lastActiveDate newStats); [done|].
        by destruct (stats stored).
      * rewrite background_updateStats_run. simpl.
        by rewrite spread_stats_idemp.
  - destruct (set_rejects (Background.sync b)) eqn:Hs.
    { split_and!; [exists false; split; [done | split; [by right | done]]
                  | done | done | done]. }
    split_and!; [| |done|done].
    + exists true. split; [done|]. split; [done | by intros [|]].
    + by intros [|].
Qed.

Lemma background_onClicked_run (tab_url : option string)
    (b : Background.State) (stored : Settings) :
  get_rejects (Background.sync b) = false →
  set_rejects (Background.sync b) = false →
  focusSettings (Background.sync b) = Some stored →
  Background.onClicked tab_url b =
  let settings :=
    Background.set_focusModeEnabled (negb (truthy (focusModeEnabled stored)))
      stored in
  let b1 :=
    Background.set_sync
      {| focusSettings := Some settings; get_rejects := false;
         set_rejects := false;
         set_log := set_log (Background.sync b) ++ [settings] |} b in
  match tab_url with
  | None => (Throw TypeError, b1)
  | Some url =>
    if includes url "youtube.com"
    then (Normal tt, Background.add_tab_message settings b1)
    else (Normal tt, b1)
  end.
Proof.
  intros Hg Hs Hf. unfold Background.onClicked, Background.getSettings.
  run_BM. rewrite Hg, Hf. simpl. rewrite Hs, Hg. simpl.
  destruct tab_url as [url|]; [|done]. by destruct (includes url "youtube.com").
Qed.

(** X24.  A click on the extension icon.  With a working store that holds
    a settings object, the click stores that object with the switch
    flipped (a missing switch counts as off, so it becomes on) and
    everything else as it was: the lists are not filled in from the
    defaults.  The clicked tab gets the stored object in a
    [SETTINGS_UPDATED] message exactly if its address contains
    ['youtube.com'] somewhere; no other tab is told, and for any other
    address the store changes and no content script hears of it.  A tab
    object without an address makes the listener throw after the write.
    A second click puts back the object of before the first, if that had
    a switch. *)
Theorem background_click_toggles (tab_url : option string)
    (b : Background.State) (stored : Settings) :
  get_rejects (Background.sync b) = false →
  set_rejects (Background.sync b) = false →
  focusSettings (Background.sync b) = Some stored →
  let r := Background.onClicked tab_url b in
  let flipped :=
    {| focusModeEnabled := Some (negb (truthy (focusModeEnabled stored)));
       allowedKeywords := allowedKeywords stored;
       blockedKeywords := blockedKeywords stored; stats := stats stored |} in
  focusSettings (Background.sync r.2) = Some flipped ∧
  set_log (Background.sync r.2) = set_log (Background.sync b) ++ [flipped] ∧
  Background.DEFAULT_SETTINGS r.2 = Background.DEFAULT_SETTINGS b ∧
  (∀ url, tab_url = Some url → substring_of "youtube.com" url →
     r.1 = Normal tt ∧
     Background.tab_messages r.2 = Background.tab_messages b ++ [flipped]) ∧
  (∀ url, tab_url = Some url → ¬ substring_of "youtube.com" url →
     r.1 = Normal tt ∧
     Background.tab_messages r.2 = Background.tab_messages b) ∧
  (tab_url = None →
     r.1 = Throw TypeError ∧
     Background.tab_messages r.2 = Background.tab_messages b) ∧
  (is_Some (focusModeEnabled stored) →
   focusSettings (Background.sync (Background.onClicked tab_url r.2).2)
   = Some stored).
Proof.
  intros Hg Hs Hf r flipped. subst r.
  rewrite (background_onClicked_run tab_url b stored) by done. cbv zeta.
  fold flipped. change (Background.set_focusModeEnabled _ stored) with flipped.
  set (b1 := Background.set_sync _ b).
  assert (Hsecond : ∀ b2, Background.sync b2 = Background.sync b1 →
            is_Some (focusModeEnabled stored) →
            focusSettings (Background.sync (Background.onClicked tab_url b2).2)
            = Some stored).
  { intros b2 Hb2 [e He].
    rewrite (background_onClicked_run tab_url b2 flipped)
      by (by rewrite Hb2). cbv zeta.
    assert (Hback : Background.set_focusModeEnabled
                      (negb (truthy (focusModeEnabled flipped))) flipped
                    = stored).
    { destruct stored as [en A B st]. simpl in *. subst en.
      unfold Background.set_focusModeEnabled, flipped. simpl.
      by rewrite negb_involutive. }
    rewrite Hback. destruct tab_url as [url|]; [|done].
    by destruct (includes url "youtube.com"). }
  destruct tab_url as [url|].
  - destruct (includes url "youtube.com") eqn:Hinc; cbn [fst snd].
    + split_and!; try done.
      * intros url' [= <-] Hsub. apply includes_false_spec in Hsub.
        congruence.
      * by apply Hsecond.
    + split_and!; try done.
      * intros url' [= <-] Hsub. apply includes_spec in Hsub. congruence.
      * by apply Hsecond.
  - cbn [fst snd]. split_and!; try done. by apply Hsecond.
Qed.

Lemma background_click_toggles_witness :
  ∃ m,
    Background.tab_messages
      (Background.onClicked (Some "https://www.youtube.com/watch?v=1")
         (sample_background (Some sample_settings))).2 = [m] ∧
    focusModeEnabled m = Some false.
Proof.
  destruct (background_click_toggles
              (Some "https://www.youtube.com/watch?v=1")
              (sample_background (Some sample_settings)) sample_settings
              eq_refl eq_refl eq_refl) as (_ & _ & _ & Hsent & _).
  destruct (Hsent "https://www.youtube.com/watch?v=1" eq_refl) as [_ Hm].
  { apply includes_spec. by vm_compute. }
  eexists. split; [exact Hm | reflexivity].
Defined.

(** * The daily reset *)

Lemma background_resetDailyStats_run (today yesterday : string)
    (b : Background.State) (stored : Settings) (st : Stats) (streak : option Z) :
  get_rejects (Background.sync b) = false →
  set_rejects (Background.sync b) = false →
  focusSettings (Background.sync b) = Some stored →
  stats stored = Some st →
  Background.streak_after_reset today yesterday st = Some streak →
  Background.resetDailyStats today yesterday b =
  let st' := {| educationalMinutes := Some 0; blockedCount := Some 0;
                focusStreak := streak; lastActiveDate := Some today |} in
  let b2 :=
    Background.set_sync
      {| focusSettings := Some (Background.set_stats st' stored);
         get_rejects := false; set_rejects := false;
         set_log := set_log (Background.sync b)
                    ++ [Background.set_stats st' stored] |} b in
  Some (Normal tt,
        if Background.streak_is_significant streak
        then Background.add_streak_notification (default 0 streak) b2
        else b2).
Proof.
  intros Hg Hs Hf Hst Hstreak. unfold Background.resetDailyStats.
  cbv zeta. rewrite Hg, Hf. cbn [default]. unfold id. rewrite Hst, Hstreak.
  unfold Background.assign, Background.storage_set, mret, Background.BM_ret.
  cbn [Background.sync]. by rewrite Hs, Hg.
Qed.

(** X27.  The daily reset.  With a working store that holds a settings
    object whose stats have a streak [n], the alarm's listener stores the
    object with both daily counters at zero and today's date, the switch
    and the lists untouched, and the streak [n + 1] if the last active
    date is yesterday's, [n] if it is today's (or missing), and zero
    otherwise.  What the counters were plays no part: on a run of days,
    each the day after the one before, the streak grows by one at every
    alarm, also if no educational minute was counted on any of them.  A
    streak that is a positive multiple of seven is announced. *)
Theorem daily_reset_counts_days (today yesterday : string)
    (b : Background.State) (stored : Settings) (st : Stats) (n : Z) :
  get_rejects (Background.sync b) = false →
  set_rejects (Background.sync b) = false →
  focusSettings (Background.sync b) = Some stored →
  stats stored = Some st → focusStreak st = Some n →
  today ≠ "" →
  let n' := if bool_decide (lastActiveDate st = Some yesterday
                            ∧ yesterday ≠ "") then n + 1
            else if bool_decide (lastActiveDate st = Some today
                                 ∨ Background.date_truthy (lastActiveDate st)
                                   = false) then n
            else 0 in
  ∃ b' stored',
    Background.resetDailyStats today yesterday b = Some (Normal tt, b') ∧
    focusSettings (Background.sync b') = Some stored' ∧
    same_policy stored stored' ∧
    stats stored'
      = Some {| educationalMinutes := Some 0; blockedCount := Some 0;
                focusStreak := Some n'; lastActiveDate := Some today |} ∧
    Background.streak_notifications b'
      = Background.streak_notifications b
        ++ (if bool_decide (0 < n' ∧ n' `rem` 7 = 0) then [n'] else []) ∧
    (∀ days,
       Forall (λ day, day.1 ≠ "") days →
       ∃ b_end stored_end,
         Background.daily_resets today days b' = Some b_end ∧
         focusSettings (Background.sync b_end) = Some stored_end ∧
         stats stored_end ≫= focusStreak = Some (n' + Z.of_nat (length days)) ∧
         stats stored_end ≫= educationalMinutes = Some 0).
Proof.
  intros Hg Hs Hf Hst Hn Htoday n'.
  assert (Hstreak : Background.streak_after_reset today yesterday st
                    = Some (Some n')).
  { unfold Background.streak_after_reset, Background.date_truthy. subst n'.
    destruct (lastActiveDate st) as [d|]; simpl; rewrite ?Hn;
      repeat case_bool_decide; simpl in *; rewrite ?Hn; try done;
      try (exfalso; intuition congruence). }
  rewrite (background_resetDailyStats_run today yesterday b stored st (Some n'))
    by done.
  cbv zeta.
  set (st' := {| educationalMinutes := Some 0; blockedCount := Some 0;
                 focusStreak := Some n'; lastActiveDate := Some today |}).
  set (b2 := Background.set_sync _ b).
  eexists _, (Background.set_stats st' stored).
  split; [reflexivity|].
  assert (Hsync : ∀ x, Background.sync
            (if Background.streak_is_significant (Some n')
             then Background.add_streak_notification x b2 else b2)
            = Background.sync b2) by (intros x; by destruct (Background.streak_is_significant _)).
  split; [by rewrite Hsync|]. split; [done|]. split; [done|]. split.
  { unfold Background.streak_is_significant.
    destruct (decide (0 < n' ∧ n' `rem` 7 = 0)) as [[H1 H2]|Hno].
    - rewrite (bool_decide_eq_true_2 (0 < n')), (bool_decide_eq_true_2 (_ = 0)),
        (bool_decide_eq_true_2 (_ ∧ _)) by done. done.
    - rewrite (bool_decide_eq_false_2 (_ ∧ _)) by done.
      destruct (decide (0 < n')) as [H1|H1].
      + rewrite (bool_decide_eq_true_2 (0 < n')) by done.
        rewrite (bool_decide_eq_false_2 (_ = 0)) by (intros H2; by apply Hno).
        simpl. by rewrite app_nil_r.
      + rewrite (bool_decide_eq_false_2 (0 < n')) by done. simpl.
        by rewrite app_nil_r. }
  assert (Hdays : ∀ days y (b0 : Background.State) s0 st0 k,
            Forall (λ day : string * (Z * Z), day.1 ≠ "") days →
            y ≠ "" →
            get_rejects (Background.sync b0) = false →
            set_rejects (Background.sync b0) = false →
            focusSettings (Background.sync b0) = Some s0 →
            stats s0 = Some st0 → focusStreak st0 = Some k →
            lastActiveDate st0 = Some y →
            ∃ b_end stored_end,
              Background.daily_resets y days b0 = Some b_end ∧
              focusSettings (Background.sync b_end) = Some stored_end ∧
              stats stored_end ≫= focusStreak
                = Some (k + Z.of_nat (length days)) ∧
              (days ≠ [] → stats stored_end ≫= educationalMinutes = Some 0)).
  { clear. induction days as [|[day [minutes count]] days IH];
      intros y b0 s0 st0 k Hdays Hy Hg Hs Hf Hst Hk Hlast.
    - exists b0, s0. simpl. rewrite Hf, Hst. simpl. rewrite Hk.
      split_and!; try done. f_equal. lia.
    - apply Forall_cons in Hdays as [Hday Hdays]. simpl in Hday.
      cbn [Background.daily_resets].
      set (counted := Background.content_script_counts minutes count b0).
      set (s1 := add_educationalMinutes minutes (add_blockedCount count s0)).
      assert (Hf1 : focusSettings (Background.sync counted) = Some s1).
      { subst counted. unfold Background.content_script_counts. simpl.
        by rewrite Hf. }
      assert (Hst1 : ∃ st1, stats s1 = Some st1 ∧ focusStreak st1 = Some k
                            ∧ lastActiveDate st1 = Some y).
      { subst s1. unfold add_educationalMinutes, add_blockedCount. simpl.
        rewrite Hst. simpl. by eexists. }
      destruct Hst1 as (st1 & Hst1 & Hk1 & Hl1).
      assert (Hstreak1 : Background.streak_after_reset day y st1
                         = Some (Some (k + 1))).
      { unfold Background.streak_after_reset. rewrite Hl1. simpl.
        rewrite (bool_decide_eq_false_2 (y = "")) by done. simpl.
        rewrite bool_decide_eq_true_2 by done. by rewrite Hk1. }
      rewrite (background_resetDailyStats_run day y counted s1 st1
                 (Some (k + 1))) by done.
      cbv zeta.
      set (st2 := {| educationalMinutes := Some 0; blockedCount := Some 0;
                     focusStreak := Some (k + 1);
                     lastActiveDate := Some day |}).
      set (b2 := Background.set_sync _ counted).
      set (b3 := if Background.streak_is_significant (Some (k + 1))
                 then Background.add_streak_notification _ b2 else b2).
      assert (Hsync3 : Background.sync b3 = Background.sync b2)
        by (subst b3; by destruct (Background.streak_is_significant _)).
      destruct (IH day b3 (Background.set_stats st2 s1) st2 (k + 1))
        as (b_end & stored_end & Hrun & Hfe & Hke & Hme);
        try done; try (by rewrite Hsync3).
      exists b_end, stored_end. split_and!; try done.
      + rewrite Hke. f_equal. simpl. lia.
      + intros _. destruct days as [|d days']; [|by apply Hme].
        simpl in Hrun. injection Hrun as <-. rewrite Hsync3 in Hfe.
        simpl in Hfe. by injection Hfe as <-. }
  intros days Hne.
  destruct days as [|d days'] eqn:Hd.
  - eexists _, _. split; [reflexivity|]. rewrite Hsync. simpl.
    split_and!; try done. by rewrite Z.add_0_r.
  - rewrite <- Hd in *.
    destruct (Hdays days today
                (if Background.streak_is_significant (Some n')
                 then Background.add_streak_notification (default 0 (Some n')) b2
                 else b2)
                (Background.set_stats st' stored) st' n')
      as (b_end & stored_end & Hrun & Hfe & Hke & Hme);
      try done; try (by rewrite Hsync).
    exists b_end, stored_end. split_and!; try done. apply Hme. by rewrite Hd.
Qed.

Lemma daily_reset_counts_days_witness :
  ∃ b_end stored_end,
    Background.daily_resets "Mon Nov 02 2026"
      [("Tue Nov 03 2026", (0, 0)); ("Wed Nov 04 2026", (0, 5))]
      (sample_background
         (Some {| focusModeEnabled := Some true; allowedKeywords := Some [];
                  blockedKeywords := Some [];
                  stats := Some {| educationalMinutes := Some 0;
                                   blockedCount := Some 0;
                                   focusStreak := Some 5;
                                   lastActiveDate := Some "Mon Nov 02 2026" |} |}))
    = Some b_end ∧
    focusSettings (Background.sync b_end) = Some stored_end ∧
    stats stored_end ≫= focusStreak = Some 7.
Proof.
  destruct (daily_reset_counts_days "Tue Nov 03 2026" "Mon Nov 02 2026"
              (Background.content_script_counts 0 0
                 (sample_background
                    (Some {| focusModeEnabled := Some true;
                             allowedKeywords := Some [];
                             blockedKeywords := Some [];
                             stats := Some {| educationalMinutes := Some 0;
                                              blockedCount := Some 0;
                                              focusStreak := Some 5;
                                              lastActiveDate :=
                                                Some "Mon Nov 02 2026" |} |})))
              _ _ 5 eq_refl eq_refl eq_refl eq_refl eq_refl)
    as (b' & stored' & Hrun & _ & _ & _ & _ & Hdays); [done|].
  destruct (Hdays [("Wed Nov 04 2026", (0, 5))])
    as (b_end & stored_end & Hrun' & Hf & Hk & _).
  { repeat constructor. done. }
  exists b_end, stored_end. split_and!; [|exact Hf|exact Hk].
  cbn [Background.daily_resets]. rewrite Hrun. exact Hrun'.
Defined.

(** * The streak, as the popup keeps it *)

(** X28.  [checkStreak] of the popup, on the stored settings object with
    a working store and a streak [n].  If the last active date is
    today's, nothing happens: nothing is written, nothing is sent.
    Otherwise the daily counters go to zero, the date becomes today's and
    the streak becomes [n + 1] if the last active date is yesterday's and
    1 if it is anything else (missing included); the result is stored and
    sent to the YouTube tabs with the switch and the lists of the stored
    object, and a second call on the same day changes nothing.  After a
    gap of more than a day the popup thus restarts the streak at 1, where
    the daily reset of the background script puts it to 0. *)
Theorem popup_checkStreak_restarts_at_one (today yesterday : string)
    (p : Popup.State) (stored : Settings) (st : Stats) (n : Z) :
  get_rejects (Popup.sync p) = false → set_rejects (Popup.sync p) = false →
  focusSettings (Popup.sync p) = Some stored →
  stats stored = Some st → focusStreak st = Some n →
  let r := Popup.checkStreak today yesterday (Some stored) p in
  (lastActiveDate st = Some today → r = Some (Normal tt, p)) ∧
  (lastActiveDate st ≠ Some today →
   ∃ p' m,
     r = Some (Normal tt, p') ∧
     focusSettings (Popup.sync p') = Some m ∧
     Popup.broadcasts p' = Popup.broadcasts p ++ [m] ∧
     stats m
       = Some {| educationalMinutes := Some 0; blockedCount := Some 0;
                 focusStreak :=
                   Some (if bool_decide (lastActiveDate st = Some yesterday)
                         then n + 1 else 1);
                 lastActiveDate := Some today |} ∧
     focusModeEnabled m
       = or_else (focusModeEnabled stored)
           (focusModeEnabled (Popup.DEFAULT_SETTINGS p)) ∧
     (∀ type, Popup.get_list type m
        = or_else (Popup.get_list type stored)
            (Popup.get_list type (Popup.DEFAULT_SETTINGS p))) ∧
     Popup.checkStreak today yesterday (Some m) p' = Some (Normal tt, p')) ∧
  (lastActiveDate st ≠ Some today → lastActiveDate st ≠ Some yesterday →
   Background.date_truthy (lastActiveDate st) = true →
   Popup.streak_after_check yesterday st = Some (Some 1) ∧
   Background.streak_after_reset today yesterday st = Some (Some 0)).
Proof.
  intros Hg Hs Hf Hst Hn r. subst r. unfold Popup.checkStreak.
  cbv zeta. cbn [default]. unfold id. rewrite Hst. split_and!.
  - intros Ht. by rewrite bool_decide_eq_true_2.
  - intros Ht. rewrite bool_decide_eq_false_2 by done.
    assert (Hstreak : Popup.streak_after_check yesterday st
              = Some (Some (if bool_decide (lastActiveDate st = Some yesterday)
                            then n + 1 else 1))).
    { unfold Popup.streak_after_check. case_bool_decide; [by rewrite Hn|done]. }
    rewrite Hstreak. cbv zeta.
    set (st' := {| educationalMinutes := Some 0 |}).
    destruct (popup_saveSettings_working (Popup.only_stats st') p Hg Hs)
      as (m & Hr & Hm & _ & Hbr & He & Hl & Hstats).
    destruct (Popup.saveSettings (Popup.only_stats st') p) as [c p'] eqn:Hrun.
    simpl in Hr, Hm, Hbr. subst c.
    assert (Hstats' : stats m = Some st') by (by rewrite Hstats).
    exists p', m.
    split; [done|]. split; [done|]. split; [done|]. split; [done|].
    split; [|split].
    + rewrite He, Hf. done.
    + intros type. rewrite Hl, Hf. unfold Popup.only_stats, Popup.get_list.
      simpl. by destruct (Popup.is_allowed type).
    + rewrite Hstats'. simpl. by rewrite bool_decide_eq_true_2.
  - intros Ht Hy Htruthy. split.
    + unfold Popup.streak_after_check. by rewrite bool_decide_eq_false_2.
    + unfold Background.streak_after_reset. rewrite Htruthy.
      rewrite bool_decide_eq_false_2 by done.
      by rewrite bool_decide_eq_true_2.
Qed.

Lemma popup_checkStreak_restarts_at_one_witness :
  let stored :=
    {| focusModeEnabled := Some true; allowedKeywords := Some ["python"];
       blockedKeywords := Some ["prank"];
       stats := Some {| educationalMinutes := Some 30; blockedCount := Some 4;
                        focusStreak := Some 5;
                        lastActiveDate := Some "Fri Oct 30 2026" |} |} in
  ∃ p' m,
    Popup.checkStreak "Mon Nov 02 2026" "Sun Nov 01 2026" (Some stored)
      (sample_popup (Some stored) "") = Some (Normal tt, p') ∧
    focusSettings (Popup.sync p') = Some m ∧
    stats m ≫= focusStreak = Some 1.
Proof.
  intros stored.
  destruct (popup_checkStreak_restarts_at_one "Mon Nov 02 2026"
              "Sun Nov 01 2026" (sample_popup (Some stored) "") stored
              _ 5 eq_refl eq_refl eq_refl eq_refl eq_refl)
    as (_ & Hcheck & _).
  destruct Hcheck as (p' & m & Hr & Hm & _ & Hst & _); [done|].
  exists p', m. split_and!; [exact Hr | exact Hm |]. by rewrite Hst.
Defined.

(** * The timers of the content script *)

Lemma elem_of_List_filter {A : Type} (f : A → bool) (l : list A) (x : A) :
  x ∈ List.filter f l ↔ x ∈ l ∧ f x = true.
Proof. by rewrite !list_elem_of_In, filter_In. Qed.

Lemma List_filter_sublist {A : Type} (f : A → bool) (l : list A) :
  List.filter f l `sublist_of` l.
Proof.
  induction l as [|x l IH]; simpl; [done|]. destruct (f x); by constructor.
Qed.

Lemma sublist_Forall {A : Type} (P : A → Prop) (l k : list A) :
  l `sublist_of` k → Forall P k → Forall P l.
Proof.
  intros Hsub Hk. apply Forall_forall. intros x Hx.
  apply (proj1 (Forall_forall _ _) Hk). by eapply elem_of_sublist.
Qed.

Lemma script_timers_ok_initial (w : World) : Script.timers_ok (Script.initial w).
Proof.
  unfold Script.timers_ok. simpl. split_and!; try done. constructor.
Qed.

(** Arming a timer keeps the timers in order, if a debounced scan is then
    noted in [window.focusScanTimeout] and a poll in [scanInterval]. *)
Lemma script_add_timer_ok (cb : Event) (delay : Z) (repeat : bool)
    (s : Script.State) :
  Script.timers_ok s →
  (Script.is_debounced cb = true →
   Script.focusScanTimeout s = Some (Script.next_handle s)) →
  (Script.is_poll cb = true →
   Script.isInitialized s = true ∧
   Script.scanInterval s = Some (Script.next_handle s)) →
  Script.timers_ok (Script.add_timer cb delay repeat s).2.
Proof.
  intros (Hnd & Hlt & Hdeb & Hpoll & Hinit) Hcb Hcp.
  unfold Script.timers_ok, Script.add_timer. simpl.
  split_and!; try done.
  - rewrite fmap_app. apply NoDup_app. split_and!; [done| |apply NoDup_singleton].
    intros h Hh ->%list_elem_of_singleton.
    apply list_elem_of_fmap in Hh as (t & Ht & Hin).
    pose proof (proj1 (Forall_forall _ _) Hlt t Hin) as Hb. simpl in *. lia.
  - apply Forall_app. split.
    + eapply Forall_impl; [exact Hlt|]. intros t Ht. simpl in *. lia.
    + apply Forall_singleton. simpl. lia.
  - apply Forall_app. split; [done|]. by apply Forall_singleton.
  - apply Forall_app. split; [done|]. by apply Forall_singleton.
Qed.

Lemma script_set_world_ok (f : World → World) (s : Script.State) :
  Script.timers_ok s → Script.timers_ok (Script.set_world f s).
Proof. done. Qed.

Lemma script_on_mutations_ok (mutations : list nat) (s : Script.State) :
  Script.timers_ok s → Script.timers_ok (Script.on_mutations mutations s).
Proof.
  intros Hok. unfold Script.on_mutations.
  destruct (negb _); [done|]. destruct (existsb _ _); [|done].
  destruct Hok as (Hnd & Hlt & Hdeb & Hpoll & Hinit).
  unfold Script.timers_ok, Script.add_timer, Script.clearTimeout,
    Script.set_focusScanTimeout. simpl.
  set (kept := match Script.focusScanTimeout s with
               | Some h => List.filter (λ t, negb (Script.handle t =? h)%nat)
                             (Script.timers s)
               | None => Script.timers s
               end).
  assert (Hsub : kept `sublist_of` Script.timers s).
  { subst kept. destruct (Script.focusScanTimeout s); [|done].
    apply List_filter_sublist. }
  assert (Hnone : Forall (λ t, Script.is_debounced (Script.callback t) = false)
                    kept).
  { subst kept. apply Forall_forall. intros t Ht.
    destruct (Script.is_debounced (Script.callback t)) eqn:Hd; [|done].
    destruct (Script.focusScanTimeout s) as [h|] eqn:Hf.
    - apply elem_of_List_filter in Ht as [Hin Hne].
      pose proof (proj1 (Forall_forall _ _) Hdeb t Hin Hd) as [= Hh].
      rewrite Hh, Nat.eqb_refl in Hne. done.
    - by pose proof (proj1 (Forall_forall _ _) Hdeb t Ht Hd). }
  split_and!; try done.
  - rewrite fmap_app. apply NoDup_app. split_and!; [| |apply NoDup_singleton].
    + eapply sublist_NoDup; [exact Hnd | by apply fmap_sublist].
    + intros h Hh ->%list_elem_of_singleton.
      apply list_elem_of_fmap in Hh as (t & Ht & Hin).
      assert (Hin' : t ∈ Script.timers s) by by eapply elem_of_sublist.
      pose proof (proj1 (Forall_forall _ _) Hlt t Hin') as Hb. simpl in *. lia.
  - apply Forall_app. split.
    + eapply Forall_impl; [exact (sublist_Forall _ _ _ Hsub Hlt)|].
      intros t Ht. simpl in *. lia.
    + apply Forall_singleton. simpl. lia.
  - apply Forall_app. split; [|by apply Forall_singleton].
    eapply Forall_impl; [exact Hnone|]. intros t Ht Hd. congruence.
  - apply Forall_app.
    split; [exact (sublist_Forall _ _ _ Hsub Hpoll) | by apply Forall_singleton].
Qed.

Lemma script_initialize_ok (s : Script.State) :
  Script.timers_ok s → Script.timers_ok (Script.initialize s).
Proof.
  intros Hok. unfold Script.initialize.
  destruct (Script.isInitialized s) eqn:Hinit; [done|]. cbv zeta.
  set (s1 := Script.set_world _ s).
  assert (Hok1 : Script.timers_ok s1) by done.
  set (s2 := if truthy _ then _ else s1).
  assert (Hok2 : Script.timers_ok s2).
  { subst s2. destruct (truthy _); [|done].
    by apply script_add_timer_ok. }
  assert (Hinit2 : Script.isInitialized s2 = false).
  { subst s2. by destruct (truthy _). }
  destruct Hok2 as (Hnd & Hlt & Hdeb & Hpoll & Hi).
  unfold Script.timers_ok, Script.add_timer. simpl.
  split_and!; try done.
  - rewrite fmap_app. apply NoDup_app. split_and!; [done| |apply NoDup_singleton].
    intros h Hh ->%list_elem_of_singleton.
    apply list_elem_of_fmap in Hh as (t & Ht & Hin).
    pose proof (proj1 (Forall_forall _ _) Hlt t Hin) as Hb. simpl in *. lia.
  - apply Forall_app. split.
    + eapply Forall_impl; [exact Hlt|]. intros t Ht. simpl in *. lia.
    + apply Forall_singleton. simpl. lia.
  - apply Forall_app. split; [done|]. by apply Forall_singleton.
  - apply Forall_app. split; [|by apply Forall_singleton].
    apply Forall_forall. intros t Hin Hp.
    destruct (proj1 (Forall_forall _ _) Hpoll t Hin Hp) as [Hc _]. congruence.
Qed.

Lemma script_fire_ok (h : nat) (s : Script.State) :
  Script.timers_ok s → Script.timers_ok (Script.fire h s).
Proof.
  intros Hok. unfold Script.fire.
  destruct (find _ _) as [t|] eqn:Hfind; [|done].
  case_bool_decide; [|done].
  apply find_some in Hfind as [Hin Hh]. apply Nat.eqb_eq in Hh.
  apply list_elem_of_In in Hin.
  destruct Hok as (Hnd & Hlt & Hdeb & Hpoll & Hinit).
  set (rest := List.filter (λ t', negb (Script.handle t' =? h)%nat)
                 (Script.timers s)).
  assert (Hsub : rest `sublist_of` Script.timers s)
    by apply List_filter_sublist.
  assert (Hrest : Script.timers_ok
            {| Script.world := step (Script.callback t) (Script.world s);
               Script.isInitialized := Script.isInitialized s;
               Script.has_styles := Script.has_styles s;
               Script.observers := Script.observers s;
               Script.scanInterval := Script.scanInterval s;
               Script.focusScanTimeout := Script.focusScanTimeout s;
               Script.timers := rest;
               Script.next_handle := Script.next_handle s;
               Script.listening := Script.listening s |}).
  { unfold Script.timers_ok. simpl. split_and!; try done.
    - eapply sublist_NoDup; [exact Hnd | by apply fmap_sublist].
    - exact (sublist_Forall _ _ _ Hsub Hlt).
    - exact (sublist_Forall _ _ _ Hsub Hdeb).
    - exact (sublist_Forall _ _ _ Hsub Hpoll). }
  cbv zeta. destruct (Script.period t) as [p|]; [|exact Hrest].
  destruct Hrest as (Hnd' & Hlt' & Hdeb' & Hpoll' & _).
  unfold Script.timers_ok. simpl in *. split_and!; try done.
  - rewrite fmap_app. apply NoDup_app. split_and!; [done| |apply NoDup_singleton].
    intros h' Hh' ->%list_elem_of_singleton.
    apply list_elem_of_fmap in Hh' as (t' & Ht' & Hin').
    apply elem_of_List_filter in Hin' as [_ Hne]. simpl in Ht'.
    rewrite <- Ht', Nat.eqb_refl in Hne. done.
  - apply Forall_app. split; [done|]. apply Forall_singleton. simpl.
    pose proof (proj1 (Forall_forall _ _) Hlt t Hin) as Hb. cbn beta in Hb.
    lia.
  - apply Forall_app. split; [done|]. apply Forall_singleton. simpl.
    intros Hd. rewrite <- Hh.
    by apply (proj1 (Forall_forall _ _) Hdeb t Hin).
  - apply Forall_app. split; [done|]. apply Forall_singleton. simpl.
    intros Hp. rewrite <- Hh.
    by apply (proj1 (Forall_forall _ _) Hpoll t Hin).
Qed.

Lemma script_react_ok (i : Script.Input) (s : Script.State) :
  Script.timers_ok s → Script.timers_ok (Script.react i s).
Proof.
  intros Hok. destruct i as [|mutations| |message|h|t]; cbn [Script.react].
  - by apply script_initialize_ok.
  - destruct (0 <? _)%nat; [by apply script_on_mutations_ok | done].
  - destruct (Script.listening s); [|done]. unfold Script.onNavigate.
    cbv zeta. destruct (truthy _); [|done].
    by apply script_add_timer_ok.
  - by destruct (Script.listening s).
  - by apply script_fire_ok.
  - done.
Qed.

Lemma script_run_snoc (inputs : list Script.Input) (i : Script.Input)
    (s : Script.State) :
  Script.run (inputs ++ [i]) s = Script.react i (Script.run inputs s).
Proof. unfold Script.run. by rewrite foldl_app. Qed.

Lemma script_run_ok (inputs : list Script.Input) (s : Script.State) :
  Script.timers_ok s → Script.timers_ok (Script.run inputs s).
Proof.
  intros Hok. induction inputs as [|i inputs IH] using rev_ind; [done|].
  rewrite script_run_snoc. by apply script_react_ok.
Qed.

Lemma at_most_one_with_handle (P : Script.Timer → bool) (h : option nat)
    (l : list Script.Timer) :
  NoDup (Script.handle <$> l) →
  Forall (λ t, P t = true → h = Some (Script.handle t)) l →
  (length (List.filter P l) ≤ 1)%nat.
Proof.
  intros Hnd Hall.
  assert (Hsub : List.filter P l `sublist_of` l) by apply List_filter_sublist.
  assert (Hnd' : NoDup (Script.handle <$> List.filter P l)).
  { eapply sublist_NoDup; [exact Hnd | by apply fmap_sublist]. }
  assert (Hh : Forall (λ t, h = Some (Script.handle t)) (List.filter P l)).
  { apply Forall_forall. intros t Ht. apply elem_of_List_filter in Ht as [Hin HP].
    by apply (proj1 (Forall_forall _ _) Hall t Hin). }
  destruct (List.filter P l) as [|t1 [|t2 rest]]; simpl; [lia|lia|].
  exfalso. apply Forall_cons in Hh as [H1 Hh]. apply Forall_cons in Hh as [H2 _].
  rewrite H1 in H2. injection H2 as H2.
  simpl in Hnd'. apply NoDup_cons in Hnd' as [Hn _]. apply Hn.
  rewrite H2. by left.
Qed.

Lemma List_filter_none {A : Type} (f : A → bool) (l : list A) :
  Forall (λ x, f x = false) l → List.filter f l = [].
Proof.
  induction 1 as [|x l Hx _ IH]; simpl; [done|]. by rewrite Hx.
Qed.

(** After the observer's callback has armed its timer, that timer is the
    only debounced scan that is pending. *)
Lemma script_on_mutations_pending (mutations : list nat) (s : Script.State) :
  Script.timers_ok s →
  truthy (focusModeEnabled (settings (Script.world s))) = true →
  existsb (λ added, (0 <? added)%nat) mutations = true →
  Script.pending Script.is_debounced (Script.on_mutations mutations s)
  = [{| Script.handle := Script.next_handle s;
        Script.due := now (Script.world s) + 200;
        Script.period := None; Script.callback := DebouncedScan |}].
Proof.
  intros (Hnd & Hlt & Hdeb & _) Hon Hadded.
  unfold Script.on_mutations. rewrite Hon, Hadded. cbn [negb].
  unfold Script.pending, Script.add_timer, Script.clearTimeout,
    Script.set_focusScanTimeout. simpl.
  rewrite List.filter_app. simpl.
  rewrite List_filter_none; [done|].
  apply Forall_forall. intros t Ht.
  destruct (Script.is_debounced (Script.callback t)) eqn:Hd; [|done].
  destruct (Script.focusScanTimeout s) as [h|] eqn:Hf.
  - apply elem_of_List_filter in Ht as [Hin Hne].
    pose proof (proj1 (Forall_forall _ _) Hdeb t Hin Hd) as [= Hh].
    rewrite Hh, Nat.eqb_refl in Hne. done.
  - by pose proof (proj1 (Forall_forall _ _) Hdeb t Ht Hd).
Qed.

(** X25.  The scans that the observer asks for are coalesced; those of
    navigation are not.  From the moment the script is loaded, whatever
    happens ([initialize], reports of the observer, navigation, messages,
    timers firing, time passing): at most one debounced scan is pending,
    at most one poll timer is running and at most one observer is
    connected.  When the observer reports added nodes while focus mode is
    on, the pending debounced scan, if any, is cancelled and the one
    pending afterwards is due 200 ms after the report: a burst of reports
    leads to one scan, 200 ms after the last of them.  Every navigation
    while focus mode is on, however, arms one more 500 ms timer, so
    several settled scans can be pending at once.  [initialize] leaves
    the flag set, the styles injected, one observer, the poll timer and
    the listeners; a second call changes nothing. *)
Theorem observer_scans_coalesce (inputs : list Script.Input) (w : World) :
  let s := Script.run inputs (Script.initial w) in
  (length (Script.pending Script.is_debounced s) ≤ 1)%nat ∧
  (length (Script.pending Script.is_poll s) ≤ 1)%nat ∧
  (Script.observers s ≤ 1)%nat ∧
  (∀ mutations,
     (0 < Script.observers s)%nat →
     truthy (focusModeEnabled (settings (Script.world s))) = true →
     (∃ added, added ∈ mutations ∧ (0 < added)%nat) →
     ∃ h,
       Script.pending Script.is_debounced
         (Script.react (Script.Mutations mutations) s)
       = [{| Script.handle := h; Script.due := now (Script.world s) + 200;
             Script.period := None; Script.callback := DebouncedScan |}]) ∧
  (Script.listening s = true →
   truthy (focusModeEnabled (settings (Script.world s))) = true →
   length (Script.pending Script.is_settled
             (Script.react Script.NavigateFinish s))
   = S (length (Script.pending Script.is_settled s))) ∧
  (let s1 := Script.react Script.Initialize s in
   Script.isInitialized s1 = true ∧ Script.has_styles s1 = true ∧
   Script.observers s1 = 1%nat ∧ Script.listening s1 = true ∧
   (Script.isInitialized s = false →
    length (Script.pending Script.is_poll s1) = 1%nat) ∧
   Script.react Script.Initialize s1 = s1).
Proof.
  intros s.
  assert (Hok : Script.timers_ok s)
    by (apply script_run_ok, script_timers_ok_initial).
  pose proof Hok as (Hnd & Hlt & Hdeb & Hpoll & Hinit).
  split; [|split; [|split; [|split; [|split]]]].
  - unfold Script.pending.
    apply (at_most_one_with_handle _ (Script.focusScanTimeout s)); [done|].
    exact Hdeb.
  - unfold Script.pending.
    apply (at_most_one_with_handle _ (Script.scanInterval s)); [done|].
    eapply Forall_impl; [exact Hpoll|]. intros t Ht Hp. by destruct (Ht Hp).
  - destruct (Script.isInitialized s); [|lia]. by destruct Hinit as (_ & -> & _).
  - intros mutations Ho Hon (added & Hin & Hadd).
    exists (Script.next_handle s). cbn [Script.react].
    assert ((0 <? Script.observers s)%nat = true) as ->
      by (by apply Nat.ltb_lt).
    apply script_on_mutations_pending; [done..|].
    apply existsb_exists. exists added.
    split; [by apply list_elem_of_In | by apply Nat.ltb_lt].
  - intros Hl Hon. cbn [Script.react]. rewrite Hl.
    unfold Script.onNavigate. cbv zeta.
    assert (Hon' : truthy (focusModeEnabled
                     (settings (Script.world
                        (Script.set_world (step Navigate) s)))) = true).
    { cbn [Script.world Script.set_world]. unfold step. cbn [handler].
      by rewrite onNavigate_run. }
    rewrite Hon'. unfold Script.pending, Script.add_timer. simpl.
    rewrite List.filter_app, length_app. simpl. lia.
  - cbv zeta. cbn [Script.react]. unfold Script.initialize.
    destruct (Script.isInitialized s) eqn:Hi.
    + rewrite Hi. by destruct Hinit as (? & ? & ?).
    + cbv zeta.
      set (s1 := Script.set_world _ s).
      set (s2 := if truthy _ then _ else s1).
      unfold Script.add_timer. simpl. split_and!; try done. intros _.
      unfold Script.pending. simpl. rewrite List.filter_app, length_app. simpl.
      rewrite List_filter_none; [done|].
      assert (Hpoll2 : Forall (λ t, Script.is_poll (Script.callback t) = false)
                         (Script.timers s2)).
      { assert (Hs : Forall (λ t, Script.is_poll (Script.callback t) = false)
                       (Script.timers s)).
        { apply Forall_forall. intros t Hin.
          destruct (Script.is_poll (Script.callback t)) eqn:Hp; [|done].
          destruct (proj1 (Forall_forall _ _) Hpoll t Hin Hp) as [Hc _].
          congruence. }
        subst s2. destruct (truthy _); [|done].
        unfold Script.add_timer. simpl. apply Forall_app. split; [done|].
        by apply Forall_singleton. }
      exact Hpoll2.
Qed.
